(** * The meeting recommendation pipeline of it-da-ai-server

    A shallow embedding of [app/services/AIRecommendationService.py] and the
    properties its specification states about it: the value normalizers, the
    search payload builder, the relaxation ladder with its trace, intent
    detection and score correction, the regression scorer, the collaborative
    fallback and the orchestrating [get_ai_recommendations].

    Modelling conventions.
    - A Python [dict] with string keys is a [gmap string pyval]; [d.get(k)]
      is [get d k], [d.pop(k, None)] is [delete k d], [dict(d)] is [d] itself
      (the maps are immutable values, so a copy is the same map).
    - JSON-like values are [pyval]: [None], booleans, integers, floats,
      strings and lists of strings (the only list the service reads is
      [keywords]).
    - A Python [float] is a [pyfloat]: an exact rational, an infinity or NaN.
      Finite arithmetic is exact (no binary rounding, no overflow); the
      comparisons, [round], [int], [min] and [max] follow Python on all three
      kinds of value.
    - A [str] is a [string] of UTF-8 bytes.  Substring tests on bytes agree
      with Python's on code points because UTF-8 is self-synchronising; case
      conversion and trimming act on the ASCII range, which is what Python
      does on ASCII and Hangul text.
    - A raised exception is [Raise e] in the [result] monad.
    - The collaborators (query parser, context service, catalog, feature
      builder, regression model, collaborative model, rationale generator)
      are the fields of a [Service], which stands for [self] and for the
      global [model_loader].  Every call to one of them is recorded as an
      [event]; a collaborator answers as a function of the calls made
      before, so it may be stateful, and [IO] threads this record.
    - [logger] calls and the request id are not modelled: they do not reach
      the response. *)

From Stdlib Require Import ZArith QArith Qround Ascii String List Bool Lia.
From Stdlib Require Import Permutation Sorted Lqa.
From stdpp Require Import base option list strings gmap.

Local Open Scope string_scope.
Local Open Scope list_scope.
Local Open Scope Z_scope.

(** ** Exceptions *)

Inductive exn :=
| RuntimeError (msg : string)
| TypeError
| ValueError
| OverflowError
| ZeroDivisionError
| KeyError (key : string)
| CollaboratorError (msg : string).

Inductive result (A : Type) :=
| Ok (a : A)
| Raise (e : exn).
Arguments Ok {A} a.
Arguments Raise {A} e.

#[global] Instance result_ret : MRet result := fun _ a => Ok a.
#[global] Instance result_bind : MBind result := fun _ _ f r =>
  match r with
  | Ok a => f a
  | Raise e => Raise e
  end.

Definition is_ok {A} (r : result A) : bool :=
  match r with Ok _ => true | Raise _ => false end.

(** ** Floats *)

Inductive pyfloat :=
| FFin (q : Q)
| FInf (neg : bool)
| FNaN.

Definition Qis_neg (q : Q) : bool := Qnum q <? 0.
Definition Qis_zero (q : Q) : bool := Qnum q =? 0.

Definition fopp (x : pyfloat) : pyfloat :=
  match x with
  | FFin a => FFin (Qred (- a))
  | FInf s => FInf (negb s)
  | FNaN => FNaN
  end.

Definition fadd (x y : pyfloat) : pyfloat :=
  match x, y with
  | FNaN, _ | _, FNaN => FNaN
  | FFin a, FFin b => FFin (Qred (a + b))
  | FInf s, FFin _ | FFin _, FInf s => FInf s
  | FInf s, FInf t => if Bool.eqb s t then FInf s else FNaN
  end.

Definition fsub (x y : pyfloat) : pyfloat := fadd x (fopp y).

Definition fmul (x y : pyfloat) : pyfloat :=
  match x, y with
  | FNaN, _ | _, FNaN => FNaN
  | FFin a, FFin b => FFin (Qred (a * b))
  | FInf s, FFin b | FFin b, FInf s =>
      if Qis_zero b then FNaN else FInf (xorb s (Qis_neg b))
  | FInf s, FInf t => FInf (xorb s t)
  end.

(** Python raises on a zero divisor instead of producing an infinity. *)
Definition fdiv (x y : pyfloat) : result pyfloat :=
  match y with
  | FNaN => Ok FNaN
  | FInf _ => match x with FFin _ => Ok (FFin 0) | _ => Ok FNaN end
  | FFin b =>
      if Qis_zero b then Raise ZeroDivisionError
      else match x with
           | FFin a => Ok (FFin (Qred (a / b)))
           | FInf s => Ok (FInf (xorb s (Qis_neg b)))
           | FNaN => Ok FNaN
           end
  end.

(** Ordered comparison; [None] when one side is NaN. *)
Definition fcompare (x y : pyfloat) : option comparison :=
  match x, y with
  | FNaN, _ | _, FNaN => None
  | FFin a, FFin b => Some (a ?= b)%Q
  | FInf s, FInf t => Some (if Bool.eqb s t then Eq else if s then Lt else Gt)
  | FInf s, FFin _ => Some (if s then Lt else Gt)
  | FFin _, FInf s => Some (if s then Gt else Lt)
  end.

Definition flt (x y : pyfloat) : bool :=
  match fcompare x y with Some Lt => true | _ => false end.
Definition fgt (x y : pyfloat) : bool :=
  match fcompare x y with Some Gt => true | _ => false end.
Definition fle (x y : pyfloat) : bool :=
  match fcompare x y with Some Lt | Some Eq => true | _ => false end.
Definition fge (x y : pyfloat) : bool :=
  match fcompare x y with Some Gt | Some Eq => true | _ => false end.
Definition feq (x y : pyfloat) : bool :=
  match fcompare x y with Some Eq => true | _ => false end.

(** [min(a, b)] and [max(a, b)] keep the first argument unless the second
    is strictly smaller (larger): a NaN second argument is never chosen. *)
Definition py_min (a b : pyfloat) : pyfloat := if flt b a then b else a.
Definition py_max (a b : pyfloat) : pyfloat := if fgt b a then b else a.

(** [round(x)] on a float: nearest integer, ties to the even one. *)
Definition round_half_even (q : Q) : Z :=
  let f := Qfloor q in
  match (q - inject_Z f ?= 1 # 2)%Q with
  | Lt => f
  | Gt => f + 1
  | Eq => if Z.even f then f else f + 1
  end.

Definition py_round (x : pyfloat) : result Z :=
  match x with
  | FFin q => Ok (round_half_even q)
  | FInf _ => Raise OverflowError
  | FNaN => Raise ValueError
  end.

(** [int(x)] on a float truncates toward zero. *)
Definition py_int (x : pyfloat) : result Z :=
  match x with
  | FFin q => Ok (Z.quot (Qnum q) (Z.pos (Qden q)))
  | FInf _ => Raise OverflowError
  | FNaN => Raise ValueError
  end.

(** [round(x, ndigits)] keeps a float and never raises. *)
Definition py_round_n (ndigits : nat) (x : pyfloat) : pyfloat :=
  match x with
  | FFin q =>
      let scale := inject_Z (10 ^ Z.of_nat ndigits) in
      FFin (Qred (inject_Z (round_half_even (q * scale)) / scale))
  | _ => x
  end.

Definition of_int (z : Z) : pyfloat := FFin (inject_Z z).

(** ** Values and dictionaries *)

Inductive pyval :=
| VNone
| VBool (b : bool)
| VInt (z : Z)
| VFloat (f : pyfloat)
| VStr (s : string)
| VList (l : list string).

Abbreviation dict := (gmap string pyval).

(** Truth value of an object, as [if x], [not x] and [x or y] use it. *)
Definition truthy (v : pyval) : bool :=
  match v with
  | VNone => false
  | VBool b => b
  | VInt z => negb (z =? 0)
  | VFloat (FFin q) => negb (Qis_zero q)
  | VFloat _ => true
  | VStr s => negb (String.eqb s "")
  | VList l => match l with [] => false | _ => true end
  end.

Definition py_or (a b : pyval) : pyval := if truthy a then a else b.

Definition is_none (v : pyval) : bool :=
  match v with VNone => true | _ => false end.

Definition get (d : dict) (k : string) : pyval := default VNone (d !! k).
Definition get_default (d : dict) (k : string) (dflt : pyval) : pyval :=
  default dflt (d !! k).

(** A dict display [{k1: v1, ...}]: a later binding of a key replaces an
    earlier one. *)
Definition py_dict (items : list (string * pyval)) : dict :=
  foldl (fun d kv => <[kv.1 := kv.2]> d) ∅ items.

(** [{**d, k1: v1, ...}] *)
Definition py_update (d : dict) (items : list (string * pyval)) : dict :=
  foldl (fun d kv => <[kv.1 := kv.2]> d) d items.

Definition as_num (v : pyval) : option pyfloat :=
  match v with
  | VInt z => Some (of_int z)
  | VFloat f => Some f
  | VBool b => Some (of_int (if b then 1 else 0))
  | _ => None
  end.

Definition num (v : pyval) : result pyfloat :=
  match as_num v with Some f => Ok f | None => Raise TypeError end.

Definition str_is (v : pyval) (s : string) : bool :=
  match v with VStr t => String.eqb t s | _ => false end.

Definition str_in (v : pyval) (l : list string) : bool :=
  existsb (str_is v) l.

(** [z == v] for an integer [z]. *)
Definition int_eq (z : Z) (v : pyval) : bool :=
  match as_num v with Some f => feq (of_int z) f | None => false end.

(** ** Strings *)

Definition is_space (a : ascii) : bool :=
  let n := nat_of_ascii a in
  ((9 <=? n) && (n <=? 13) || (28 <=? n) && (n <=? 32))%nat.

Definition lower_ascii (a : ascii) : ascii :=
  let n := nat_of_ascii a in
  if ((65 <=? n) && (n <=? 90))%nat then ascii_of_nat (n + 32) else a.

Definition upper_ascii (a : ascii) : ascii :=
  let n := nat_of_ascii a in
  if ((97 <=? n) && (n <=? 122))%nat then ascii_of_nat (n - 32) else a.

Fixpoint str_map (f : ascii -> ascii) (s : string) : string :=
  match s with
  | EmptyString => EmptyString
  | String a s' => String (f a) (str_map f s')
  end.

Definition lower : string -> string := str_map lower_ascii.
Definition upper : string -> string := str_map upper_ascii.

Fixpoint lstrip (s : string) : string :=
  match s with
  | String a s' => if is_space a then lstrip s' else s
  | EmptyString => EmptyString
  end.

Definition strip (s : string) : string :=
  String.rev (lstrip (String.rev (lstrip s))).

(** [w in t] *)
Fixpoint contains (w t : string) : bool :=
  String.prefix w t ||
  match t with
  | EmptyString => false
  | String _ t' => contains w t'
  end.

(** [" ".join(l)] *)
Fixpoint join_space (l : list string) : string :=
  match l with
  | [] => ""
  | [s] => s
  | s :: l' => s +:+ " " +:+ join_space l'
  end.

(** The characters of a UTF-8 string: a lead byte with the continuation
    bytes (binary 10xxxxxx) after it. *)
Definition is_continuation (a : ascii) : bool :=
  let n := nat_of_ascii a in ((128 <=? n) && (n <? 192))%nat.

Fixpoint utf8_chars_go (cur : string) (s : string) : list string :=
  match s with
  | EmptyString => [String.rev cur]
  | String a s' =>
      if is_continuation a then utf8_chars_go (String a cur) s'
      else String.rev cur :: utf8_chars_go (String a EmptyString) s'
  end.

Definition utf8_chars (s : string) : list string :=
  match s with
  | EmptyString => []
  | String a s' => utf8_chars_go (String a EmptyString) s'
  end.

(** ** Collaborators

    Every call to a collaborator is recorded as an [event]; a collaborator
    answers as a function of the calls made before and of its arguments, so
    it may be stateful.  [IO] threads the record of calls and propagates
    exceptions. *)

Abbreviation row := (list pyfloat).
Abbreviation features := (gmap string pyfloat).

Inductive event :=
| EvParse (prompt : string)
| EvUserContext (user_id : Z)
| EvEnrich (parsed ctx : dict)
| EvSearch (payload : dict)
| EvBatch (ids : list Z)
| EvFeatureBuild (user meeting : dict)
| EvPredict (rows : list row)
| EvSvdRecommend (user_id top_n : Z)
| EvReasoning (ctx meeting parsed : dict).

(** An HTTP exchange with the Spring server: a status with the value under
    ["meetings"] of the JSON body ([None] for JSON [null], the empty list
    when the key is absent), or a failure of the transport or of the JSON
    decoding. *)
Inductive http_response :=
| Response (status : Z) (meetings : option (list dict))
| Failed.

Record Service := {
  (** Python built-ins that are kept abstract: [str(x)] of an object that
      is not a [str], [float(s)] and [int(s)] of a string, and the format
      specification [.1f]. *)
  str_of : pyval -> string;
  float_of_str : string -> result pyfloat;
  int_of_str : string -> result Z;
  format_1f : pyfloat -> string;
  (** [self.gpt_service]; the boolean of [enrich_with_user_context] says
      whether the dict it returns is the very object it was given. *)
  parse_search_query : list event -> string -> result dict;
  enrich_with_user_context : list event -> dict -> dict -> result (dict * bool);
  (** The Spring server at [self.spring_boot_url]. *)
  users_context : list event -> Z -> option dict;
  meetings_search : list event -> dict -> http_response;
  meetings_batch : list event -> list Z -> http_response;
  (** [model_loader] *)
  regressor_loaded : bool;
  feature_builder_loaded : bool;
  svd_loaded : bool;
  feature_builder_build : list event -> dict -> dict -> result (features * row);
  regressor_predict : list event -> list row -> result (list pyfloat);
  svd_recommend : list event -> Z -> Z -> result (list (Z * pyfloat));
  (** [_generate_reasoning]: the chat completion and, when it fails, the
      randomly chosen template. *)
  generate_reasoning : list event -> dict -> dict -> dict -> result string;
}.

Definition IO (A : Type) : Type := list event -> result A * list event.

#[global] Instance IO_ret : MRet IO := fun _ a h => (Ok a, h).
#[global] Instance IO_bind : MBind IO := fun _ _ f m h =>
  match m h with
  | (Ok a, h') => f a h'
  | (Raise e, h') => (Raise e, h')
  end.

Definition lift {A} (r : result A) : IO A := fun h => (r, h).

Definition call {A} (ev : event) (respond : list event -> A) : IO A :=
  fun h => (Ok (respond h), h ++ [ev]).

Definition call_raising {A} (ev : event) (respond : list event -> result A)
  : IO A :=
  fun h => (respond h, h ++ [ev]).

(** [try: body except Exception: handler] *)
Definition try_except {A} (body : IO A) (handler : exn -> IO A) : IO A :=
  fun h =>
    match body h with
    | (Ok a, h') => (Ok a, h')
    | (Raise e, h') => handler e h'
    end.

(** ** Normalizers *)

Definition py_str (self : Service) (v : pyval) : string :=
  match v with VStr s => s | _ => str_of self v end.

Definition timeslot_mapping : gmap string string :=
  list_to_map [
    ("morning", "MORNING"); ("afternoon", "AFTERNOON");
    ("evening", "EVENING"); ("night", "NIGHT");
    ("오전", "MORNING"); ("아침", "MORNING");
    ("점심", "AFTERNOON"); ("오후", "AFTERNOON");
    ("저녁", "EVENING"); ("밤", "NIGHT"); ("야간", "NIGHT")].

Definition _normalize_timeslot (self : Service) (ts : pyval) : pyval :=
  if negb (truthy ts) then VNone
  else
    let raw := strip (py_str self ts) in
    let lower := lower raw in
    VStr (default (upper raw) (timeslot_mapping !! lower)).

Definition location_type_mapping : gmap string string :=
  list_to_map [
    ("indoor", "INDOOR"); ("outdoor", "OUTDOOR");
    ("실내", "INDOOR"); ("실외", "OUTDOOR"); ("야외", "OUTDOOR")].

Definition _normalize_location_type (self : Service) (lt : pyval) : pyval :=
  if negb (truthy lt) then VNone
  else
    let raw := strip (py_str self lt) in
    let lower := lower raw in
    VStr (default (upper raw) (location_type_mapping !! lower)).

Definition budget_mapping : gmap string string :=
  list_to_map [
    ("VALUE", "value"); ("value", "value"); ("가성비", "value");
    ("합리", "value");
    ("QUALITY", "quality"); ("quality", "quality"); ("품질", "quality")].

Definition _normalize_budget_for_model (self : Service) (bt : pyval) : string :=
  if negb (truthy bt) then "value"
  else
    let raw := strip (py_str self bt) in
    default (default (default "value" (budget_mapping !! lower raw))
                     (budget_mapping !! upper raw))
            (budget_mapping !! raw).

(** ** Intent *)

Definition quiet_words : list string :=
  ["조용"; "쉬"; "힐링"; "편하게"; "여유"; "카페"; "대화"; "산책"; "전시";
   "독서"; "쉬고"].
Definition active_words : list string :=
  ["러닝"; "운동"; "뛰"; "배드민턴"; "축구"; "헬스"; "등산"; "클라이밍"].

Definition _detect_intent (user_prompt : string) (parsed_query : dict)
  : string :=
  let t := lower user_prompt in
  if existsb (fun w => contains w t) quiet_words then "QUIET"
  else if existsb (fun w => contains w t) active_words then "ACTIVE"
  else
    let vibe := get parsed_query "vibe" in
    if str_in vibe ["힐링"; "여유로운"] then "QUIET" else "NEUTRAL".

Definition _apply_intent_adjustment (intent : string) (meeting : dict)
  : pyfloat :=
  let cat := py_or (get meeting "category") (VStr "") in
  let sub := py_or (get meeting "subcategory") (VStr "") in
  let quiet :=
    if String.eqb intent "QUIET" then
      if str_is cat "스포츠" then Some (FFin (-25))
      else if str_in cat ["카페"; "문화"; "취미"] ||
              str_in sub ["독서"; "보드게임"; "전시"; "스터디"]
           then Some (FFin 15)
      else None
    else None in
  let active :=
    if String.eqb intent "ACTIVE" then
      if str_is cat "스포츠" then Some (FFin 15)
      else if str_in cat ["카페"; "문화"] then Some (FFin (-10))
      else None
    else None in
  match quiet, active with
  | Some adj, _ => adj
  | None, Some adj => adj
  | None, None => FFin 0
  end.

(** ** Search payload builder *)

(** [v >= bound] for a float [bound]; comparing a non-number raises. *)
Definition py_ge (v : pyval) (bound : pyfloat) : result bool :=
  f ← num v; mret (fge f bound).

Definition _should_apply_time_slot (q : dict) : result bool :=
  if is_none (get q "time_slot") then mret false
  else py_ge (get_default q "confidence" (VInt 0)) (FFin (9 # 10)).

Definition _should_apply_vibe (q : dict) : result bool :=
  if is_none (get q "vibe") then mret false
  else py_ge (get_default q "confidence" (VInt 0)) (FFin (9 # 10)).

(** [" ".join(v)]: over the items of a list, over the characters of a
    string; any other object is not iterable. *)
Definition join_value (v : pyval) : result string :=
  match v with
  | VList l => Ok (join_space l)
  | VStr s => Ok (join_space (utf8_chars s))
  | _ => Raise TypeError
  end.

Definition _infer_location_type (q : dict) : result pyval :=
  let kws := py_or (get q "keywords") (VList []) in
  text ← join_value kws;
  if contains "실내" text then mret (VStr "INDOOR")
  else if contains "야외" text || contains "실외" text
       then mret (VStr "OUTDOOR")
  else mret VNone.

(** The filter of the final dict comprehension:
    [v is not None and v != ""]. *)
Definition keep_field (v : pyval) : bool :=
  negb (is_none v) && negb (str_is v "").

Definition _to_spring_search_request (self : Service)
    (enriched_query user_ctx : dict) : result dict :=
  keyword ←
    (let keyword := get enriched_query "keyword" in
     if truthy keyword then mret keyword
     else
       let kws := py_or (get enriched_query "keywords") (VList []) in
       if truthy kws then (text ← join_value kws; mret (VStr text))
       else mret VNone);
  raw_location_type ←
    (let given := py_or (get enriched_query "locationType")
                        (get enriched_query "location_type") in
     if truthy given then mret given
     else _infer_location_type enriched_query);
  let location_type := _normalize_location_type self raw_location_type in
  let raw_time_slot := py_or (get enriched_query "time_slot")
                             (get enriched_query "timeSlot") in
  let time_slot := _normalize_timeslot self raw_time_slot in
  let lat := py_or (get user_ctx "lat") (get user_ctx "latitude") in
  let lng := py_or (get user_ctx "lng") (get user_ctx "longitude") in
  let payload := py_dict [
    ("keyword", keyword);
    ("category", get enriched_query "category");
    ("subcategory", get enriched_query "subcategory");
    ("latitude", lat);
    ("longitude", lng);
    ("radius", get_default enriched_query "radius" (VFloat (FFin 5)));
    ("locationType", location_type);
    ("vibe", get enriched_query "vibe");
    ("timeSlot", time_slot);
    ("page", VInt 0);
    ("size", VInt 200);
    ("sortBy", VStr "createdAt");
    ("sortDirection", VStr "desc")] in
  mret (omap (fun v => if keep_field v then Some v else None) payload).

(** ** Candidate search and relaxation *)

Definition _search_meetings (self : Service)
    (enriched_query user_context : dict) : IO (option (list dict)) :=
  try_except
    (payload ← lift (_to_spring_search_request self enriched_query
                                               user_context);
     response ← call (EvSearch payload)
                     (fun h => meetings_search self h payload);
     match response with
     | Response status meetings =>
         if status =? 200 then mret meetings else mret (Some [])
     | Failed => lift (Raise (CollaboratorError "search"))
     end)
    (fun _ => mret (Some [])).

Record TraceStep := {
  level : Z;
  label : string;
  payload : dict;
  count : nat;
}.

(** The local coroutine [_try]; the list [trace_steps] it appends to is
    passed in and handed back. *)
Definition _try (self : Service) (user_context : dict)
    (trace_steps : list TraceStep) (label : string) (q : dict) (level : Z)
  : IO (list dict * list TraceStep) :=
  meetings ← _search_meetings self q user_context;
  payload ← lift (_to_spring_search_request self q user_context);
  let found := default [] meetings in
  mret (found,
        trace_steps ++ [{| level := level; label := label;
                           payload := payload; count := length found |}]).

Definition nonempty {A} (l : list A) : bool :=
  match l with [] => false | _ => true end.

Definition _search_with_relaxation (self : Service)
    (base_query user_context : dict) (trace_steps : list TraceStep)
  : IO (list dict * list TraceStep) :=
  '(cands, trace_steps) ←
    _try self user_context trace_steps "L0 원본" base_query 0;
  if nonempty cands then mret (cands, trace_steps) else
  let q1 := delete "vibe" base_query in
  '(cands, trace_steps) ←
    _try self user_context trace_steps "L1 vibe 제거" q1 1;
  if nonempty cands then mret (cands, trace_steps) else
  let q2 := delete "timeSlot" (delete "time_slot" q1) in
  '(cands, trace_steps) ←
    _try self user_context trace_steps "L2 timeSlot 제거" q2 2;
  if nonempty cands then mret (cands, trace_steps) else
  let q3 := delete "subcategory" q2 in
  '(cands, trace_steps) ←
    _try self user_context trace_steps "L3 subcategory 제거" q3 3;
  if nonempty cands then mret (cands, trace_steps) else
  let q4 := delete "category" q3 in
  '(cands, trace_steps) ←
    _try self user_context trace_steps "L4 category 제거" q4 4;
  mret (cands, trace_steps).

(** ** Scoring *)

Definition in_dict (k : string) (d : dict) : bool :=
  match d !! k with Some _ => true | None => false end.

(** The local helper [pick(d, *keys, default=None)]. *)
Fixpoint pick (d : dict) (keys : list string) (dflt : pyval) : pyval :=
  match keys with
  | [] => dflt
  | k :: keys' =>
      if in_dict k d && negb (is_none (get d k)) then get d k
      else pick d keys' dflt
  end.

(** [float(v)] and [int(v)] *)
Definition py_float (self : Service) (v : pyval) : result pyfloat :=
  match v with
  | VStr s => float_of_str self s
  | _ => num v
  end.

Definition py_int_of (self : Service) (v : pyval) : result Z :=
  match v with
  | VInt z => Ok z
  | VBool b => Ok (if b then 1 else 0)
  | VFloat f => py_int f
  | VStr s => int_of_str self s
  | _ => Raise TypeError
  end.

Definition _normalize_meeting (self : Service) (m : dict) : dict :=
  py_dict [
    ("meeting_id", py_or (get m "meeting_id") (get m "meetingId"));
    ("lat", py_or (get m "latitude") (get m "lat"));
    ("lng", py_or (get m "longitude") (get m "lng"));
    ("category", py_or (get_default m "category" (VStr "")) (VStr ""));
    ("subcategory", py_or (get_default m "subcategory" (VStr "")) (VStr ""));
    ("time_slot",
      _normalize_timeslot self (py_or (get m "time_slot") (get m "timeSlot")));
    ("meeting_location_type",
      _normalize_location_type self
        (py_or (get m "location_type") (get m "locationType")));
    ("vibe", py_or (get_default m "vibe" (VStr "")) (VStr ""));
    ("max_participants",
      py_or (py_or (get m "max_participants") (get m "maxParticipants"))
            (VInt 10));
    ("meeting_participant_count",
      py_or (py_or (get m "current_participants")
                   (get m "currentParticipants")) (VInt 0));
    ("expected_cost",
      py_or (py_or (get m "expected_cost") (get m "expectedCost")) (VInt 0));
    ("meeting_avg_rating",
      py_or (py_or (get m "avg_rating") (get m "avgRating"))
            (VFloat (FFin 0)));
    ("meeting_rating_count",
      py_or (py_or (get m "rating_count") (get m "ratingCount")) (VInt 0));
    ("distance_km", py_or (get m "distance_km") (get m "distanceKm"));
    ("title", get m "title");
    ("image_url", py_or (get m "image_url") (get m "imageUrl"));
    ("location_name", py_or (get m "location_name") (get m "locationName"));
    ("location_address",
      py_or (get m "location_address") (get m "locationAddress"));
    ("meeting_time", py_or (get m "meeting_time") (get m "meetingTime"));
    ("current_participants",
      py_or (get m "current_participants") (get m "currentParticipants"));
    ("max_participants",
      py_or (get m "max_participants") (get m "maxParticipants"))].

Definition _build_key_points_from_feat (self : Service) (feat : features)
  : list string :=
  let points := [] in
  let points :=
    if fle (default (of_int 999) (feat !! "distance_km")) (of_int 3)
    then points ++ ["가까운 거리(" +:+
                    format_1f self (default FNaN (feat !! "distance_km")) +:+
                    "km)"]
    else points in
  let points :=
    if from_option (fun f => feq f (of_int 1)) false (feat !! "time_match")
    then points ++ ["선호 시간대 일치"] else points in
  let points :=
    if from_option (fun f => feq f (of_int 1)) false
                   (feat !! "location_type_match")
    then points ++ ["실내/야외 선호 일치"] else points in
  let points :=
    if fge (default (of_int 0) (feat !! "cost_match_score")) (FFin (7 # 10))
    then points ++ ["예산에 잘 맞음"] else points in
  let points :=
    if fge (default (of_int 0) (feat !! "interest_match_score"))
           (FFin (1 # 2))
    then points ++ ["관심사 매칭"] else points in
  take 3 points.

(** [int(max(0, min(100, round((predicted_rating - 1) / 4 * 100))))] *)
Definition rating_to_match_score (predicted_rating : pyfloat) : result Z :=
  quarter ← fdiv (fsub predicted_rating (of_int 1)) (of_int 4);
  rounded ← py_round (fmul quarter (of_int 100));
  mret (Z.max 0 (Z.min 100 rounded)).

(** The first loop of [_score_meetings]: one [try] per candidate, the three
    lists grown together. *)
Fixpoint build_loop (self : Service) (user : dict)
    (candidate_meetings : list dict)
    (acc : list row * list features * list dict)
  : IO (list row * list features * list dict) :=
  match candidate_meetings with
  | [] => mret acc
  | raw :: rest =>
      acc ← try_except
        (let m := _normalize_meeting self raw in
         '(feat, x0) ← call_raising (EvFeatureBuild user m)
                          (fun h => feature_builder_build self h user m);
         let '(rows, feats, valid_candidates) := acc in
         mret (rows ++ [x0], feats ++ [feat], valid_candidates ++ [m]))
        (fun _ => mret acc);
      build_loop self user rest acc
  end.

(** The second loop, over [zip(valid_candidates, feats, preds)]. *)
Fixpoint score_loop (self : Service) (valid_candidates : list dict)
    (feats : list features) (preds : list pyfloat) : result (list dict) :=
  match valid_candidates, feats, preds with
  | m :: ms, feat :: fs, p :: ps =>
      let predicted_rating := p in
      match_score ← rating_to_match_score predicted_rating;
      let scored := py_update m [
        ("predicted_rating", VFloat (py_round_n 3 predicted_rating));
        ("match_score", VInt match_score);
        ("key_points", VList (_build_key_points_from_feat self feat))] in
      results ← score_loop self ms fs ps;
      mret (scored :: results)
  | _, _, _ => mret []
  end.

(** The dict [user] that [_score_meetings] hands to the feature builder.
    Of its entries only the three conversions [float(...)], [int(...)],
    [float(...)] can raise, in this order. *)
Definition scorer_user (self : Service) (user_context : dict) : result dict :=
  user_avg_rating ← py_float self
    (pick user_context ["user_avg_rating"; "userAvgRating"]
          (VFloat (FFin 3)));
  user_meeting_count ← py_int_of self
    (pick user_context ["user_meeting_count"; "userMeetingCount"]
          (VInt 0));
  user_rating_std ← py_float self
    (pick user_context ["user_rating_std"; "userRatingStd"]
          (VFloat (FFin (1 # 2))));
  mret (py_dict [
    ("lat", pick user_context ["lat"; "latitude"] VNone);
    ("lng", pick user_context ["lng"; "longitude"] VNone);
    ("interests", pick user_context ["interests"] (VStr ""));
    ("time_preference",
      _normalize_timeslot self
        (pick user_context ["time_preference"; "timePreference"] VNone));
    ("user_location_pref",
      pick user_context ["user_location_pref"; "userLocationPref"] VNone);
    ("budget_type",
      VStr (_normalize_budget_for_model self
        (pick user_context ["budget_type"; "budgetType"] (VStr "value"))));
    ("user_avg_rating", VFloat user_avg_rating);
    ("user_meeting_count", VInt user_meeting_count);
    ("user_rating_std", VFloat user_rating_std)]).

Definition _score_meetings (self : Service) (user_id : Z)
    (user_context : dict) (candidate_meetings : list dict)
    (parsed_query : dict) (intent : string) : IO (list dict) :=
  if negb (regressor_loaded self) then
    lift (Raise (RuntimeError "LightGBM Regressor 모델이 로드되지 않았습니다."))
  else if negb (feature_builder_loaded self) then
    lift (Raise (RuntimeError "FeatureBuilder가 로드되지 않았습니다."))
  else
    user ← lift (scorer_user self user_context);
    '(rows, feats, valid_candidates) ←
      build_loop self user candidate_meetings ([], [], []);
    if negb (nonempty rows) then mret []
    else
      preds ← call_raising (EvPredict rows)
                 (fun h => regressor_predict self h rows);
      lift (score_loop self valid_candidates feats preds).

(** ** User context, fallback and the main pipeline *)

Definition default_user_context (user_id : Z) : dict :=
  py_dict [
    ("user_id", VInt user_id);
    ("latitude", VFloat (FFin (375665 # 10000)));
    ("longitude", VFloat (FFin (126978 # 1000)));
    ("interests", VStr "");
    ("time_preference", VStr "");
    ("budget_type", VStr "VALUE");
    ("user_avg_rating", VFloat (FFin 0));
    ("user_meeting_count", VInt 0);
    ("user_rating_std", VFloat (FFin 0))].

Definition _get_user_context (self : Service) (user_id : Z) : IO dict :=
  response ← call (EvUserContext user_id)
                  (fun h => users_context self h user_id);
  mret (default (default_user_context user_id) response).

Definition _get_meetings_by_ids (self : Service) (meeting_ids : list Z)
  : IO (option (list dict)) :=
  response ← call (EvBatch meeting_ids)
                  (fun h => meetings_batch self h meeting_ids);
  match response with
  | Response status meetings =>
      if status =? 200 then mret meetings else mret (Some [])
  | Failed => mret (Some [])
  end.

(** [l[:n]] *)
Definition py_slice_to {A} (n : Z) (l : list A) : list A :=
  if 0 <=? n then take (Z.to_nat n) l
  else take (length l - Z.to_nat (- n)) l.

Record SearchTrace := {
  steps : list TraceStep;
  final_level : Z;
  final_label : string;
  fallback : bool;
}.

(** The response dict.  The key ["fallback"] exists only in the dict the
    fallback builds, ["search_trace"] is added by [get_ai_recommendations]. *)
Record Recommendations := {
  user_prompt : string;
  parsed_query : dict;
  total_candidates : nat;
  recommendations : list dict;
  fallback_key : option bool;
  search_trace : option SearchTrace;
}.

(** [next((score for mid, score in svd_recommendations
           if mid == meeting.get("meeting_id")), 3.5)] *)
Fixpoint first_score (svd_recommendations : list (Z * pyfloat))
    (meeting : dict) : pyfloat :=
  match svd_recommendations with
  | [] => FFin (7 # 2)
  | (mid, score) :: rest =>
      if int_eq mid (get meeting "meeting_id") then score
      else first_score rest meeting
  end.

Fixpoint fallback_loop (svd_recommendations : list (Z * pyfloat))
    (meetings : list dict) : result (list dict) :=
  match meetings with
  | [] => mret []
  | meeting :: rest =>
      let svd_score := first_score svd_recommendations meeting in
      truncated ← py_int (fmul svd_score (of_int 20));
      let item := py_update meeting [
        ("match_score", VInt (Z.min 100 truncated));
        ("predicted_rating", VFloat (py_round_n 1 svd_score));
        ("svd_score", VFloat (py_round_n 2 svd_score));
        ("key_points", VList ["SVD 협업 필터링 기반 추천"]);
        ("reasoning", VStr "과거 참여 이력을 바탕으로 추천된 모임입니다.")] in
      scored ← fallback_loop svd_recommendations rest;
      mret (item :: scored)
  end.

Definition _fallback_svd_recommendation (self : Service) (user_id : Z)
    (user_prompt : string) (parsed_query : dict) (top_n : Z)
  : IO Recommendations :=
  if negb (svd_loaded self) then
    lift (Raise (RuntimeError "SVD 모델 로드되지 않음"))
  else
    svd_recommendations ←
      call_raising (EvSvdRecommend user_id (top_n * 2))
        (fun h => svd_recommend self h user_id (top_n * 2));
    let meeting_ids := map fst svd_recommendations in
    meetings ← _get_meetings_by_ids self meeting_ids;
    match meetings with
    | None => lift (Raise TypeError)
    | Some meetings =>
        scored ← lift (fallback_loop svd_recommendations meetings);
        mret {| user_prompt := user_prompt;
                parsed_query := parsed_query;
                total_candidates := length scored;
                recommendations := py_slice_to top_n scored;
                fallback_key := Some true;
                search_trace := None |}
    end.

(** [int(max(0, min(100, base + adjustment)))] *)
Definition adjusted_score (base : pyval) (adjustment : pyfloat) : result Z :=
  b ← num base;
  py_int (py_max (of_int 0) (py_min (of_int 100) (fadd b adjustment))).

(** The intent correction of the fallback path, which reads
    [rec.get("match_score", 0)]. *)
Fixpoint adjust_fallback (intent : string) (recs : list dict)
  : result (list dict) :=
  match recs with
  | [] => mret []
  | rec :: rest =>
      score ← adjusted_score (get_default rec "match_score" (VInt 0))
                             (_apply_intent_adjustment intent rec);
      let rec := <["intent" := VStr intent]>
                   (<["match_score" := VInt score]> rec) in
      rest ← adjust_fallback intent rest;
      mret (rec :: rest)
  end.

(** The intent correction of the scored path, which reads
    [m["match_score"]]. *)
Fixpoint adjust_scored (intent : string) (scored_meetings : list dict)
  : result (list dict) :=
  match scored_meetings with
  | [] => mret []
  | m :: rest =>
      base ← match m !! "match_score" with
             | Some v => Ok v
             | None => Raise (KeyError "match_score")
             end;
      score ← adjusted_score base (_apply_intent_adjustment intent m);
      let m := <["intent" := VStr intent]>
                 (<["match_score" := VInt score]> m) in
      rest ← adjust_scored intent rest;
      mret (m :: rest)
  end.

(** [sorted(l, key=..., reverse=True)]: descending, and stable: items
    with equal keys keep their order. *)
Fixpoint insert_desc {A} (key : A -> Z) (x : A) (l : list A) : list A :=
  match l with
  | [] => [x]
  | y :: l' => if key x <? key y then y :: insert_desc key x l' else x :: l
  end.

Definition sorted_desc {A} (key : A -> Z) (l : list A) : list A :=
  foldr (insert_desc key) [] l.

(** The order [sorted_desc] establishes. *)
Definition desc {A} (key : A -> Z) (a b : A) : Prop := key b <= key a.

(** The sort key [x["match_score"]]; the correction loop has stored an
    [int] there in every item. *)
Definition match_score_of (x : dict) : Z :=
  match x !! "match_score" with
  | Some (VInt z) => z
  | _ => 0
  end.

(** Step 7: a rationale for each surviving recommendation. *)
Fixpoint reasoning_loop (self : Service) (user_context parsed_query : dict)
    (top_recommendations : list dict) : IO (list dict) :=
  match top_recommendations with
  | [] => mret []
  | rec :: rest =>
      reasoning ← call_raising (EvReasoning user_context rec parsed_query)
        (fun h => generate_reasoning self h user_context rec parsed_query);
      rest ← reasoning_loop self user_context parsed_query rest;
      mret (<["reasoning" := VStr reasoning]> rec :: rest)
  end.

Definition trace_of (trace_steps : list TraceStep) (is_fallback : bool)
  : SearchTrace :=
  {| steps := trace_steps;
     final_level := from_option level 0 (last trace_steps);
     final_label := from_option label "L0 원본" (last trace_steps);
     fallback := is_fallback |}.

(** The fallback's dict after its recommendations were corrected in place
    and [data["search_trace"]] was stored. *)
Definition with_search_trace (data : Recommendations) (recs : list dict)
    (trace : SearchTrace) : Recommendations :=
  {| user_prompt := user_prompt data;
     parsed_query := parsed_query data;
     total_candidates := total_candidates data;
     recommendations := recs;
     fallback_key := fallback_key data;
     search_trace := Some trace |}.

Definition get_ai_recommendations (self : Service) (user_prompt : string)
    (user_id : Z) (top_n : Z) : IO Recommendations :=
  (* Step 1 *)
  parsed_query ← call_raising (EvParse user_prompt)
                    (fun h => parse_search_query self h user_prompt);
  (* Step 2 *)
  user_context ← _get_user_context self user_id;
  (* Step 3 *)
  '(enriched_query, same_object) ←
    call_raising (A := dict * bool) (EvEnrich parsed_query user_context)
      (fun h => enrich_with_user_context self h parsed_query user_context);
  apply_time_slot ← lift (_should_apply_time_slot enriched_query);
  let enriched_query : dict :=
    if (apply_time_slot : bool) then enriched_query
    else delete "timeSlot" (delete "time_slot" enriched_query) in
  apply_vibe ← lift (_should_apply_vibe enriched_query);
  let enriched_query : dict :=
    if (apply_vibe : bool) then enriched_query else delete "vibe" enriched_query in
  (* the pops above reach [parsed_query] when both names denote one dict *)
  let parsed_query : dict :=
    if (same_object : bool) then enriched_query else parsed_query in
  (* Step 4 *)
  '(candidate_meetings, trace_steps) ←
    _search_with_relaxation self enriched_query user_context [];
  if negb (nonempty candidate_meetings) then
    data ← _fallback_svd_recommendation self user_id user_prompt
                                        parsed_query top_n;
    let intent := _detect_intent user_prompt parsed_query in
    recs ← lift (adjust_fallback intent (recommendations data));
    mret (with_search_trace data recs (trace_of trace_steps true))
  else
    let intent := _detect_intent user_prompt parsed_query in
    scored_meetings ← _score_meetings self user_id user_context
                         candidate_meetings parsed_query intent;
    scored_meetings ← lift (adjust_scored intent scored_meetings);
    (* Step 6 *)
    let top_recommendations :=
      py_slice_to top_n (sorted_desc match_score_of scored_meetings) in
    (* Step 7 *)
    top_recommendations ←
      reasoning_loop self user_context parsed_query top_recommendations;
    mret {| user_prompt := user_prompt;
            parsed_query := parsed_query;
            total_candidates := length candidate_meetings;
            recommendations := top_recommendations;
            fallback_key := None;
            search_trace := Some (trace_of trace_steps false) |}.

(** Steps 1 to 3 of [get_ai_recommendations] taken alone: the parsed query
    (as the later steps see it), the user context and the enriched query
    that is handed to the relaxation search.
    [get_ai_recommendations_staged] relates this view and the next one to
    the function. *)
Definition steps_1_to_3 (self : Service) (user_prompt : string)
    (user_id : Z) : IO (dict * dict * dict) :=
  parsed_query ← call_raising (EvParse user_prompt)
                    (fun h => parse_search_query self h user_prompt);
  user_context ← _get_user_context self user_id;
  '(enriched_query, same_object) ←
    call_raising (A := dict * bool) (EvEnrich parsed_query user_context)
      (fun h => enrich_with_user_context self h parsed_query user_context);
  apply_time_slot ← lift (_should_apply_time_slot enriched_query);
  let enriched_query : dict :=
    if (apply_time_slot : bool) then enriched_query
    else delete "timeSlot" (delete "time_slot" enriched_query) in
  apply_vibe ← lift (_should_apply_vibe enriched_query);
  let enriched_query : dict :=
    if (apply_vibe : bool) then enriched_query
    else delete "vibe" enriched_query in
  let parsed_query : dict :=
    if (same_object : bool) then enriched_query else parsed_query in
  mret (parsed_query, user_context, enriched_query).

(** Steps 4 to 7 alone, from the values steps 1 to 3 leave. *)
Definition steps_4_to_7 (self : Service) (user_prompt : string)
    (user_id : Z) (top_n : Z) (parsed_query user_context enriched_query : dict)
  : IO Recommendations :=
  '(candidate_meetings, trace_steps) ←
    _search_with_relaxation self enriched_query user_context [];
  if negb (nonempty candidate_meetings) then
    data ← _fallback_svd_recommendation self user_id user_prompt
                                        parsed_query top_n;
    let intent := _detect_intent user_prompt parsed_query in
    recs ← lift (adjust_fallback intent (recommendations data));
    mret (with_search_trace data recs (trace_of trace_steps true))
  else
    let intent := _detect_intent user_prompt parsed_query in
    scored_meetings ← _score_meetings self user_id user_context
                         candidate_meetings parsed_query intent;
    scored_meetings ← lift (adjust_scored intent scored_meetings);
    let top_recommendations :=
      py_slice_to top_n (sorted_desc match_score_of scored_meetings) in
    top_recommendations ←
      reasoning_loop self user_context parsed_query top_recommendations;
    mret {| user_prompt := user_prompt;
            parsed_query := parsed_query;
            total_candidates := length candidate_meetings;
            recommendations := top_recommendations;
            fallback_key := None;
            search_trace := Some (trace_of trace_steps false) |}.

(** The same service with another rationale generator. *)
Definition with_generate_reasoning
    (g : list event -> dict -> dict -> dict -> result string)
    (self : Service) : Service :=
  {| str_of := str_of self;
     float_of_str := float_of_str self;
     int_of_str := int_of_str self;
     format_1f := format_1f self;
     parse_search_query := parse_search_query self;
     enrich_with_user_context := enrich_with_user_context self;
     users_context := users_context self;
     meetings_search := meetings_search self;
     meetings_batch := meetings_batch self;
     regressor_loaded := regressor_loaded self;
     feature_builder_loaded := feature_builder_loaded self;
     svd_loaded := svd_loaded self;
     feature_builder_build := feature_builder_build self;
     regressor_predict := regressor_predict self;
     svd_recommend := svd_recommend self;
     generate_reasoning := g |}.

(** What [_try] keeps of a reply of the catalog: the meetings of a 200
    response, nothing otherwise. *)
Definition candidates_of (response : http_response) : list dict :=
  match response with
  | Response status meetings =>
      if status =? 200 then default [] meetings else []
  | Failed => []
  end.

(** The queries of the five levels, as [_search_with_relaxation] derives
    them from [base_query]. *)
Definition ladder_query (base_query : dict) (level : nat) : dict :=
  let q1 := delete "vibe" base_query in
  let q2 := delete "timeSlot" (delete "time_slot" q1) in
  let q3 := delete "subcategory" q2 in
  let q4 := delete "category" q3 in
  match level with
  | 0%nat => base_query
  | 1%nat => q1
  | 2%nat => q2
  | 3%nat => q3
  | _ => q4
  end.

(** A closed form of what the ladder does, level by level: the payload
    of a level, the calls made before it, the candidates it finds, the
    [TraceStep] it records and the level at which the search stops.
    [ladder_closed_form] proves that [_search_with_relaxation] computes
    exactly this. *)
Definition ladder_labels : list string :=
  ["L0 원본"; "L1 vibe 제거"; "L2 timeSlot 제거"; "L3 subcategory 제거";
   "L4 category 제거"].

Definition ladder_payload (self : Service) (q ctx : dict) (i : nat) : dict :=
  match _to_spring_search_request self (ladder_query q i) ctx with
  | Ok p => p
  | Raise _ => ∅
  end.

Fixpoint ladder_history (self : Service) (q ctx : dict) (h : list event)
    (i : nat) : list event :=
  match i with
  | O => h
  | S j => ladder_history self q ctx h j ++
           [EvSearch (ladder_payload self q ctx j)]
  end.

Definition ladder_found (self : Service) (q ctx : dict) (h : list event)
    (i : nat) : list dict :=
  candidates_of (meetings_search self (ladder_history self q ctx h i)
                                 (ladder_payload self q ctx i)).

Definition ladder_step (self : Service) (q ctx : dict) (h : list event)
    (i : nat) : TraceStep :=
  {| level := Z.of_nat i;
     label := nth i ladder_labels "";
     payload := ladder_payload self q ctx i;
     count := length (ladder_found self q ctx h i) |}.

Fixpoint ladder_stop (self : Service) (q ctx : dict) (h : list event)
    (i remaining : nat) : nat :=
  match remaining with
  | O => i
  | S r => if nonempty (ladder_found self q ctx h i) then i
           else ladder_stop self q ctx h (S i) r
  end.

(** For each candidate in turn, whether the feature builder accepts it
    when [build_loop] reaches it: the calls made before are part of what
    the builder answers to. *)
Fixpoint build_outcomes (self : Service) (user : dict)
    (candidate_meetings : list dict) (h : list event) : list bool :=
  match candidate_meetings with
  | [] => []
  | raw :: rest =>
      let m := _normalize_meeting self raw in
      is_ok (feature_builder_build self h user m) ::
      build_outcomes self user rest (h ++ [EvFeatureBuild user m])
  end.



(** The calls that belong to the fallback recommender. *)
Definition is_fallback_call (ev : event) : bool :=
  match ev with
  | EvSvdRecommend _ _ | EvBatch _ => true
  | _ => false
  end.

(** Two services that give the same answers at every call, the rationale
    generator left aside (it samples a chat model and picks templates at
    random). *)
Definition same_collaborators (s1 s2 : Service) : Prop :=
  str_of s1 = str_of s2 /\
  float_of_str s1 = float_of_str s2 /\
  int_of_str s1 = int_of_str s2 /\
  format_1f s1 = format_1f s2 /\
  parse_search_query s1 = parse_search_query s2 /\
  enrich_with_user_context s1 = enrich_with_user_context s2 /\
  users_context s1 = users_context s2 /\
  meetings_search s1 = meetings_search s2 /\
  meetings_batch s1 = meetings_batch s2 /\
  regressor_loaded s1 = regressor_loaded s2 /\
  feature_builder_loaded s1 = feature_builder_loaded s2 /\
  svd_loaded s1 = svd_loaded s2 /\
  feature_builder_build s1 = feature_builder_build s2 /\
  regressor_predict s1 = regressor_predict s2 /\
  svd_recommend s1 = svd_recommend s2.

(** The ranked order of a result: its recommendations without the
    rationale text. *)
Definition ranked (r : Recommendations) : list dict :=
  delete "reasoning" <$> recommendations r.

(** The range the specification gives the final score of a candidate: an
    [int] between 0 and 100 under the key ["match_score"]. *)
Definition score_in_range (rec : dict) : Prop :=
  exists z : Z, rec !! "match_score" = Some (VInt z) /\ 0 <= z <= 100.

(** The value of a result that is known to be [Ok]. *)
Definition from_ok {A} (dflt : A) (r : result A) : A :=
  match r with Ok a => a | Raise _ => dflt end.

(** The last two statements of [_to_spring_search_request] alone: the dict
    display and the comprehension that drops [None] and [""], from the
    keyword and the raw location type computed before them. *)
Definition payload_of (self : Service) (keyword raw_location_type : pyval)
    (enriched_query user_ctx : dict) : dict :=
  omap (fun v => if keep_field v then Some v else None)
    (py_dict [
      ("keyword", keyword);
      ("category", get enriched_query "category");
      ("subcategory", get enriched_query "subcategory");
      ("latitude", py_or (get user_ctx "lat") (get user_ctx "latitude"));
      ("longitude", py_or (get user_ctx "lng") (get user_ctx "longitude"));
      ("radius", get_default enriched_query "radius" (VFloat (FFin 5)));
      ("locationType", _normalize_location_type self raw_location_type);
      ("vibe", get enriched_query "vibe");
      ("timeSlot",
        _normalize_timeslot self
          (py_or (get enriched_query "time_slot")
                 (get enriched_query "timeSlot")));
      ("page", VInt 0);
      ("size", VInt 200);
      ("sortBy", VStr "createdAt");
      ("sortDirection", VStr "desc")]).

(** The keys a search payload may have. *)
Definition payload_keys : list string :=
  ["keyword"; "category"; "subcategory"; "latitude"; "longitude"; "radius";
   "locationType"; "vibe"; "timeSlot"; "page"; "size"; "sortBy";
   "sortDirection"].

(** Whether [" ".join] accepts what the query has under ["keywords"]. *)
Definition keywords_joinable (q : dict) : bool :=
  match get q "keywords" with
  | VNone | VList _ | VStr _ => true
  | v => negb (truthy v)
  end.

(** The payload fields the ladder removes, in the order of its levels. *)
Definition relaxed_fields : list string :=
  ["vibe"; "timeSlot"; "subcategory"; "category"].

(** The keys of a normalised meeting. *)
Definition normalized_keys : list string :=
  ["meeting_id"; "lat"; "lng"; "category"; "subcategory"; "time_slot";
   "meeting_location_type"; "vibe"; "max_participants";
   "meeting_participant_count"; "expected_cost"; "meeting_avg_rating";
   "meeting_rating_count"; "distance_km"; "title"; "image_url";
   "location_name"; "location_address"; "meeting_time";
   "current_participants"].


(** ** Concrete services

    Small closed worlds on which the functions above are evaluated. *)

(** A server with an empty catalog and no models' output. *)
Definition plain_service : Service :=
  {| str_of := fun _ => "";
     float_of_str := fun _ => Raise ValueError;
     int_of_str := fun _ => Raise ValueError;
     format_1f := fun _ => "";
     parse_search_query := fun _ _ => Ok ∅;
     enrich_with_user_context := fun _ parsed _ => Ok (parsed, false);
     users_context := fun _ _ => None;
     meetings_search := fun _ _ => Response 200 (Some []);
     meetings_batch := fun _ _ => Failed;
     regressor_loaded := true;
     feature_builder_loaded := true;
     svd_loaded := true;
     feature_builder_build := fun _ _ _ => Raise ValueError;
     regressor_predict := fun _ _ => Ok [];
     svd_recommend := fun _ _ _ => Ok [];
     generate_reasoning := fun _ _ _ _ => Ok "" |}.

(** An empty catalog and a collaborative model that recommends meetings
    11 and 12 with scores 4.2 and 3.0; the batch lookup returns a record
    per requested id. *)
Definition fallback_service : Service :=
  {| str_of := fun _ => "";
     float_of_str := fun _ => Raise ValueError;
     int_of_str := fun _ => Raise ValueError;
     format_1f := fun _ => "";
     parse_search_query := fun _ _ => Ok ∅;
     enrich_with_user_context := fun _ parsed _ => Ok (parsed, false);
     users_context := fun _ _ => None;
     meetings_search := fun _ _ => Response 200 (Some []);
     meetings_batch := fun _ ids =>
       Response 200 (Some ((fun i => {["meeting_id" := VInt i]}) <$> ids));
     regressor_loaded := true;
     feature_builder_loaded := true;
     svd_loaded := true;
     feature_builder_build := fun _ _ _ => Raise ValueError;
     regressor_predict := fun _ _ => Ok [];
     svd_recommend := fun _ _ _ => Ok [(11, FFin (42 # 10)); (12, FFin 3)];
     generate_reasoning := fun _ _ _ _ => Ok "" |}.

(** A catalog that fails on the first search and then returns three
    meetings, a feature builder that rejects meeting 3 and a regression
    model that predicts 4.0 for every row. *)
Definition three_meetings : list dict :=
  [py_dict [("meeting_id", VInt 1); ("category", VStr "스포츠")];
   py_dict [("meeting_id", VInt 2); ("category", VStr "카페")];
   py_dict [("meeting_id", VInt 3)]].

Definition scored_service : Service :=
  {| str_of := fun _ => "";
     float_of_str := fun _ => Raise ValueError;
     int_of_str := fun _ => Raise ValueError;
     format_1f := fun _ => "";
     parse_search_query := fun _ _ => Ok ∅;
     enrich_with_user_context := fun _ parsed _ => Ok (parsed, false);
     users_context := fun _ _ => None;
     meetings_search := fun h _ =>
       if (length h =? 3)%nat then Failed
       else Response 200 (Some three_meetings);
     meetings_batch := fun _ _ => Failed;
     regressor_loaded := true;
     feature_builder_loaded := true;
     svd_loaded := true;
     feature_builder_build := fun _ _ m =>
       if int_eq 3 (get m "meeting_id") then Raise ValueError
       else Ok (∅, []);
     regressor_predict := fun _ rows => Ok ((fun _ => FFin 4) <$> rows);
     svd_recommend := fun _ _ _ => Ok [];
     generate_reasoning := fun _ _ _ _ => Ok "r" |}.

(** The same catalog with a feature builder that rejects every meeting. *)
Definition rejecting_service : Service :=
  {| str_of := fun _ => "";
     float_of_str := fun _ => Raise ValueError;
     int_of_str := fun _ => Raise ValueError;
     format_1f := fun _ => "";
     parse_search_query := fun _ _ => Ok ∅;
     enrich_with_user_context := fun _ parsed _ => Ok (parsed, false);
     users_context := fun _ _ => None;
     meetings_search := fun _ _ => Response 200 (Some three_meetings);
     meetings_batch := fun _ _ => Failed;
     regressor_loaded := true;
     feature_builder_loaded := true;
     svd_loaded := true;
     feature_builder_build := fun _ _ _ => Raise ValueError;
     regressor_predict := fun _ rows => Ok ((fun _ => FFin 4) <$> rows);
     svd_recommend := fun _ _ _ => Ok [];
     generate_reasoning := fun _ _ _ _ => Ok "r" |}.

(** A query for a running meeting, with every field the ladder removes. *)
Definition running_query : dict :=
  py_dict [
    ("keywords", VList ["러닝"; "한강"]);
    ("category", VStr "스포츠");
    ("subcategory", VStr "러닝");
    ("vibe", VStr "활기찬");
    ("time_slot", VStr "저녁");
    ("confidence", VFloat (FFin (95 # 100)))].

(** The catalog and models of [scored_service] behind a parser that reads
    [running_query] out of every prompt. *)
Definition confident_service : Service :=
  {| str_of := fun _ => "";
     float_of_str := fun _ => Raise ValueError;
     int_of_str := fun _ => Raise ValueError;
     format_1f := fun _ => "";
     parse_search_query := fun _ _ => Ok running_query;
     enrich_with_user_context := fun _ parsed _ => Ok (parsed, true);
     users_context := fun _ _ => None;
     meetings_search := fun h _ =>
       if (length h =? 3)%nat then Failed
       else Response 200 (Some three_meetings);
     meetings_batch := fun _ _ => Failed;
     regressor_loaded := true;
     feature_builder_loaded := true;
     svd_loaded := true;
     feature_builder_build := fun _ _ m =>
       if int_eq 3 (get m "meeting_id") then Raise ValueError
       else Ok (∅, []);
     regressor_predict := fun _ rows => Ok ((fun _ => FFin 4) <$> rows);
     svd_recommend := fun _ _ _ => Ok [];
     generate_reasoning := fun _ _ _ _ => Ok "r" |}.

(** * Properties *)

(** ** The Python primitives on sample values *)

Example round_ties_to_even :
  py_round (FFin (5 # 2)) = Ok 2 /\ py_round (FFin (7 # 2)) = Ok 4 /\
  py_round (FFin (-5 # 2)) = Ok (-2) /\ py_round (FFin (8375 # 100)) = Ok 84.
Proof. repeat split. Qed.

Example int_truncates_toward_zero :
  py_int (FFin (8375 # 100)) = Ok 83 /\ py_int (FFin (-5 # 2)) = Ok (-2) /\
  py_int FNaN = Raise ValueError /\ py_int (FInf false) = Raise OverflowError.
Proof. repeat split. Qed.

Example min_max_with_nan :
  py_min (of_int 100) FNaN = of_int 100 /\
  py_max (of_int 0) (FInf true) = of_int 0 /\
  py_max (of_int 0) (py_min (of_int 100) (FFin (1 # 2))) = FFin (1 # 2).
Proof. repeat split. Qed.

Example strip_lower_upper :
  strip "  Night 	" = "Night" /\ lower "Night" = "night" /\
  upper "오전 pm" = "오전 PM".
Proof. repeat split. Qed.

Example contains_substring :
  contains "카페" "조용히 카페에서 쉬고 싶어요" = true /\
  contains "운동" "조용히 카페에서 쉬고 싶어요" = false.
Proof. repeat split. Qed.

Example join_characters :
  join_value (VStr "실내") = Ok "실 내" /\
  join_value (VList ["러닝"; "한강"]) = Ok "러닝 한강" /\
  join_value (VInt 5) = Raise TypeError.
Proof. repeat split. Qed.

Example sorted_desc_is_stable :
  sorted_desc fst [(1, "a"); (2, "b"); (1, "c"); (2, "d")] =
  [(2, "b"); (2, "d"); (1, "a"); (1, "c")].
Proof. reflexivity. Qed.

Example slice_to :
  py_slice_to 2 [1; 2; 3] = [1; 2] /\ py_slice_to 5 [1; 2; 3] = [1; 2; 3] /\
  py_slice_to (-1) [1; 2; 3] = [1; 2] /\ py_slice_to (-5) [1; 2; 3] = [].
Proof. repeat split. Qed.

(** ** The monads *)

Lemma result_bind_Ok {A B} (f : A -> result B) (r : result A) (b : B) :
  r ≫= f = Ok b -> exists a, r = Ok a /\ f a = Ok b.
Proof. destruct r as [a|e]; [eauto | discriminate]. Qed.

Lemma IO_bind_Ok {A B} (f : A -> IO B) (m : IO A) h b h' :
  (m ≫= f) h = (Ok b, h') ->
  exists a h1, m h = (Ok a, h1) /\ f a h1 = (Ok b, h').
Proof.
  unfold mbind, IO_bind. destruct (m h) as [[a|e] h1]; [eauto | discriminate].
Qed.

Lemma IO_bind_run {A B} (f : A -> IO B) (m : IO A) h a h1 :
  m h = (Ok a, h1) -> (m ≫= f) h = f a h1.
Proof. unfold mbind, IO_bind. now intros ->. Qed.

Lemma IO_bind_Raise {A B} (f : A -> IO B) (m : IO A) h e h1 :
  m h = (Raise e, h1) -> (m ≫= f) h = (Raise e, h1).
Proof. unfold mbind, IO_bind. now intros ->. Qed.

Lemma lift_Ok {A} (r : result A) h a h' :
  lift r h = (Ok a, h') -> r = Ok a /\ h' = h.
Proof. unfold lift. intros [= -> ->]. auto. Qed.

Lemma IO_ret_Ok {A} (a b : A) h h' :
  (mret a : IO A) h = (Ok b, h') -> a = b /\ h' = h.
Proof. unfold mret, IO_ret. intros [= -> ->]. auto. Qed.

Lemma call_raising_Ok {A} ev (respond : list event -> result A) h a h' :
  call_raising ev respond h = (Ok a, h') ->
  respond h = Ok a /\ h' = h ++ [ev].
Proof. unfold call_raising. intros [= -> ->]. auto. Qed.

(** A boolean test evaluated on a run both shows that the run returns and
    what the test says of its result. *)
Lemma run_check {A} (m : result A * list event) (test : A -> bool) :
  match m with (Ok a, _) => test a | _ => false end = true ->
  exists a h, m = (Ok a, h) /\ test a = true.
Proof. destruct m as [[a|e] h]; [eauto | discriminate]. Qed.

(** ** Arithmetic of the scores *)

Lemma Qcompare_100_Lt (q : Q) :
  (q ?= inject_Z 100)%Q = Lt -> Qnum q < 100 * Z.pos (Qden q).
Proof. unfold Qcompare; simpl. rewrite Z.compare_lt_iff. lia. Qed.

Lemma Qcompare_0_Gt (q : Q) :
  (q ?= inject_Z 0)%Q = Gt -> 0 < Qnum q.
Proof. unfold Qcompare; simpl. rewrite Z.compare_gt_iff. lia. Qed.

Lemma truncate_bounds (n : Z) (d : positive) :
  0 < n -> n < 100 * Z.pos d -> 0 <= Z.quot n (Z.pos d) <= 100.
Proof.
  intros Hn Hlt. rewrite Z.quot_div_nonneg by lia. split.
  - apply Z.div_pos; lia.
  - apply Z.lt_le_incl, Z.div_lt_upper_bound; lia.
Qed.

(** The clamp [int(max(0, min(100, x)))] is defined on every float, NaN
    and the infinities included, and lands in [0, 100]. *)
Lemma clamp_bounds (x : pyfloat) :
  exists z, py_int (py_max (of_int 0) (py_min (of_int 100) x)) = Ok z /\
            0 <= z <= 100.
Proof.
  destruct x as [q|[]|].
  - unfold py_min, flt, fcompare, of_int.
    destruct (q ?= inject_Z 100)%Q eqn:E100.
    + exists 100. split; [reflexivity | lia].
    + unfold py_max, fgt, fcompare.
      destruct (q ?= inject_Z 0)%Q eqn:E0.
      * exists 0. split; [reflexivity | lia].
      * exists 0. split; [reflexivity | lia].
      * eexists. split; [reflexivity |].
        apply truncate_bounds;
          [now apply Qcompare_0_Gt | now apply Qcompare_100_Lt].
    + exists 100. split; [reflexivity | lia].
  - exists 0. split; [reflexivity | lia].
  - exists 100. split; [reflexivity | lia].
  - exists 100. split; [reflexivity | lia].
Qed.

Lemma adjusted_score_bounds (base : pyval) (adjustment : pyfloat) (z : Z) :
  adjusted_score base adjustment = Ok z -> 0 <= z <= 100.
Proof.
  unfold adjusted_score. intros H.
  apply result_bind_Ok in H as (b & _ & H).
  destruct (clamp_bounds (fadd b adjustment)) as (z' & Hz' & Hb).
  congruence.
Qed.

Lemma adjusted_score_total (base : pyval) (adjustment : pyfloat) :
  is_Some (as_num base) -> exists z, adjusted_score base adjustment = Ok z.
Proof.
  intros [b Hb]. unfold adjusted_score, num. rewrite Hb. simpl.
  destruct (clamp_bounds (fadd b adjustment)) as (z & Hz & _). eauto.
Qed.

Lemma rating_to_match_score_bounds (p : pyfloat) (z : Z) :
  rating_to_match_score p = Ok z -> 0 <= z <= 100.
Proof.
  unfold rating_to_match_score. intros H.
  apply result_bind_Ok in H as (quarter & _ & H).
  apply result_bind_Ok in H as (rounded & _ & H).
  injection H as <-. lia.
Qed.

(** ** Normalizer *)




(** ** Intent and its correction *)

Lemma lookup_scored (m : dict) (a b c : pyval) (k : string) :
  k <> "predicted_rating" -> k <> "match_score" -> k <> "key_points" ->
  py_update m [("predicted_rating", a); ("match_score", b);
               ("key_points", c)] !! k = m !! k.
Proof.
  intros H1 H2 H3. unfold py_update. simpl.
  rewrite !lookup_insert_ne by congruence. reflexivity.
Qed.

(** C7: for the prompt "조용히 카페에서 쉬고 싶어요" and a candidate of
    category "스포츠" whose predicted rating is 4.0, the scorer stores the
    base match_score 75, the detected intent is QUIET, the correction is
    -25, and the correction loop leaves match_score 50 and intent QUIET. *)
Theorem quiet_prompt_sports_candidate
    (self : Service) (parsed_query m : dict) (feat : features) :
  get m "category" = VStr "스포츠" ->
  exists scored final,
    score_loop self [m] [feat] [FFin 4] = Ok [scored] /\
    scored !! "match_score" = Some (VInt 75) /\
    _detect_intent "조용히 카페에서 쉬고 싶어요" parsed_query = "QUIET" /\
    _apply_intent_adjustment "QUIET" scored = FFin (-25) /\
    adjusted_score (VInt 75) (FFin (-25)) = Ok 50 /\
    adjust_scored (_detect_intent "조용히 카페에서 쉬고 싶어요" parsed_query)
                  [scored] = Ok [final] /\
    final !! "match_score" = Some (VInt 50) /\
    final !! "intent" = Some (VStr "QUIET").
Proof.
  intros Hcat.
  assert (Hintent :
    _detect_intent "조용히 카페에서 쉬고 싶어요" parsed_query = "QUIET")
    by reflexivity.
  set (scored := py_update m [
    ("predicted_rating", VFloat (py_round_n 3 (FFin 4)));
    ("match_score", VInt 75);
    ("key_points", VList (_build_key_points_from_feat self feat))]).
  assert (Hscore : scored !! "match_score" = Some (VInt 75)).
  { unfold scored, py_update. simpl.
    rewrite lookup_insert_ne by discriminate. now rewrite lookup_insert_eq. }
  assert (Hadj : _apply_intent_adjustment "QUIET" scored = FFin (-25)).
  { unfold _apply_intent_adjustment, get, scored.
    rewrite lookup_scored by discriminate.
    unfold get in Hcat. rewrite Hcat. reflexivity. }
  exists scored, (<["intent" := VStr "QUIET"]>
                   (<["match_score" := VInt 50]> scored)).
  split; [reflexivity |]. split; [exact Hscore |].
  split; [exact Hintent |]. split; [exact Hadj |].
  split; [reflexivity |]. split.
  - rewrite Hintent. simpl. rewrite Hscore. simpl. rewrite Hadj. reflexivity.
  - split.
    + rewrite lookup_insert_ne by discriminate. now rewrite lookup_insert_eq.
    + now rewrite lookup_insert_eq.
Qed.

Lemma quiet_prompt_sports_candidate_witness :
  exists scored final,
    score_loop plain_service [{["category" := VStr "스포츠"]}] [∅] [FFin 4]
      = Ok [scored] /\
    scored !! "match_score" = Some (VInt 75) /\
    _detect_intent "조용히 카페에서 쉬고 싶어요" ∅ = "QUIET" /\
    _apply_intent_adjustment "QUIET" scored = FFin (-25) /\
    adjusted_score (VInt 75) (FFin (-25)) = Ok 50 /\
    adjust_scored (_detect_intent "조용히 카페에서 쉬고 싶어요" ∅) [scored]
      = Ok [final] /\
    final !! "match_score" = Some (VInt 50) /\
    final !! "intent" = Some (VStr "QUIET").
Proof.
  apply (quiet_prompt_sports_candidate plain_service ∅
           {["category" := VStr "스포츠"]} ∅).
  reflexivity.
Defined.

(** ** The ranking sort *)

Section Sorting.
Context {A : Type} (key : A -> Z).

Lemma insert_desc_perm (x : A) (l : list A) :
  Permutation (insert_desc key x l) (x :: l).
Proof.
  induction l as [|y l IH]; simpl; [reflexivity |].
  destruct (key x <? key y); [| reflexivity].
  rewrite IH. apply perm_swap.
Qed.

Lemma sorted_desc_perm (l : list A) : Permutation (sorted_desc key l) l.
Proof.
  induction l as [|x l IH]; simpl; [reflexivity |].
  rewrite insert_desc_perm. now constructor.
Qed.

Lemma insert_desc_sorted (x : A) (l : list A) :
  StronglySorted (desc key) l -> StronglySorted (desc key) (insert_desc key x l).
Proof.
  induction 1 as [|y l Hl IH Hy]; simpl.
  - repeat constructor.
  - destruct (Z.ltb_spec (key x) (key y)) as [Hlt|Hge].
    + constructor; [exact IH |].
      eapply Permutation_Forall;
        [symmetry; apply insert_desc_perm |].
      constructor; [unfold desc; lia | exact Hy].
    + constructor; [now constructor |].
      constructor; [exact Hge |].
      eapply Forall_impl; [exact Hy |]. unfold desc. intros; lia.
Qed.

Lemma sorted_desc_sorted (l : list A) :
  StronglySorted (desc key) (sorted_desc key l).
Proof.
  induction l as [|x l IH]; simpl; [constructor |].
  now apply insert_desc_sorted.
Qed.

(** Stability: the items that share a key come out in the order they
    went in. *)
Lemma insert_desc_stable (k : Z) (x : A) (l : list A) :
  StronglySorted (desc key) l ->
  List.filter (fun a => key a =? k) (insert_desc key x l) =
  List.filter (fun a => key a =? k) (x :: l).
Proof.
  induction 1 as [|y l Hl IH Hy]; [reflexivity |].
  cbn [insert_desc].
  destruct (Z.ltb_spec (key x) (key y)) as [Hlt|Hge]; [| reflexivity].
  cbn [List.filter] in *. rewrite IH.
  destruct (Z.eqb_spec (key x) k), (Z.eqb_spec (key y) k);
    try reflexivity.
  lia.
Qed.

Lemma sorted_desc_stable (k : Z) (l : list A) :
  List.filter (fun a => key a =? k) (sorted_desc key l) =
  List.filter (fun a => key a =? k) l.
Proof.
  induction l as [|x l IH]; [reflexivity |].
  cbn [sorted_desc foldr].
  rewrite insert_desc_stable by apply sorted_desc_sorted.
  cbn [List.filter]. fold (sorted_desc key l). now rewrite IH.
Qed.

Lemma sorted_desc_Forall (P : A -> Prop) (l : list A) :
  Forall P l -> Forall P (sorted_desc key l).
Proof.
  intros H. eapply Permutation_Forall; [| exact H].
  symmetry. apply sorted_desc_perm.
Qed.
End Sorting.

Lemma py_slice_to_Forall {A} (P : A -> Prop) (n : Z) (l : list A) :
  Forall P l -> Forall P (py_slice_to n l).
Proof. unfold py_slice_to. destruct (0 <=? n); apply Forall_take. Qed.

(** ** The relaxation ladder *)

Lemma _try_run (self : Service) (ctx : dict) (t : list TraceStep)
    (lbl : string) (q : dict) (lvl : Z) (h : list event) :
  _try self ctx t lbl q lvl h =
  match _to_spring_search_request self q ctx with
  | Ok p =>
      let found := candidates_of (meetings_search self h p) in
      (Ok (found, t ++ [{| level := lvl; label := lbl; payload := p;
                           count := length found |}]),
       h ++ [EvSearch p])
  | Raise e => (Raise e, h)
  end.
Proof.
  unfold _try, _search_meetings, try_except, mbind, IO_bind, lift, call.
  destruct (_to_spring_search_request self q ctx) as [p|e]; [| reflexivity].
  destruct (meetings_search self h p) as [status meetings|]; simpl.
  - destruct (status =? 200); reflexivity.
  - reflexivity.
Qed.

(** Whether the payload builder raises depends only on the keyword and
    location fields, none of which the ladder removes. *)
Lemma to_spring_is_ok_delete (self : Service) (q ctx : dict) (k : string) :
  k <> "keyword" -> k <> "keywords" ->
  k <> "locationType" -> k <> "location_type" ->
  is_ok (_to_spring_search_request self (delete k q) ctx) =
  is_ok (_to_spring_search_request self q ctx).
Proof.
  intros H1 H2 H3 H4.
  unfold _to_spring_search_request, _infer_location_type, get.
  rewrite !(lookup_delete_ne q k "keyword"),
          !(lookup_delete_ne q k "keywords"),
          !(lookup_delete_ne q k "locationType"),
          !(lookup_delete_ne q k "location_type") by congruence.
  destruct (truthy (default VNone (q !! "keyword"))).
  - cbn [mbind result_bind mret result_ret].
    destruct (truthy (py_or (default VNone (q !! "locationType"))
                            (default VNone (q !! "location_type")))).
    + reflexivity.
    + destruct (join_value (py_or (default VNone (q !! "keywords"))
                                  (VList []))); [| reflexivity].
      cbn [mbind result_bind mret result_ret].
      repeat (match goal with |- context [if ?b then _ else _] =>
                destruct b end; try reflexivity).
  - destruct (truthy (py_or (default VNone (q !! "keywords")) (VList []))).
    + destruct (join_value (py_or (default VNone (q !! "keywords"))
                                  (VList []))); [| reflexivity].
      cbn [mbind result_bind mret result_ret].
      destruct (truthy (py_or (default VNone (q !! "locationType"))
                              (default VNone (q !! "location_type"))));
        [reflexivity |].
      cbn [mbind result_bind mret result_ret].
      repeat (match goal with |- context [if ?b then _ else _] =>
                destruct b end; try reflexivity).
    + cbn [mbind result_bind mret result_ret].
      destruct (truthy (py_or (default VNone (q !! "locationType"))
                              (default VNone (q !! "location_type"))));
        [reflexivity |].
      destruct (join_value (py_or (default VNone (q !! "keywords"))
                                  (VList []))); [| reflexivity].
      cbn [mbind result_bind mret result_ret].
      repeat (match goal with |- context [if ?b then _ else _] =>
                destruct b end; try reflexivity).
Qed.

Lemma ladder_payload_ok (self : Service) (q ctx : dict) (i : nat) :
  is_ok (_to_spring_search_request self (ladder_query q i) ctx) =
  is_ok (_to_spring_search_request self q ctx).
Proof.
  destruct i as [|[|[|[|i]]]]; unfold ladder_query;
    rewrite ?to_spring_is_ok_delete by discriminate; reflexivity.
Qed.

Lemma ladder_payload_eq (self : Service) (q ctx : dict) (p : dict) (i : nat) :
  _to_spring_search_request self q ctx = Ok p ->
  _to_spring_search_request self (ladder_query q i) ctx =
  Ok (ladder_payload self q ctx i).
Proof.
  intros E. pose proof (ladder_payload_ok self q ctx i) as H.
  rewrite E in H. unfold ladder_payload.
  destruct (_to_spring_search_request self (ladder_query q i) ctx);
    [reflexivity | discriminate].
Qed.

Ltac ladder_level E :=
  unfold mbind at 1; unfold IO_bind at 1;
  rewrite _try_run, E; cbv beta iota zeta.

Ltac ladder_done :=
  unfold mret, IO_ret;
  apply (f_equal2 pair); [| reflexivity];
  do 2 f_equal; rewrite <- !app_assoc; reflexivity.

Lemma ladder_closed_form (self : Service) (q ctx : dict)
    (t0 : list TraceStep) (h : list event) (p : dict) :
  _to_spring_search_request self q ctx = Ok p ->
  _search_with_relaxation self q ctx t0 h =
  let n := ladder_stop self q ctx h 0 4 in
  (Ok (ladder_found self q ctx h n,
       t0 ++ (ladder_step self q ctx h <$> seq 0 (S n))),
   ladder_history self q ctx h (S n)).
Proof.
  intros E.
  pose proof (ladder_payload_eq self q ctx p 0 E) as E0.
  pose proof (ladder_payload_eq self q ctx p 1 E) as E1.
  pose proof (ladder_payload_eq self q ctx p 2 E) as E2.
  pose proof (ladder_payload_eq self q ctx p 3 E) as E3.
  pose proof (ladder_payload_eq self q ctx p 4 E) as E4.
  cbn [ladder_query] in E0, E1, E2, E3, E4.
  unfold _search_with_relaxation.
  ladder_level E0.
  change (candidates_of (meetings_search self h
                           (ladder_payload self q ctx 0)))
    with (ladder_found self q ctx h 0).
  cbn [ladder_stop].
  destruct (nonempty (ladder_found self q ctx h 0)); [reflexivity |].
  ladder_level E1.
  change (candidates_of (meetings_search self
            (h ++ [EvSearch (ladder_payload self q ctx 0)])
            (ladder_payload self q ctx 1)))
    with (ladder_found self q ctx h 1).
  destruct (nonempty (ladder_found self q ctx h 1)).
  { ladder_done. }
  ladder_level E2.
  change (candidates_of (meetings_search self
            ((h ++ [EvSearch (ladder_payload self q ctx 0)]) ++
             [EvSearch (ladder_payload self q ctx 1)])
            (ladder_payload self q ctx 2)))
    with (ladder_found self q ctx h 2).
  destruct (nonempty (ladder_found self q ctx h 2)).
  { ladder_done. }
  ladder_level E3.
  change (candidates_of (meetings_search self
            (((h ++ [EvSearch (ladder_payload self q ctx 0)]) ++
              [EvSearch (ladder_payload self q ctx 1)]) ++
             [EvSearch (ladder_payload self q ctx 2)])
            (ladder_payload self q ctx 3)))
    with (ladder_found self q ctx h 3).
  destruct (nonempty (ladder_found self q ctx h 3)).
  { ladder_done. }
  ladder_level E4.
  change (candidates_of (meetings_search self
            ((((h ++ [EvSearch (ladder_payload self q ctx 0)]) ++
               [EvSearch (ladder_payload self q ctx 1)]) ++
              [EvSearch (ladder_payload self q ctx 2)]) ++
             [EvSearch (ladder_payload self q ctx 3)])
            (ladder_payload self q ctx 4)))
    with (ladder_found self q ctx h 4).
  ladder_done.
Qed.

Lemma ladder_raises (self : Service) (q ctx : dict)
    (t0 : list TraceStep) (h : list event) (e : exn) :
  _to_spring_search_request self q ctx = Raise e ->
  _search_with_relaxation self q ctx t0 h = (Raise e, h).
Proof.
  intros E. unfold _search_with_relaxation.
  unfold mbind at 1; unfold IO_bind at 1. now rewrite _try_run, E.
Qed.

Lemma ladder_stop_spec (self : Service) (q ctx : dict) (h : list event)
    (i r : nat) :
  let n := ladder_stop self q ctx h i r in
  (i <= n <= i + r)%nat /\
  (forall j, (i <= j < n)%nat -> ladder_found self q ctx h j = []) /\
  ((n < i + r)%nat -> ladder_found self q ctx h n <> []).
Proof.
  revert i. induction r as [|r IH]; intros i; cbn [ladder_stop].
  - repeat split; intros; lia.
  - destruct (nonempty (ladder_found self q ctx h i)) eqn:N.
    + repeat split; try lia. intros _. now destruct (ladder_found self q ctx h i).
    + destruct (IH (S i)) as (Hn & Hempty & Hfound).
      repeat split; try lia.
      * intros j Hj. destruct (decide (j = i)) as [->|Hne].
        -- now destruct (ladder_found self q ctx h i).
        -- apply Hempty. lia.
      * intros Hlt. apply Hfound. lia.
Qed.

Lemma ladder_history_events (self : Service) (q ctx : dict)
    (h : list event) (k : nat) :
  ladder_history self q ctx h k =
  h ++ ((fun i => EvSearch (ladder_payload self q ctx i)) <$> seq 0 k).
Proof.
  induction k as [|k IH]; cbn [ladder_history].
  - now rewrite app_nil_r.
  - rewrite IH, seq_S, fmap_app, app_assoc. reflexivity.
Qed.

Lemma ladder_steps_lookup (self : Service) (q ctx : dict) (h : list event)
    (k i : nat) (s : TraceStep) :
  (ladder_step self q ctx h <$> seq 0 k) !! i = Some s ->
  (i < k)%nat /\ s = ladder_step self q ctx h i.
Proof.
  rewrite list_lookup_fmap. intros H.
  destruct (seq 0 k !! i) as [j|] eqn:Hj; [| discriminate].
  apply lookup_seq in Hj as [-> Hlt]. injection H as <-. auto.
Qed.

(** Two runs: a catalog that fails once and then answers stops the ladder
    at level 1; an empty catalog takes it through the five levels. *)
Example ladder_stops_at_first_result :
  match _search_with_relaxation scored_service running_query ∅ []
          [EvParse ""; EvUserContext 7; EvEnrich ∅ ∅]
  with
  | (Ok (cands, trace), h') =>
      bool_decide (level <$> trace = [0; 1]) &&
      bool_decide (count <$> trace = [0; 3]%nat) &&
      (length cands =? 3)%nat && (length h' =? 5)%nat
  | _ => false
  end = true.
Proof. vm_compute. reflexivity. Qed.

Example ladder_exhausted :
  match _search_with_relaxation plain_service running_query ∅ [] [] with
  | (Ok (cands, trace), h') =>
      bool_decide (level <$> trace = [0; 1; 2; 3; 4]) &&
      bool_decide (label <$> trace = ladder_labels) &&
      bool_decide (count <$> trace = [0; 0; 0; 0; 0]%nat) &&
      (length cands =? 0)%nat && (length h' =? 5)%nat
  | _ => false
  end = true.
Proof. vm_compute. reflexivity. Qed.

(** C2: in every execution of the relaxation search that returns, the
    steps appended to the trace are between one and five, their levels are
    0, 1, 2, ... without a gap or a repetition, the searches sent to the
    catalog are exactly the payloads of these steps in the same order (one
    step per attempted level), each step counts the candidates its own
    search returned, every step but the last found nothing (no level is
    attempted after one that returned a candidate), and a search that
    stops before level 4 stops with candidates.  The search raises only
    when the payload builder rejects the query, before any call to the
    catalog. *)
Theorem relaxation_trace_audit (self : Service) (q ctx : dict)
    (t0 : list TraceStep) (h : list event) :
  match _search_with_relaxation self q ctx t0 h with
  | (Ok (cands, trace), h') =>
      exists new : list TraceStep,
        trace = t0 ++ new /\
        (1 <= length new <= 5)%nat /\
        level <$> new = Z.of_nat <$> seq 0 (length new) /\
        h' = h ++ ((fun s => EvSearch (payload s)) <$> new) /\
        (forall i s, new !! i = Some s ->
           count s = length (candidates_of
             (meetings_search self
                (h ++ ((fun s => EvSearch (payload s)) <$> take i new))
                (payload s))) /\
           ((S i < length new)%nat -> count s = 0%nat)) /\
        (exists s, last new = Some s /\ count s = length cands) /\
        ((length new < 5)%nat -> cands <> [])
  | (Raise e, h') =>
      h' = h /\ _to_spring_search_request self q ctx = Raise e
  end.
Proof.
  destruct (_to_spring_search_request self q ctx) as [p|e] eqn:E.
  2: { rewrite (ladder_raises _ _ _ _ _ _ E). auto. }
  rewrite (ladder_closed_form _ _ _ _ _ _ E). cbv zeta.
  destruct (ladder_stop_spec self q ctx h 0 4) as (Hn & Hempty & Hfound).
  cbv zeta in Hn, Hempty, Hfound.
  set (n := ladder_stop self q ctx h 0 4) in *.
  exists (ladder_step self q ctx h <$> seq 0 (S n)).
  assert (Hlen : length (ladder_step self q ctx h <$> seq 0 (S n)) = S n)
    by now rewrite length_fmap, length_seq.
  rewrite Hlen.
  split; [reflexivity |]. split; [lia |]. split.
  { rewrite <- list_fmap_compose. reflexivity. }
  split.
  { rewrite ladder_history_events, <- list_fmap_compose. reflexivity. }
  split.
  { intros i s Hs. apply ladder_steps_lookup in Hs as [Hi ->]. split.
    - rewrite <- fmap_take, take_seq, <- list_fmap_compose.
      replace (i `min` S n)%nat with i by lia.
      cbn [count ladder_step payload]. unfold ladder_found.
      now rewrite ladder_history_events.
    - intros Hlt. cbn [count ladder_step].
      rewrite Hempty by lia. reflexivity. }
  split.
  { exists (ladder_step self q ctx h n). split; [| reflexivity].
    rewrite seq_S, fmap_app. apply last_snoc. }
  intros Hlt. apply Hfound. lia.
Qed.

(** What a returning run of the ladder that started with an empty trace
    looks like. *)
Lemma ladder_Ok_inv (self : Service) (q ctx : dict) (h : list event)
    (cands : list dict) (trace : list TraceStep) (h' : list event) :
  _search_with_relaxation self q ctx [] h = (Ok (cands, trace), h') ->
  exists (n : nat) (p : dict),
    (n <= 4)%nat /\
    _to_spring_search_request self q ctx = Ok p /\
    trace = (ladder_step self q ctx h <$> seq 0 (S n)) /\
    cands = ladder_found self q ctx h n /\
    h' = ladder_history self q ctx h (S n) /\
    (forall j, (j < n)%nat -> ladder_found self q ctx h j = []) /\
    ((n < 4)%nat -> cands <> []).
Proof.
  intros Hrun.
  destruct (_to_spring_search_request self q ctx) as [p|e] eqn:E.
  2: { rewrite (ladder_raises _ _ _ _ _ _ E) in Hrun. discriminate. }
  rewrite (ladder_closed_form _ _ _ _ _ _ E) in Hrun. cbv zeta in Hrun.
  destruct (ladder_stop_spec self q ctx h 0 4) as (Hn & Hempty & Hfound).
  cbv zeta in Hn, Hempty, Hfound.
  set (n := ladder_stop self q ctx h 0 4) in *.
  remember (ladder_step self q ctx h <$> seq 0 (S n)) as new eqn:Hnew.
  remember (ladder_history self q ctx h (S n)) as hist eqn:Hhist.
  injection Hrun as <- <- <-.
  exists n, p. repeat split; try assumption; try lia.
  intros j Hj. apply Hempty. lia.
Qed.

(** ** The payload of the last level *)

Lemma payload_lookup (self : Service) (q ctx p : dict) (k : string) :
  _to_spring_search_request self q ctx = Ok p ->
  In k ["category"; "subcategory"; "vibe"] ->
  p !! k = if keep_field (get q k) then Some (get q k) else None.
Proof.
  unfold _to_spring_search_request. intros H Hk.
  apply result_bind_Ok in H as (keyword & _ & H).
  apply result_bind_Ok in H as (raw_location_type & _ & H).
  injection H as <-. rewrite lookup_omap.
  unfold py_dict. cbn [foldl fst snd].
  cbn [In] in Hk. destruct Hk as [<-|[<-|[<-|[]]]];
    rewrite !lookup_insert_ne by discriminate;
    rewrite lookup_insert_eq; reflexivity.
Qed.

Lemma payload_absent (self : Service) (q ctx p : dict) (k : string) :
  _to_spring_search_request self q ctx = Ok p ->
  In k ["category"; "subcategory"; "vibe"] ->
  q !! k = None -> p !! k = None.
Proof.
  intros H Hk Hq. rewrite (payload_lookup _ _ _ _ _ H Hk).
  unfold get. rewrite Hq. reflexivity.
Qed.

(** C3, as the code has it: the last level issues the query of level 3
    (vibe, time-of-day and subcategory removed) with [category] removed as
    well, so the payload of level 4 carries no subcategory, no category
    and no vibe. *)
Theorem last_level_payload (self : Service) (q ctx : dict) (h : list event)
    (cands : list dict) (trace : list TraceStep) (h' : list event)
    (s : TraceStep) :
  _search_with_relaxation self q ctx [] h = (Ok (cands, trace), h') ->
  trace !! 4%nat = Some s ->
  level s = 4 /\
  _to_spring_search_request self
    (delete "category" (delete "subcategory"
       (delete "timeSlot" (delete "time_slot" (delete "vibe" q))))) ctx
    = Ok (payload s) /\
  payload s !! "subcategory" = None /\
  payload s !! "category" = None /\
  payload s !! "vibe" = None.
Proof.
  intros Hrun Hs.
  apply ladder_Ok_inv in Hrun as (n & p & _ & E & -> & _).
  apply ladder_steps_lookup in Hs as [_ ->].
  pose proof (ladder_payload_eq self q ctx p 4 E) as E4.
  cbn [ladder_query] in E4. cbn [level payload ladder_step].
  split; [reflexivity |]. split; [exact E4 |].
  repeat split; (eapply payload_absent; [exact E4 | cbn [In]; auto |]).
  - rewrite lookup_delete_ne by discriminate. apply lookup_delete_eq.
  - apply lookup_delete_eq.
  - rewrite !lookup_delete_ne by discriminate. apply lookup_delete_eq.
Qed.

Lemma last_level_payload_witness :
  exists s,
    level s = 4 /\
    _to_spring_search_request plain_service
      (delete "category" (delete "subcategory"
         (delete "timeSlot" (delete "time_slot"
            (delete "vibe" running_query))))) ∅
      = Ok (payload s) /\
    payload s !! "subcategory" = None /\
    payload s !! "category" = None /\
    payload s !! "vibe" = None.
Proof.
  destruct (_search_with_relaxation plain_service running_query ∅ [] [])
    as [[[cands trace]|e] h'] eqn:Hrun.
  - destruct (trace !! 4%nat) as [s|] eqn:Hs.
    + exists s. exact (last_level_payload _ _ _ _ _ _ _ _ Hrun Hs).
    + exfalso.
      assert (Hc :
        match _search_with_relaxation plain_service running_query ∅ [] []
        with
        | (Ok (_, t), _) => match t !! 4%nat with Some _ => true | _ => false end
        | _ => false
        end = true) by (vm_compute; reflexivity).
      rewrite Hrun, Hs in Hc. discriminate Hc.
  - exfalso.
    assert (Hc :
      is_ok (_search_with_relaxation plain_service running_query ∅ [] []).1
      = true) by (vm_compute; reflexivity).
    rewrite Hrun in Hc. discriminate Hc.
Defined.

(** C3 as stated fails: for [running_query], which has a subcategory, the
    payload of level 4 is not the payload of the level-2 query without its
    category; that one would still carry the subcategory. *)
Lemma last_level_is_not_level_2_without_category :
  ~ (forall (self : Service) (q ctx : dict) (h : list event)
            (cands : list dict) (trace : list TraceStep) (h' : list event)
            (s : TraceStep),
        _search_with_relaxation self q ctx [] h = (Ok (cands, trace), h') ->
        trace !! 4%nat = Some s ->
        _to_spring_search_request self
          (delete "category" (ladder_query q 2)) ctx = Ok (payload s)).
Proof.
  intros H.
  assert (Hc :
    match _search_with_relaxation plain_service running_query ∅ [] [],
          _to_spring_search_request plain_service
            (delete "category" (ladder_query running_query 2)) ∅
    with
    | (Ok (_, t), _), Ok p =>
        match t !! 4%nat with
        | Some s => in_dict "subcategory" p &&
                    negb (in_dict "subcategory" (payload s))
        | None => false
        end
    | _, _ => false
    end = true) by (vm_compute; reflexivity).
  destruct (_search_with_relaxation plain_service running_query ∅ [] [])
    as [[[cands trace]|e] h'] eqn:Hrun; [| discriminate Hc].
  destruct (trace !! 4%nat) as [s|] eqn:Hs.
  - rewrite (H _ _ _ _ _ _ _ _ Hrun Hs) in Hc.
    destruct (in_dict "subcategory" (payload s)); discriminate Hc.
  - destruct (_to_spring_search_request plain_service
                (delete "category" (ladder_query running_query 2)) ∅);
      discriminate Hc.
Qed.

(** ** The pipeline in stages *)

Lemma get_ai_recommendations_staged (self : Service) (user_prompt : string)
    (user_id top_n : Z) (h : list event) :
  get_ai_recommendations self user_prompt user_id top_n h =
  ('(parsed_query, user_context, enriched_query) ←
     steps_1_to_3 self user_prompt user_id;
   steps_4_to_7 self user_prompt user_id top_n parsed_query user_context
                enriched_query) h.
Proof.
  unfold get_ai_recommendations, steps_1_to_3, steps_4_to_7.
  unfold mbind, IO_bind.
  destruct (call_raising (EvParse user_prompt) _ h) as [[pq|e] h1];
    [| reflexivity].
  destruct (_get_user_context self user_id h1) as [[ctx|e] h2];
    [| reflexivity].
  destruct (call_raising (EvEnrich pq ctx) _ h2) as [[[eq same]|e] h3];
    [| reflexivity].
  destruct (lift (_should_apply_time_slot eq) h3) as [[b1|e] h4];
    [| reflexivity].
  destruct (lift (_should_apply_vibe _) h4) as [[b2|e] h5];
    [| reflexivity].
  reflexivity.
Qed.

(** ** Range of the final score *)

Lemma adjust_fallback_range (intent : string) (recs out : list dict) :
  adjust_fallback intent recs = Ok out -> Forall score_in_range out.
Proof.
  revert out. induction recs as [|rec recs IH]; intros out H.
  - injection H as <-. constructor.
  - cbn [adjust_fallback] in H.
    apply result_bind_Ok in H as (score & Hscore & H).
    apply result_bind_Ok in H as (rest & Hrest & H).
    injection H as <-. constructor; [| now apply IH].
    exists score. split.
    + rewrite lookup_insert_ne by discriminate. apply lookup_insert_eq.
    + eapply adjusted_score_bounds, Hscore.
Qed.

Lemma adjust_scored_range (intent : string) (scored out : list dict) :
  adjust_scored intent scored = Ok out -> Forall score_in_range out.
Proof.
  revert out. induction scored as [|m scored IH]; intros out H.
  - injection H as <-. constructor.
  - cbn [adjust_scored] in H.
    apply result_bind_Ok in H as (base & _ & H).
    apply result_bind_Ok in H as (score & Hscore & H).
    apply result_bind_Ok in H as (rest & Hrest & H).
    injection H as <-. constructor; [| now apply IH].
    exists score. split.
    + rewrite lookup_insert_ne by discriminate. apply lookup_insert_eq.
    + eapply adjusted_score_bounds, Hscore.
Qed.

(** Step 7 stores a rationale in each recommendation, in order, and asks
    the generator once per recommendation. *)
Lemma reasoning_loop_Ok (self : Service) (ctx pq : dict)
    (top out : list dict) (h h' : list event) :
  reasoning_loop self ctx pq top h = (Ok out, h') ->
  Forall2 (fun rec rec' =>
             exists text, rec' = <["reasoning" := VStr text]> rec) top out /\
  h' = h ++ ((fun rec => EvReasoning ctx rec pq) <$> top).
Proof.
  revert out h h'. induction top as [|rec top IH]; intros out h h' H.
  - apply IO_ret_Ok in H as [<- ->]. split; [constructor |].
    now rewrite app_nil_r.
  - cbn [reasoning_loop] in H.
    apply IO_bind_Ok in H as (text & h1 & Hcall & H).
    apply call_raising_Ok in Hcall as [_ ->].
    apply IO_bind_Ok in H as (rest & h2 & Hrest & H).
    apply IO_ret_Ok in H as [<- ->].
    apply IH in Hrest as [Hall ->]. split.
    + constructor; eauto.
    + rewrite fmap_cons, <- app_assoc. reflexivity.
Qed.

Lemma reasoning_loop_range (self : Service) (ctx pq : dict)
    (top out : list dict) (h h' : list event) :
  reasoning_loop self ctx pq top h = (Ok out, h') ->
  Forall score_in_range top -> Forall score_in_range out.
Proof.
  intros H Htop. apply reasoning_loop_Ok in H as [Hall _].
  induction Hall as [|rec rec' top out (text & ->) _ IH]; [constructor |].
  inversion Htop as [|? ? (z & Hz & Hb) Htop']; subst.
  constructor; [| now apply IH].
  exists z. split; [| exact Hb].
  now rewrite lookup_insert_ne by discriminate.
Qed.

(** C1: every candidate of a returned recommendations list, on the scored
    path as on the fallback path, carries an integer match_score between 0
    and 100 after the intent correction, whatever ratings the regression
    model predicts, whatever scores the collaborative model gives and
    whatever the correction adds. *)
Theorem match_score_in_range (self : Service) (user_prompt : string)
    (user_id top_n : Z) (h : list event) (r : Recommendations)
    (h' : list event) :
  get_ai_recommendations self user_prompt user_id top_n h = (Ok r, h') ->
  Forall score_in_range (recommendations r).
Proof.
  rewrite get_ai_recommendations_staged. intros H.
  apply IO_bind_Ok in H as ([[pq ctx] eq] & h1 & _ & H).
  unfold steps_4_to_7 in H.
  apply IO_bind_Ok in H as ([cands trace] & h2 & _ & H).
  destruct (nonempty cands); cbn [negb] in H.
  - apply IO_bind_Ok in H as (scored & h3 & _ & H).
    apply IO_bind_Ok in H as (adjusted & h4 & Hadj & H).
    apply lift_Ok in Hadj as [Hadj ->].
    apply IO_bind_Ok in H as (top & h5 & Htop & H).
    apply IO_ret_Ok in H as [<- ->]. cbn [recommendations].
    eapply reasoning_loop_range; [exact Htop |].
    apply py_slice_to_Forall, sorted_desc_Forall.
    eapply adjust_scored_range, Hadj.
  - apply IO_bind_Ok in H as (data & h3 & _ & H).
    apply IO_bind_Ok in H as (recs & h4 & Hadj & H).
    apply lift_Ok in Hadj as [Hadj ->].
    apply IO_ret_Ok in H as [<- ->]. cbn [recommendations with_search_trace].
    eapply adjust_fallback_range, Hadj.
Qed.

Lemma match_score_in_range_witness :
  exists r1 h1 r2 h2,
    get_ai_recommendations scored_service "조용히 카페에서 쉬고 싶어요" 7 5 []
      = (Ok r1, h1) /\
    length (recommendations r1) = 2%nat /\
    Forall score_in_range (recommendations r1) /\
    get_ai_recommendations fallback_service "아무거나" 7 2 [] = (Ok r2, h2) /\
    length (recommendations r2) = 2%nat /\
    Forall score_in_range (recommendations r2).
Proof.
  destruct (run_check
    (get_ai_recommendations scored_service "조용히 카페에서 쉬고 싶어요" 7 5 [])
    (fun r => (length (recommendations r) =? 2)%nat))
    as (r1 & h1 & Hrun1 & Hlen1); [vm_compute; reflexivity |].
  destruct (run_check
    (get_ai_recommendations fallback_service "아무거나" 7 2 [])
    (fun r => (length (recommendations r) =? 2)%nat))
    as (r2 & h2 & Hrun2 & Hlen2); [vm_compute; reflexivity |].
  exists r1, h1, r2, h2.
  split; [exact Hrun1 |]. split; [now apply Nat.eqb_eq |].
  split; [exact (match_score_in_range _ _ _ _ _ _ _ Hrun1) |].
  split; [exact Hrun2 |]. split; [now apply Nat.eqb_eq |].
  exact (match_score_in_range _ _ _ _ _ _ _ Hrun2).
Defined.

(** ** The fallback path *)

Lemma steps_1_to_3_events (self : Service) (user_prompt : string)
    (user_id : Z) (h h1 : list event) (pq ctx eq : dict) :
  steps_1_to_3 self user_prompt user_id h = (Ok (pq, ctx, eq), h1) ->
  exists pq0, h1 = h ++ [EvParse user_prompt; EvUserContext user_id;
                         EvEnrich pq0 ctx].
Proof.
  unfold steps_1_to_3, _get_user_context. intros H.
  apply IO_bind_Ok in H as (pq0 & h2 & Hparse & H).
  apply call_raising_Ok in Hparse as [_ ->].
  apply IO_bind_Ok in H as (ctx0 & h3 & Hctx & H).
  apply IO_bind_Ok in Hctx as (resp & h4 & Hcall & Hctx).
  unfold call in Hcall. injection Hcall as _ <-.
  apply IO_ret_Ok in Hctx as [<- ->].
  apply IO_bind_Ok in H as ([eq0 same] & h5 & Henrich & H).
  apply call_raising_Ok in Henrich as [_ ->].
  apply IO_bind_Ok in H as (b1 & h6 & H1 & H).
  apply lift_Ok in H1 as [_ ->].
  apply IO_bind_Ok in H as (b2 & h7 & H2 & H).
  apply lift_Ok in H2 as [_ ->].
  apply IO_ret_Ok in H as [H ->]. injection H as _ <- _.
  exists pq0. rewrite <- !app_assoc. reflexivity.
Qed.

Lemma fallback_Ok_inv (self : Service) (user_id : Z) (user_prompt : string)
    (pq : dict) (top_n : Z) (h h' : list event) (data : Recommendations) :
  _fallback_svd_recommendation self user_id user_prompt pq top_n h
    = (Ok data, h') ->
  svd_loaded self = true /\
  exists svd meetings scored,
    svd_recommend self h user_id (top_n * 2) = Ok svd /\
    fallback_loop svd meetings = Ok scored /\
    data = {| user_prompt := user_prompt;
              parsed_query := pq;
              total_candidates := length scored;
              recommendations := py_slice_to top_n scored;
              fallback_key := Some true;
              search_trace := None |} /\
    h' = h ++ [EvSvdRecommend user_id (top_n * 2); EvBatch (map fst svd)].
Proof.
  unfold _fallback_svd_recommendation, _get_meetings_by_ids. intros H.
  destruct (svd_loaded self); cbn [negb] in H;
    [| apply lift_Ok in H as [H _]; discriminate H].
  split; [reflexivity |].
  apply IO_bind_Ok in H as (svd & h1 & Hsvd & H).
  apply call_raising_Ok in Hsvd as [Hsvd ->].
  apply IO_bind_Ok in H as (meetings & h2 & Hbatch & H).
  apply IO_bind_Ok in Hbatch as (resp & h3 & Hcall & Hbatch).
  unfold call in Hcall. injection Hcall as _ <-.
  assert (h2 = (h ++ [EvSvdRecommend user_id (top_n * 2)]) ++
               [EvBatch (map fst svd)]) as ->.
  { destruct resp as [status ms|].
    - destruct (status =? 200); now apply IO_ret_Ok in Hbatch as [_ ->].
    - now apply IO_ret_Ok in Hbatch as [_ ->]. }
  destruct meetings as [meetings|];
    [| apply lift_Ok in H as [H _]; discriminate H].
  apply IO_bind_Ok in H as (scored & h4 & Hloop & H).
  apply lift_Ok in Hloop as [Hloop ->].
  apply IO_ret_Ok in H as [<- ->].
  exists svd, meetings, scored. rewrite <- app_assoc. auto.
Qed.

(** C4: when a returned response shows five trace steps that all found
    nothing, its trace says [fallback == true] and [final_level == 4]; the
    response is the fallback's (its own ["fallback"] key is true), which
    the collaborative model must have been loaded to produce. *)
Theorem fallback_activation (self : Service) (user_prompt : string)
    (user_id top_n : Z) (h h' : list event) (r : Recommendations)
    (t : SearchTrace) :
  get_ai_recommendations self user_prompt user_id top_n h = (Ok r, h') ->
  search_trace r = Some t ->
  length (steps t) = 5%nat ->
  Forall (fun s => count s = 0%nat) (steps t) ->
  fallback t = true /\ final_level t = 4 /\
  fallback_key r = Some true /\ svd_loaded self = true.
Proof.
  rewrite get_ai_recommendations_staged. intros H Ht Hlen Hzero.
  apply IO_bind_Ok in H as ([[pq ctx] eq] & h1 & _ & H).
  unfold steps_4_to_7 in H.
  apply IO_bind_Ok in H as ([cands trace] & h2 & Hladder & H).
  apply ladder_Ok_inv in Hladder
    as (n & p & Hn & _ & Htrace & Hcands & _ & _ & _).
  destruct (nonempty cands) eqn:Hfound; cbn [negb] in H.
  - (* scored path: the last step counts at least one candidate *)
    exfalso.
    apply IO_bind_Ok in H as (scored & h3 & _ & H).
    apply IO_bind_Ok in H as (adjusted & h4 & _ & H).
    apply IO_bind_Ok in H as (top & h5 & _ & H).
    apply IO_ret_Ok in H as [<- _]. cbn [search_trace] in Ht.
    injection Ht as <-. cbn [steps trace_of] in Hlen, Hzero.
    subst trace cands.
    rewrite Forall_fmap, Forall_forall in Hzero.
    specialize (Hzero n). cbn [compose count ladder_step] in Hzero.
    assert (Hz : length (ladder_found self eq ctx h1 n) = 0%nat).
    { apply Hzero, list_elem_of_In, in_seq. lia. }
    destruct (ladder_found self eq ctx h1 n); discriminate.
  - apply IO_bind_Ok in H as (data & h3 & Hdata & H).
    apply IO_bind_Ok in H as (recs & h4 & _ & H).
    apply IO_ret_Ok in H as [<- _].
    apply fallback_Ok_inv in Hdata
      as (Hloaded & svd & meetings & scored & _ & _ & -> & _).
    cbn [search_trace with_search_trace] in Ht. injection Ht as <-.
    cbn [steps trace_of fallback final_level fallback_key with_search_trace]
      in *.
    subst trace. rewrite length_fmap, length_seq in Hlen.
    assert (n = 4%nat) as -> by lia.
    repeat split; auto.
Qed.

Lemma fallback_activation_witness :
  exists r h' t,
    get_ai_recommendations fallback_service "아무거나" 7 2 [] = (Ok r, h') /\
    search_trace r = Some t /\
    length (steps t) = 5%nat /\
    fallback t = true /\ final_level t = 4 /\
    fallback_key r = Some true /\ svd_loaded fallback_service = true.
Proof.
  destruct (run_check
    (get_ai_recommendations fallback_service "아무거나" 7 2 [])
    (fun r => match search_trace r with
              | Some t => (length (steps t) =? 5)%nat &&
                          forallb (fun s => (count s =? 0)%nat) (steps t)
              | None => false
              end))
    as (r & h' & Hrun & Htest); [vm_compute; reflexivity |].
  destruct (search_trace r) as [t|] eqn:Ht; [| discriminate Htest].
  apply andb_prop in Htest as [Hlen Hzero].
  apply Nat.eqb_eq in Hlen.
  assert (Hall : Forall (fun s => count s = 0%nat) (steps t)).
  { apply Forall_forall. intros s Hs.
    apply Nat.eqb_eq. rewrite forallb_forall in Hzero.
    now apply Hzero, list_elem_of_In. }
  exists r, h', t.
  split; [exact Hrun |]. split; [exact Ht |]. split; [exact Hlen |].
  exact (fallback_activation _ _ _ _ _ _ _ _ Hrun Ht Hlen Hall).
Defined.

(** Once the fallback recommender has returned, so does the pipeline: the
    correction of its recommendations cannot raise. *)
Lemma fallback_loop_int_scores (svd : list (Z * pyfloat))
    (meetings scored : list dict) :
  fallback_loop svd meetings = Ok scored ->
  Forall2 (fun meeting item =>
             exists t, py_int (fmul (first_score svd meeting) (of_int 20))
                         = Ok t /\
                       item !! "match_score" = Some (VInt (Z.min 100 t)))
          meetings scored.
Proof.
  revert scored. induction meetings as [|meeting meetings IH]; intros scored H.
  - injection H as <-. constructor.
  - cbn [fallback_loop] in H.
    apply result_bind_Ok in H as (t & Ht & H).
    apply result_bind_Ok in H as (rest & Hrest & H).
    injection H as <-. constructor; [| now apply IH].
    exists t. split; [exact Ht |].
    unfold py_update. cbn [foldl fst snd].
    rewrite !lookup_insert_ne by discriminate. apply lookup_insert_eq.
Qed.

Lemma adjust_fallback_total (intent : string) (recs : list dict) :
  Forall (fun rec => exists z, rec !! "match_score" = Some (VInt z)) recs ->
  exists out, adjust_fallback intent recs = Ok out.
Proof.
  induction 1 as [|rec recs [z Hz] _ [rest IH]]; [now exists [] |].
  cbn [adjust_fallback]. unfold get_default. rewrite Hz.
  change (default (VInt 0) (Some (VInt z))) with (VInt z).
  destruct (adjusted_score_total (VInt z)
              (_apply_intent_adjustment intent rec)) as [score Hscore];
    [now eexists |].
  rewrite Hscore. cbn [mbind result_bind]. rewrite IH. cbn [mbind result_bind].
  eauto.
Qed.

Lemma fallback_path_returns (self : Service) (user_prompt : string)
    (user_id top_n : Z) (h h1 h2 h3 : list event) (pq ctx eq : dict)
    (trace : list TraceStep) (data : Recommendations) :
  steps_1_to_3 self user_prompt user_id h = (Ok (pq, ctx, eq), h1) ->
  _search_with_relaxation self eq ctx [] h1 = (Ok ([], trace), h2) ->
  _fallback_svd_recommendation self user_id user_prompt pq top_n h2
    = (Ok data, h3) ->
  exists recs,
    get_ai_recommendations self user_prompt user_id top_n h =
    (Ok (with_search_trace data recs (trace_of trace true)), h3).
Proof.
  intros Hsteps Hladder Hdata.
  rewrite get_ai_recommendations_staged.
  rewrite (IO_bind_run _ _ _ _ _ Hsteps). unfold steps_4_to_7.
  rewrite (IO_bind_run _ _ _ _ _ Hladder). cbn [nonempty negb].
  rewrite (IO_bind_run _ _ _ _ _ Hdata).
  pose proof Hdata as Hinv.
  apply fallback_Ok_inv in Hinv
    as (_ & svd & meetings & scored & _ & Hloop & -> & _).
  cbn [recommendations].
  destruct (adjust_fallback_total (_detect_intent user_prompt pq)
              (py_slice_to top_n scored)) as [recs Hrecs].
  { apply py_slice_to_Forall. apply fallback_loop_int_scores in Hloop.
    clear -Hloop. induction Hloop as [|m item ms items (t & _ & Hs) _ IH];
      constructor; eauto. }
  exists recs. unfold mbind at 1, IO_bind at 1, lift. rewrite Hrecs.
  reflexivity.
Qed.

(** ** The score of the fallback *)








(** ** The scorer *)

(** The first loop never raises: a candidate the feature builder rejects
    is left out, the others are appended in order. *)
Lemma build_loop_run (self : Service) (user : dict) (cands : list dict)
    (rows : list row) (feats : list features) (valid : list dict)
    (h : list event) :
  exists rs fs ms,
    build_loop self user cands (rows, feats, valid) h =
      (Ok (rows ++ rs, feats ++ fs, valid ++ ms),
       h ++ ((fun raw => EvFeatureBuild user (_normalize_meeting self raw))
               <$> cands)) /\
    length rs = length (List.filter id (build_outcomes self user cands h)) /\
    length fs = length rs /\ length ms = length rs.
Proof.
  revert rows feats valid h.
  induction cands as [|raw cands IH]; intros rows feats valid h.
  - exists [], [], []. cbn [build_loop build_outcomes fmap list_fmap].
    rewrite !app_nil_r. auto.
  - cbn [build_loop build_outcomes].
    unfold mbind at 1, IO_bind at 1, try_except.
    unfold mbind at 1, IO_bind at 1, call_raising.
    destruct (feature_builder_build self h user (_normalize_meeting self raw))
      as [[feat x0]|e].
    + cbn [List.filter is_ok id].
      destruct (IH (rows ++ [x0]) (feats ++ [feat])
                   (valid ++ [_normalize_meeting self raw])
                   (h ++ [EvFeatureBuild user (_normalize_meeting self raw)]))
        as (rs & fs & ms & Hrun & Hrs & Hfs & Hms).
      exists (x0 :: rs), (feat :: fs), (_normalize_meeting self raw :: ms).
      unfold mret, IO_ret. rewrite Hrun, <- !app_assoc.
      cbn [length fmap list_fmap app]. repeat split; congruence.
    + cbn [List.filter is_ok id].
      destruct (IH rows feats valid
                   (h ++ [EvFeatureBuild user (_normalize_meeting self raw)]))
        as (rs & fs & ms & Hrun & Hrs & Hfs & Hms).
      exists rs, fs, ms.
      unfold mret, IO_ret. rewrite Hrun, <- !app_assoc.
      cbn [fmap list_fmap app]. repeat split; congruence.
Qed.




Lemma filter_bool_split (l : list bool) :
  (length (List.filter id l) + length (List.filter negb l) = length l)%nat.
Proof.
  induction l as [|[] l IH]; cbn [List.filter id negb length]; lia.
Qed.

Lemma build_outcomes_length (self : Service) (user : dict)
    (cands : list dict) (h : list event) :
  length (build_outcomes self user cands h) = length cands.
Proof.
  revert h. induction cands as [|raw cands IH]; intros h; [reflexivity |].
  cbn [build_outcomes length]. now rewrite IH.
Qed.


Lemma from_ok_eq {A} (dflt : A) (r : result A) :
  is_ok r = true -> r = Ok (from_ok dflt r).
Proof. destruct r; [reflexivity | discriminate]. Qed.


(** ** Determinism *)

Lemma same_collaborators_eq (s1 s2 : Service) :
  same_collaborators s1 s2 ->
  s2 = with_generate_reasoning (generate_reasoning s2) s1.
Proof.
  destruct s1, s2. unfold same_collaborators, with_generate_reasoning.
  cbn. intros (-> & -> & -> & -> & -> & -> & -> & -> & -> & -> & -> & -> &
               -> & -> & ->). reflexivity.
Qed.

Section OtherRationale.
Variable g : list event -> dict -> dict -> dict -> result string.
Variable self : Service.
Abbreviation self' := (with_generate_reasoning g self).

Lemma steps_1_to_3_other (user_prompt : string) (user_id : Z) :
  steps_1_to_3 self' user_prompt user_id =
  steps_1_to_3 self user_prompt user_id.
Proof. reflexivity. Qed.

Lemma ladder_other (q ctx : dict) (t : list TraceStep) :
  _search_with_relaxation self' q ctx t =
  _search_with_relaxation self q ctx t.
Proof. reflexivity. Qed.

Lemma fallback_other (user_id : Z) (user_prompt : string) (pq : dict)
    (top_n : Z) :
  _fallback_svd_recommendation self' user_id user_prompt pq top_n =
  _fallback_svd_recommendation self user_id user_prompt pq top_n.
Proof. reflexivity. Qed.

Lemma build_loop_other (user : dict) (cands : list dict)
    (acc : list row * list features * list dict) (h : list event) :
  build_loop self' user cands acc h = build_loop self user cands acc h.
Proof.
  revert acc h. induction cands as [|raw cands IH]; intros acc h;
    [reflexivity |].
  cbn [build_loop]. unfold mbind at 1 3, IO_bind at 1 3.
  change (try_except _ _ h) with
    (try_except
       (let m := _normalize_meeting self raw in
        '(feat, x0) ← call_raising (EvFeatureBuild user m)
                         (fun h => feature_builder_build self h user m);
        let '(rows, feats, valid_candidates) := acc in
        mret (rows ++ [x0], feats ++ [feat], valid_candidates ++ [m]))
       (fun _ => mret acc) h).
  destruct (try_except _ _ h) as [[acc'|e] h1]; [apply IH | reflexivity].
Qed.

Lemma score_loop_other (ms : list dict) (fs : list features)
    (preds : list pyfloat) :
  score_loop self' ms fs preds = score_loop self ms fs preds.
Proof.
  revert fs preds. induction ms as [|m ms IH]; intros fs preds;
    [reflexivity |].
  destruct fs as [|feat fs], preds as [|p preds]; try reflexivity.
  cbn [score_loop]. rewrite IH. reflexivity.
Qed.

Lemma score_meetings_other (user_id : Z) (ctx : dict) (cands : list dict)
    (pq : dict) (intent : string) (h : list event) :
  _score_meetings self' user_id ctx cands pq intent h =
  _score_meetings self user_id ctx cands pq intent h.
Proof.
  unfold _score_meetings.
  change (regressor_loaded self') with (regressor_loaded self).
  change (feature_builder_loaded self') with (feature_builder_loaded self).
  destruct (regressor_loaded self); [| reflexivity].
  destruct (feature_builder_loaded self); [| reflexivity].
  cbn [negb]. unfold mbind at 1 4, IO_bind at 1 4.
  change (scorer_user self' ctx) with (scorer_user self ctx).
  destruct (lift (scorer_user self ctx) h) as [[user|e] h1]; [| reflexivity].
  unfold mbind at 1 3, IO_bind at 1 3. rewrite build_loop_other.
  destruct (build_loop self user cands ([], [], []) h1)
    as [[[[rows feats] valid]|e] h2]; [| reflexivity].
  destruct (nonempty rows); [| reflexivity]. cbn [negb].
  unfold mbind, IO_bind.
  change (regressor_predict self') with (regressor_predict self).
  destruct (call_raising _ _ h2) as [[preds|e] h3]; [| reflexivity].
  unfold lift. now rewrite score_loop_other.
Qed.
End OtherRationale.

Lemma ranked_after_reasoning (top out : list dict) :
  Forall2 (fun rec rec' =>
             exists text, rec' = <["reasoning" := VStr text]> rec) top out ->
  delete "reasoning" <$> out = delete "reasoning" <$> top.
Proof.
  induction 1 as [|rec rec' top out [text ->] _ IH]; [reflexivity |].
  rewrite !fmap_cons, IH, delete_insert_eq. reflexivity.
Qed.

(** C9: two runs on the same prompt, user and top_n, started after the same
    calls, with collaborators that answer alike at every call (only the
    rationale texts may differ), return the same ranked candidates with the
    same scores in the same order, the same trace, the same parsed query
    and candidate count, and have made the same calls. *)
Theorem same_inputs_same_ranking (s1 s2 : Service) (user_prompt : string)
    (user_id top_n : Z) (h h1 h2 : list event) (r1 r2 : Recommendations) :
  same_collaborators s1 s2 ->
  get_ai_recommendations s1 user_prompt user_id top_n h = (Ok r1, h1) ->
  get_ai_recommendations s2 user_prompt user_id top_n h = (Ok r2, h2) ->
  ranked r1 = ranked r2 /\
  search_trace r1 = search_trace r2 /\
  parsed_query r1 = parsed_query r2 /\
  total_candidates r1 = total_candidates r2 /\
  h1 = h2.
Proof.
  intros Hsame H1 H2. rewrite (same_collaborators_eq _ _ Hsame) in H2.
  set (g := generate_reasoning s2) in H2. clearbody g. clear Hsame.
  rewrite get_ai_recommendations_staged in H1, H2.
  rewrite steps_1_to_3_other in H2.
  apply IO_bind_Ok in H1 as ([[pq ctx] eq] & h3 & Hsteps & H1).
  rewrite (IO_bind_run _ _ _ _ _ Hsteps) in H2.
  unfold steps_4_to_7 in H1, H2. rewrite ladder_other in H2.
  apply IO_bind_Ok in H1 as ([cands trace] & h4 & Hladder & H1).
  rewrite (IO_bind_run _ _ _ _ _ Hladder) in H2.
  destruct (nonempty cands); cbn [negb] in H1, H2.
  - apply IO_bind_Ok in H1 as (scored & h5 & Hscored & H1).
    apply IO_bind_Ok in H2 as (scored' & h5' & Hscored' & H2).
    rewrite score_meetings_other, Hscored in Hscored'.
    injection Hscored' as <- <-.
    apply IO_bind_Ok in H1 as (adjusted & h6 & Hadj & H1).
    rewrite (IO_bind_run _ _ _ _ _ Hadj) in H2.
    apply IO_bind_Ok in H1 as (out1 & h7 & Hout1 & H1).
    apply IO_bind_Ok in H2 as (out2 & h7' & Hout2 & H2).
    apply IO_ret_Ok in H1 as [<- ->]. apply IO_ret_Ok in H2 as [<- ->].
    apply reasoning_loop_Ok in Hout1 as [Hall1 ->].
    apply reasoning_loop_Ok in Hout2 as [Hall2 ->].
    unfold ranked. cbn [recommendations search_trace parsed_query
                        total_candidates].
    rewrite (ranked_after_reasoning _ _ Hall1),
            (ranked_after_reasoning _ _ Hall2). auto.
  - rewrite fallback_other in H2.
    apply IO_bind_Ok in H1 as (data & h5 & Hdata & H1).
    rewrite (IO_bind_run _ _ _ _ _ Hdata) in H2.
    rewrite H1 in H2. injection H2 as <- <-. auto.
Qed.

Lemma same_inputs_same_ranking_witness :
  exists r1 h1 r2 h2,
    get_ai_recommendations scored_service
      "조용히 카페에서 쉬고 싶어요" 7 5 [] = (Ok r1, h1) /\
    get_ai_recommendations
      (with_generate_reasoning (fun _ _ _ _ => Ok "other") scored_service)
      "조용히 카페에서 쉬고 싶어요" 7 5 [] = (Ok r2, h2) /\
    ranked r1 = ranked r2 /\
    search_trace r1 = search_trace r2 /\
    parsed_query r1 = parsed_query r2 /\
    total_candidates r1 = total_candidates r2 /\
    h1 = h2.
Proof.
  destruct (run_check
    (get_ai_recommendations scored_service
       "조용히 카페에서 쉬고 싶어요" 7 5 []) (fun _ => true))
    as (r1 & h1 & Hrun1 & _); [vm_compute; reflexivity |].
  destruct (run_check
    (get_ai_recommendations
       (with_generate_reasoning (fun _ _ _ _ => Ok "other") scored_service)
       "조용히 카페에서 쉬고 싶어요" 7 5 []) (fun _ => true))
    as (r2 & h2 & Hrun2 & _); [vm_compute; reflexivity |].
  exists r1, h1, r2, h2.
  split; [exact Hrun1 |]. split; [exact Hrun2 |].
  apply (same_inputs_same_ranking scored_service
           (with_generate_reasoning (fun _ _ _ _ => Ok "other")
                                    scored_service)
           "조용히 카페에서 쉬고 싶어요" 7 5 [] h1 h2 r1 r2);
    [| exact Hrun1 | exact Hrun2].
  unfold same_collaborators. repeat split.
Defined.

(** ** Candidates that cannot be scored *)

Lemma build_loop_all_rejected (self : Service) (user : dict)
    (cands : list dict) (h : list event) :
  forallb negb (build_outcomes self user cands h) = true ->
  build_loop self user cands ([], [], []) h =
    (Ok ([], [], []),
     h ++ ((fun raw => EvFeatureBuild user (_normalize_meeting self raw))
             <$> cands)).
Proof.
  intros Hall.
  destruct (build_loop_run self user cands [] [] [] h)
    as (rs & fs & ms & Hrun & Hrs & Hfs & Hms).
  assert (Hnone : List.filter id (build_outcomes self user cands h) = []).
  { clear -Hall. induction (build_outcomes self user cands h) as [|[] l IH];
      [reflexivity | discriminate | apply IH, Hall]. }
  rewrite Hnone in Hrs.
  destruct rs; [| discriminate]. destruct fs; [| discriminate].
  destruct ms; [| discriminate]. exact Hrun.
Qed.

(** C10: when the relaxation search has returned at least one candidate
    and the feature builder rejects every one of them (the scorer's models
    being ready and the user context convertible), the pipeline returns a
    response with no recommendation whose trace says [fallback == false];
    none of the calls it has made belongs to the fallback recommender. *)
Theorem unscorable_candidates_no_fallback (self : Service)
    (user_prompt : string) (user_id top_n : Z) (h h1 h2 : list event)
    (pq ctx eq user : dict) (cands : list dict) (trace : list TraceStep) :
  steps_1_to_3 self user_prompt user_id h = (Ok (pq, ctx, eq), h1) ->
  _search_with_relaxation self eq ctx [] h1 = (Ok (cands, trace), h2) ->
  cands <> [] ->
  regressor_loaded self = true ->
  feature_builder_loaded self = true ->
  scorer_user self ctx = Ok user ->
  forallb negb (build_outcomes self user cands h2) = true ->
  exists r h' calls,
    get_ai_recommendations self user_prompt user_id top_n h = (Ok r, h') /\
    recommendations r = [] /\
    search_trace r = Some (trace_of trace false) /\
    fallback (trace_of trace false) = false /\
    fallback_key r = None /\
    total_candidates r = length cands /\
    h' = h ++ calls /\
    Forall (fun ev => is_fallback_call ev = false) calls.
Proof.
  intros Hsteps Hladder Hcands Hreg Hfb Huser Hall.
  destruct (steps_1_to_3_events _ _ _ _ _ _ _ _ Hsteps) as [pq0 Hh1].
  destruct (ladder_Ok_inv _ _ _ _ _ _ _ Hladder)
    as (n & p & _ & _ & _ & _ & Hh2 & _ & _).
  rewrite ladder_history_events in Hh2.
  eexists _, _,
    ([EvParse user_prompt; EvUserContext user_id; EvEnrich pq0 ctx] ++
     ((fun i => EvSearch (ladder_payload self eq ctx i)) <$> seq 0 (S n)) ++
     ((fun raw => EvFeatureBuild user (_normalize_meeting self raw))
        <$> cands)).
  rewrite get_ai_recommendations_staged.
  rewrite (IO_bind_run _ _ _ _ _ Hsteps). unfold steps_4_to_7.
  rewrite (IO_bind_run _ _ _ _ _ Hladder).
  assert (nonempty cands = true) as -> by now destruct cands.
  cbn [negb].
  assert (Hscore :
    _score_meetings self user_id ctx cands pq
      (_detect_intent user_prompt pq) h2 =
    (Ok [], h2 ++ ((fun raw =>
                      EvFeatureBuild user (_normalize_meeting self raw))
                     <$> cands))).
  { unfold _score_meetings. rewrite Hreg, Hfb. cbn [negb].
    unfold mbind at 1, IO_bind at 1, lift. rewrite Huser.
    rewrite (IO_bind_run _ _ _ _ _
               (build_loop_all_rejected _ _ _ _ Hall)).
    reflexivity. }
  rewrite (IO_bind_run _ _ _ _ _ Hscore).
  unfold mbind at 1, IO_bind at 1, lift. cbn [adjust_scored mret result_ret].
  assert (Htop : py_slice_to top_n
                   (sorted_desc match_score_of ([] : list dict)) = []).
  { unfold py_slice_to. cbn [sorted_desc foldr].
    destruct (0 <=? top_n); apply take_nil. }
  rewrite Htop. cbn [reasoning_loop].
  unfold mbind, IO_bind, mret, IO_ret.
  split; [reflexivity |]. cbn [recommendations search_trace fallback_key
                               total_candidates trace_of fallback].
  repeat (split; [reflexivity |]).
  split.
  - rewrite Hh2, Hh1, <- !app_assoc. reflexivity.
  - repeat apply Forall_app_2.
    + repeat constructor.
    + apply Forall_fmap, Forall_true. reflexivity.
    + apply Forall_fmap, Forall_true. reflexivity.
Qed.

Lemma unscorable_candidates_no_fallback_witness :
  exists r h' calls,
    get_ai_recommendations rejecting_service "등산 가고 싶어요" 7 5 []
      = (Ok r, h') /\
    recommendations r = [] /\
    (exists t, search_trace r = Some t /\ fallback t = false) /\
    fallback_key r = None /\
    total_candidates r = 3%nat /\
    h' = [] ++ calls /\
    Forall (fun ev => is_fallback_call ev = false) calls.
Proof.
  assert (Hc :
    match steps_1_to_3 rejecting_service "등산 가고 싶어요" 7 [] with
    | (Ok (pq, ctx, eq), h1) =>
        match _search_with_relaxation rejecting_service eq ctx [] h1 with
        | (Ok (cands, trace), h2) =>
            (length cands =? 3)%nat &&
            is_ok (scorer_user rejecting_service ctx) &&
            forallb negb
              (build_outcomes rejecting_service
                 (from_ok ∅ (scorer_user rejecting_service ctx)) cands h2)
        | _ => false
        end
    | _ => false
    end = true) by (vm_compute; reflexivity).
  destruct (steps_1_to_3 rejecting_service "등산 가고 싶어요" 7 [])
    as [[[[pq ctx] eq]|e] h1] eqn:Hsteps; [| discriminate Hc].
  destruct (_search_with_relaxation rejecting_service eq ctx [] h1)
    as [[[cands trace]|e] h2] eqn:Hladder; [| discriminate Hc].
  apply andb_prop in Hc as [Hc Hall]. apply andb_prop in Hc as [Hlen Huser].
  apply Nat.eqb_eq in Hlen.
  destruct (unscorable_candidates_no_fallback rejecting_service
              "등산 가고 싶어요" 7 5 [] h1 h2 pq ctx eq
              (from_ok ∅ (scorer_user rejecting_service ctx)) cands trace
              Hsteps Hladder)
    as (r & h' & calls & Hrun & Hrecs & Htrace & Hfalse & Hkey & Htotal &
        Hcalls & Hnone).
  - intros ->. discriminate Hlen.
  - reflexivity.
  - reflexivity.
  - now apply from_ok_eq.
  - exact Hall.
  - exists r, h', calls. repeat split; eauto. congruence.
Defined.

(** * Further properties of the service *)

(** ** Strings *)

Lemma lower_upper_ascii (a : ascii) :
  lower_ascii (upper_ascii a) = lower_ascii a /\
  upper_ascii (lower_ascii a) = upper_ascii a /\
  upper_ascii (upper_ascii a) = upper_ascii a /\
  is_space (upper_ascii a) = is_space a /\
  is_space (lower_ascii a) = is_space a.
Proof. destruct a as [[] [] [] [] [] [] [] []]; vm_compute; auto. Qed.

Lemma str_map_compose (f g : ascii -> ascii) (s : string) :
  str_map f (str_map g s) = str_map (fun a => f (g a)) s.
Proof. induction s as [|a s IH]; [reflexivity |]. cbn. now rewrite IH. Qed.

Lemma str_map_ext (f g : ascii -> ascii) (s : string) :
  (forall a, f a = g a) -> str_map f s = str_map g s.
Proof.
  intros H. induction s as [|a s IH]; [reflexivity |]. cbn. now rewrite H, IH.
Qed.

Lemma lower_upper (s : string) : lower (upper s) = lower s.
Proof.
  unfold lower, upper. rewrite str_map_compose. apply str_map_ext.
  intros a. apply lower_upper_ascii.
Qed.

Lemma upper_lower (s : string) : upper (lower s) = upper s.
Proof.
  unfold lower, upper. rewrite str_map_compose. apply str_map_ext.
  intros a. apply lower_upper_ascii.
Qed.

Lemma upper_upper (s : string) : upper (upper s) = upper s.
Proof.
  unfold upper. rewrite str_map_compose. apply str_map_ext.
  intros a. apply lower_upper_ascii.
Qed.

Lemma str_map_empty (f : ascii -> ascii) (s : string) :
  str_map f s = "" <-> s = "".
Proof. destruct s; cbn; split; congruence. Qed.

Lemma append_cons (a : ascii) (s1 s2 : string) :
  String a s1 +:+ s2 = String a (s1 +:+ s2).
Proof. reflexivity. Qed.

Lemma append_assoc (s1 s2 s3 : string) :
  (s1 +:+ s2) +:+ s3 = s1 +:+ (s2 +:+ s3).
Proof.
  induction s1 as [|a s1 IH]; [reflexivity |].
  now rewrite !append_cons, IH.
Qed.

Lemma rev_app_append (s1 s2 : string) :
  String.rev_app s1 s2 = String.rev s1 +:+ s2.
Proof.
  unfold String.rev. revert s2.
  induction s1 as [|a s1 IH]; intros s2; [reflexivity |].
  cbn [String.rev_app]. rewrite IH, (IH (String a "")).
  now rewrite append_assoc.
Qed.

Lemma rev_cons (a : ascii) (s : string) :
  String.rev (String a s) = String.rev s +:+ String a "".
Proof. unfold String.rev at 1. cbn [String.rev_app]. apply rev_app_append. Qed.




Lemma str_map_append (f : ascii -> ascii) (s1 s2 : string) :
  str_map f (s1 +:+ s2) = str_map f s1 +:+ str_map f s2.
Proof.
  induction s1 as [|a s1 IH]; [reflexivity |].
  rewrite append_cons. cbn [str_map]. now rewrite append_cons, IH.
Qed.

Lemma str_map_rev (f : ascii -> ascii) (s : string) :
  str_map f (String.rev s) = String.rev (str_map f s).
Proof.
  induction s as [|a s IH]; [reflexivity |].
  cbn [str_map]. rewrite !rev_cons, str_map_append, IH. reflexivity.
Qed.

Lemma lstrip_str_map (f : ascii -> ascii) (s : string) :
  (forall a, is_space (f a) = is_space a) ->
  lstrip (str_map f s) = str_map f (lstrip s).
Proof.
  intros H. induction s as [|a s IH]; [reflexivity |].
  cbn [str_map lstrip]. rewrite H. destruct (is_space a); [exact IH | reflexivity].
Qed.

Lemma strip_str_map (f : ascii -> ascii) (s : string) :
  (forall a, is_space (f a) = is_space a) ->
  strip (str_map f s) = str_map f (strip s).
Proof.
  intros H. unfold strip.
  now rewrite lstrip_str_map, <- str_map_rev, lstrip_str_map, str_map_rev.
Qed.

Lemma strip_upper (s : string) : strip (upper s) = upper (strip s).
Proof. apply strip_str_map. intros a. apply lower_upper_ascii. Qed.

Lemma strip_lower (s : string) : strip (lower s) = lower (strip s).
Proof. apply strip_str_map. intros a. apply lower_upper_ascii. Qed.






(** ** The normalizers beyond their tables *)

Ltac table_cases H :=
  apply elem_of_list_to_map_2 in H;
  repeat (apply elem_of_cons in H as [H|H]; [injection H as -> -> |]);
  [.. | now apply elem_of_nil in H].

Lemma truthy_str (s : string) : truthy (VStr s) = negb (String.eqb s "").
Proof. reflexivity. Qed.

Lemma truthy_str_map (f : ascii -> ascii) (s : string) :
  truthy (VStr (str_map f s)) = truthy (VStr s).
Proof. destruct s; reflexivity. Qed.

Lemma truthy_upper (s : string) : truthy (VStr (upper s)) = truthy (VStr s).
Proof. apply truthy_str_map. Qed.

Lemma truthy_lower (s : string) : truthy (VStr (lower s)) = truthy (VStr s).
Proof. apply truthy_str_map. Qed.

Lemma lower_lower (s : string) : lower (lower s) = lower s.
Proof.
  unfold lower. rewrite str_map_compose. apply str_map_ext.
  intros a. destruct a as [[] [] [] [] [] [] [] []]; reflexivity.
Qed.



(** X1: the normalizers of time of day and of location type do not depend on
    the case of ASCII letters. *)
Theorem normalizers_ignore_case (self : Service) (s : string) :
  _normalize_timeslot self (VStr (upper s)) =
    _normalize_timeslot self (VStr s) /\
  _normalize_timeslot self (VStr (lower s)) =
    _normalize_timeslot self (VStr s) /\
  _normalize_location_type self (VStr (upper s)) =
    _normalize_location_type self (VStr s) /\
  _normalize_location_type self (VStr (lower s)) =
    _normalize_location_type self (VStr s).
Proof.
  unfold _normalize_timeslot, _normalize_location_type, py_str.
  rewrite !truthy_upper, !truthy_lower.
  rewrite !strip_upper, !strip_lower, !lower_upper, !upper_upper,
          !upper_lower, !lower_lower.
  auto.
Qed.



Lemma budget_values (k v : string) :
  budget_mapping !! k = Some v ->
  (v = "value" \/ v = "quality") /\
  (lower k = "quality" -> v = "quality") /\
  (lower k = "value" -> v = "value").
Proof.
  intros H. unfold budget_mapping in H.
  table_cases H; (split; [auto |]); split; intros Hl;
    first [reflexivity | vm_compute in Hl; discriminate Hl].
Qed.

(** X3: the budget tier handed to the model is always "value" or "quality";
    "quality" and "value" are recognised in any mix of upper and lower
    case and with surrounding whitespace. *)
Theorem budget_for_model_range (self : Service) (bt : pyval) :
  (_normalize_budget_for_model self bt = "value" \/
   _normalize_budget_for_model self bt = "quality") /\
  (forall s, bt = VStr s -> lower (strip s) = "quality" ->
             _normalize_budget_for_model self bt = "quality") /\
  (forall s, bt = VStr s -> lower (strip s) = "value" ->
             _normalize_budget_for_model self bt = "value").
Proof.
  assert (Hgen : forall raw,
    let r := default (default (default "value" (budget_mapping !! lower raw))
                              (budget_mapping !! upper raw))
                     (budget_mapping !! raw) in
    (r = "value" \/ r = "quality") /\
    (lower raw = "quality" -> r = "quality") /\
    (lower raw = "value" -> r = "value")).
  { intros raw. cbv zeta.
    destruct (budget_mapping !! raw) as [v|] eqn:E1.
    { exact (budget_values _ _ E1). }
    destruct (budget_mapping !! upper raw) as [v|] eqn:E2.
    { pose proof (budget_values _ _ E2) as H. rewrite lower_upper in H.
      exact H. }
    destruct (budget_mapping !! lower raw) as [v|] eqn:E3.
    { pose proof (budget_values _ _ E3) as (H1 & H2 & H3).
      cbn [default from_option id]. split; [exact H1 |].
      split; intros Hl; rewrite Hl in E3; vm_compute in E3; congruence. }
    cbn [default from_option id]. split; [auto |]. split; intros Hl.
    - rewrite Hl in E3. vm_compute in E3. discriminate E3.
    - reflexivity. }
  unfold _normalize_budget_for_model. repeat split.
  - destruct (truthy bt); cbn [negb]; [apply Hgen | auto].
  - intros s -> Hl.
    assert (truthy (VStr s) = true) as ->.
    { rewrite truthy_str. destruct (String.eqb_spec s ""); [| reflexivity].
      subst s. vm_compute in Hl. discriminate Hl. }
    cbn [negb py_str]. now apply Hgen.
  - intros s -> Hl.
    destruct (truthy (VStr s)); cbn [negb py_str]; [now apply Hgen | reflexivity].
Qed.

Lemma budget_for_model_range_witness :
  _normalize_budget_for_model plain_service (VStr " Quality ") = "quality" /\
  _normalize_budget_for_model plain_service (VStr "VaLuE") = "value".
Proof.
  destruct (budget_for_model_range plain_service (VStr " Quality "))
    as (_ & Hq & _).
  destruct (budget_for_model_range plain_service (VStr "VaLuE"))
    as (_ & _ & Hv).
  split; [apply (Hq " Quality ") | apply (Hv "VaLuE")]; reflexivity.
Defined.

(** ** Intent and correction *)

Lemma Qred_inject_Z (z : Z) : Qred (inject_Z z) = inject_Z z.
Proof.
  unfold Qred, inject_Z.
  pose proof (Z.ggcd_gcd z 1) as Hg.
  pose proof (Z.ggcd_correct_divisors z 1) as Hd.
  destruct (Z.ggcd z 1) as [g [a b]]. cbn [fst snd] in *.
  rewrite Z.gcd_1_r in Hg. subst g. destruct Hd as [Ha Hb].
  assert (a = z) as -> by lia. assert (b = 1) as -> by lia. reflexivity.
Qed.

Lemma fadd_of_int (a b : Z) : fadd (of_int a) (of_int b) = of_int (a + b).
Proof.
  unfold fadd, of_int. f_equal.
  rewrite <- (Qred_inject_Z (a + b)). apply Qred_complete.
  rewrite inject_Z_plus. reflexivity.
Qed.

Lemma fcompare_of_int (a b : Z) :
  fcompare (of_int a) (of_int b) = Some (a ?= b).
Proof.
  unfold fcompare, of_int, Qcompare. cbn [Qnum Qden inject_Z].
  now rewrite !Z.mul_1_r.
Qed.

Lemma py_int_of_int (z : Z) : py_int (of_int z) = Ok z.
Proof. unfold py_int, of_int. cbn [Qnum Qden inject_Z]. now rewrite Z.quot_1_r. Qed.

(** On integers the correction is the clamp of the sum. *)
Lemma adjusted_score_int (b a : Z) :
  adjusted_score (VInt b) (of_int a) = Ok (Z.max 0 (Z.min 100 (b + a))).
Proof.
  unfold adjusted_score, num, as_num. cbn [mbind result_bind].
  rewrite fadd_of_int. unfold py_min, flt. rewrite fcompare_of_int.
  destruct (Z.compare_spec (b + a) 100) as [H|H|H].
  - unfold py_max, fgt. rewrite fcompare_of_int. cbn [Z.compare].
    rewrite py_int_of_int. f_equal. lia.
  - unfold py_max, fgt. rewrite fcompare_of_int.
    destruct (Z.compare_spec (b + a) 0) as [H0|H0|H0];
      rewrite py_int_of_int; f_equal; lia.
  - unfold py_max, fgt. rewrite fcompare_of_int. cbn [Z.compare].
    rewrite py_int_of_int. f_equal. lia.
Qed.

Lemma intent_adjustment_int (intent : string) (meeting : dict) :
  (exists a, _apply_intent_adjustment intent meeting = of_int a /\
             In a [-25; -10; 0; 15]) /\
  (intent <> "QUIET" -> intent <> "ACTIVE" ->
   _apply_intent_adjustment intent meeting = of_int 0).
Proof.
  unfold _apply_intent_adjustment. split.
  - destruct (String.eqb intent "QUIET"), (String.eqb intent "ACTIVE");
      repeat match goal with
             | |- context [if ?c then _ else _] => destruct c
             end;
      cbn [In]; eauto 10.
  - intros Hq Ha.
    destruct (String.eqb_spec intent "QUIET"); [contradiction |].
    destruct (String.eqb_spec intent "ACTIVE"); [contradiction |].
    reflexivity.
Qed.

(** X4: the correction is one of -25, -10, 0 and +15, and it is 0 for every
    meeting when the intent is neither QUIET nor ACTIVE; under QUIET a
    sports meeting is penalised whatever its subcategory. *)
Theorem intent_adjustment_values (intent : string) (meeting : dict) :
  (exists a, _apply_intent_adjustment intent meeting = of_int a /\
             In a [-25; -10; 0; 15]) /\
  (intent <> "QUIET" -> intent <> "ACTIVE" ->
   _apply_intent_adjustment intent meeting = of_int 0) /\
  (intent = "QUIET" -> get meeting "category" = VStr "스포츠" ->
   _apply_intent_adjustment intent meeting = of_int (-25)).
Proof.
  destruct (intent_adjustment_int intent meeting) as [Hvals Hzero].
  split; [exact Hvals |]. split; [exact Hzero |].
  intros -> Hcat. unfold _apply_intent_adjustment. now rewrite Hcat.
Qed.

Lemma intent_adjustment_values_witness :
  _apply_intent_adjustment "NEUTRAL" {["category" := VStr "스포츠"]}
    = of_int 0 /\
  _apply_intent_adjustment "QUIET"
    (<["subcategory" := VStr "독서"]> {["category" := VStr "스포츠"]})
    = of_int (-25).
Proof.
  split.
  - apply (intent_adjustment_values "NEUTRAL"); discriminate.
  - apply (intent_adjustment_values "QUIET"); reflexivity.
Defined.

Lemma adjust_scored_Forall2 (intent : string) (scored out : list dict) :
  adjust_scored intent scored = Ok out ->
  Forall2 (fun m o =>
             exists base score,
               m !! "match_score" = Some base /\
               adjusted_score base (_apply_intent_adjustment intent m)
                 = Ok score /\
               o = <["intent" := VStr intent]>
                     (<["match_score" := VInt score]> m)) scored out.
Proof.
  revert out. induction scored as [|m scored IH]; intros out H.
  - injection H as <-. constructor.
  - cbn [adjust_scored] in H.
    apply result_bind_Ok in H as (base & Hbase & H).
    apply result_bind_Ok in H as (score & Hscore & H).
    apply result_bind_Ok in H as (rest & Hrest & H).
    injection H as <-. constructor; [| now apply IH].
    exists base, score. repeat split; [| exact Hscore].
    destruct (m !! "match_score"); [congruence | discriminate].
Qed.

Lemma score_loop_scores (self : Service) (ms : list dict)
    (fs : list features) (preds : list pyfloat) (scored : list dict) :
  score_loop self ms fs preds = Ok scored ->
  Forall (fun s => exists b, s !! "match_score" = Some (VInt b) /\
                             0 <= b <= 100) scored.
Proof.
  revert fs preds scored. induction ms as [|m ms IH]; intros fs preds scored H.
  - injection H as <-. constructor.
  - destruct fs as [|feat fs], preds as [|p preds];
      try (injection H as <-; constructor).
    cbn [score_loop] in H.
    apply result_bind_Ok in H as (b & Hb & H).
    apply result_bind_Ok in H as (rest & Hrest & H).
    injection H as <-. constructor; [| eapply IH, Hrest].
    exists b. split; [| eapply rating_to_match_score_bounds, Hb].
    unfold py_update. cbn [foldl fst snd].
    rewrite lookup_insert_ne by discriminate. apply lookup_insert_eq.
Qed.

(** X5: on the scored path the intent correction lowers the score of the
    regression model by at most 25 and raises it by at most 15, leaves it
    alone when the intent is neither QUIET nor ACTIVE, writes the intent in
    every candidate and touches no other field. *)
Theorem intent_correction_shift (self : Service) (intent : string)
    (ms : list dict) (fs : list features) (preds : list pyfloat)
    (scored out : list dict) :
  score_loop self ms fs preds = Ok scored ->
  adjust_scored intent scored = Ok out ->
  Forall2 (fun s o =>
             (exists b z,
                s !! "match_score" = Some (VInt b) /\
                o !! "match_score" = Some (VInt z) /\
                0 <= b <= 100 /\ b - 25 <= z <= b + 15 /\
                (intent <> "QUIET" -> intent <> "ACTIVE" -> z = b)) /\
             o !! "intent" = Some (VStr intent) /\
             (forall k, k <> "match_score" -> k <> "intent" ->
                        o !! k = s !! k)) scored out.
Proof.
  intros Hscored Hout.
  apply score_loop_scores in Hscored. apply adjust_scored_Forall2 in Hout.
  induction Hout as [|s o scored out (base & score & Hb & Hs & ->) _ IH];
    [constructor |].
  inversion Hscored as [|? ? (b & Hb' & Hrange) Hrest]; subst.
  constructor; [| now apply IH].
  rewrite Hb' in Hb. injection Hb as <-.
  destruct (intent_adjustment_int intent s) as ((a & Ha & Hin) & Hzero).
  rewrite Ha, adjusted_score_int in Hs. injection Hs as <-.
  split; [| split].
  - exists b, (Z.max 0 (Z.min 100 (b + a))).
    split; [exact Hb' |]. split.
    { rewrite lookup_insert_ne by discriminate. apply lookup_insert_eq. }
    split; [exact Hrange |]. split.
    { cbn [In] in Hin. lia. }
    intros Hq Hact. specialize (Hzero Hq Hact). rewrite Ha in Hzero.
    assert (a = 0) as ->.
    { unfold of_int in Hzero. injection Hzero as Hz. exact Hz. }
    lia.
  - apply lookup_insert_eq.
  - intros k Hk1 Hk2. now rewrite !lookup_insert_ne by congruence.
Qed.

Lemma intent_correction_shift_witness :
  exists scored out,
    score_loop plain_service [{["category" := VStr "카페"]}] [∅] [FFin 4]
      = Ok scored /\
    adjust_scored "QUIET" scored = Ok out /\
    Forall2 (fun s o =>
               (exists b z,
                  s !! "match_score" = Some (VInt b) /\
                  o !! "match_score" = Some (VInt z) /\
                  0 <= b <= 100 /\ b - 25 <= z <= b + 15 /\
                  ("QUIET" <> "QUIET" -> "QUIET" <> "ACTIVE" -> z = b)) /\
               o !! "intent" = Some (VStr "QUIET") /\
               (forall k, k <> "match_score" -> k <> "intent" ->
                          o !! k = s !! k)) scored out.
Proof.
  destruct (score_loop plain_service [{["category" := VStr "카페"]}] [∅]
              [FFin 4]) as [scored|e] eqn:Hscored.
  - destruct (adjust_scored "QUIET" scored) as [out|e] eqn:Hout.
    + exists scored, out. split; [reflexivity |]. split; [exact Hout |].
      exact (intent_correction_shift _ _ _ _ _ _ _ Hscored Hout).
    + exfalso.
      assert (Hc :
        match score_loop plain_service [{["category" := VStr "카페"]}] [∅]
                [FFin 4] with
        | Ok scored => is_ok (adjust_scored "QUIET" scored)
        | Raise _ => false
        end = true) by (vm_compute; reflexivity).
      rewrite Hscored, Hout in Hc. discriminate Hc.
  - exfalso.
    assert (Hc : is_ok (score_loop plain_service
                          [{["category" := VStr "카페"]}] [∅] [FFin 4])
                 = true) by (vm_compute; reflexivity).
    rewrite Hscored in Hc. discriminate Hc.
Defined.

(** ** Anatomy of a returned response *)

Lemma nonempty_spec {A} (l : list A) :
  nonempty l = false <-> l = [].
Proof. destruct l; cbn; split; intros H; (reflexivity || discriminate H). Qed.

(** A run that returns went through steps 1 to 3 and the ladder and then
    through exactly one of the two branches. *)
Lemma pipeline_Ok_inv (self : Service) (user_prompt : string)
    (user_id top_n : Z) (h h' : list event) (r : Recommendations) :
  get_ai_recommendations self user_prompt user_id top_n h = (Ok r, h') ->
  exists pq ctx eq h1 cands trace h2,
    steps_1_to_3 self user_prompt user_id h = (Ok (pq, ctx, eq), h1) /\
    _search_with_relaxation self eq ctx [] h1 = (Ok (cands, trace), h2) /\
    ((cands = [] /\
      exists data recs,
        _fallback_svd_recommendation self user_id user_prompt pq top_n h2
          = (Ok data, h') /\
        adjust_fallback (_detect_intent user_prompt pq)
                        (recommendations data) = Ok recs /\
        r = with_search_trace data recs (trace_of trace true)) \/
     (cands <> [] /\
      exists scored h3 adjusted top,
        _score_meetings self user_id ctx cands pq
          (_detect_intent user_prompt pq) h2 = (Ok scored, h3) /\
        adjust_scored (_detect_intent user_prompt pq) scored = Ok adjusted /\
        reasoning_loop self ctx pq
          (py_slice_to top_n (sorted_desc match_score_of adjusted)) h3
          = (Ok top, h') /\
        r = {| user_prompt := user_prompt;
               parsed_query := pq;
               total_candidates := length cands;
               recommendations := top;
               fallback_key := None;
               search_trace := Some (trace_of trace false) |})).
Proof.
  rewrite get_ai_recommendations_staged. intros H.
  apply IO_bind_Ok in H as ([[pq ctx] eq] & h1 & Hsteps & H).
  unfold steps_4_to_7 in H.
  apply IO_bind_Ok in H as ([cands trace] & h2 & Hladder & H).
  exists pq, ctx, eq, h1, cands, trace, h2.
  split; [exact Hsteps |]. split; [exact Hladder |].
  destruct (nonempty cands) eqn:Hne; cbn [negb] in H.
  - right. split; [intros ->; discriminate Hne |].
    apply IO_bind_Ok in H as (scored & h3 & Hscored & H).
    apply IO_bind_Ok in H as (adjusted & h4 & Hadj & H).
    apply lift_Ok in Hadj as [Hadj ->].
    apply IO_bind_Ok in H as (top & h5 & Htop & H).
    apply IO_ret_Ok in H as [<- ->].
    exists scored, h3, adjusted, top. auto.
  - left. split; [now apply nonempty_spec |].
    apply IO_bind_Ok in H as (data & h3 & Hdata & H).
    apply IO_bind_Ok in H as (recs & h4 & Hadj & H).
    apply lift_Ok in Hadj as [Hadj ->].
    apply IO_ret_Ok in H as [<- ->].
    exists data, recs. auto.
Qed.

Lemma score_loop_length (self : Service) (ms : list dict)
    (fs : list features) (preds : list pyfloat) (scored : list dict) :
  score_loop self ms fs preds = Ok scored ->
  (length scored <= length ms)%nat.
Proof.
  revert fs preds scored. induction ms as [|m ms IH]; intros fs preds scored H.
  - injection H as <-. reflexivity.
  - destruct fs as [|feat fs], preds as [|p preds];
      try (injection H as <-; cbn; lia).
    cbn [score_loop] in H.
    apply result_bind_Ok in H as (b & Hb & H).
    apply result_bind_Ok in H as (rest & Hrest & H).
    injection H as <-. cbn [length]. apply IH in Hrest. lia.
Qed.

(** What a returning run of the scorer has done. *)
Lemma score_meetings_Ok_inv (self : Service) (user_id : Z)
    (ctx : dict) (cands : list dict) (pq : dict) (intent : string)
    (h h' : list event) (scored : list dict) :
  _score_meetings self user_id ctx cands pq intent h = (Ok scored, h') ->
  regressor_loaded self = true /\ feature_builder_loaded self = true /\
  exists user rs fs ms,
    scorer_user self ctx = Ok user /\
    build_loop self user cands ([], [], []) h =
      (Ok (rs, fs, ms),
       h ++ ((fun raw => EvFeatureBuild user (_normalize_meeting self raw))
               <$> cands)) /\
    length rs = length (List.filter id (build_outcomes self user cands h)) /\
    length fs = length rs /\ length ms = length rs /\
    ((rs = [] /\ scored = [] /\
      h' = h ++ ((fun raw =>
                    EvFeatureBuild user (_normalize_meeting self raw))
                   <$> cands)) \/
     (rs <> [] /\
      exists preds,
        regressor_predict self
          (h ++ ((fun raw =>
                    EvFeatureBuild user (_normalize_meeting self raw))
                   <$> cands)) rs = Ok preds /\
        score_loop self ms fs preds = Ok scored /\
        h' = (h ++ ((fun raw =>
                       EvFeatureBuild user (_normalize_meeting self raw))
                      <$> cands)) ++ [EvPredict rs])).
Proof.
  unfold _score_meetings. intros H.
  destruct (regressor_loaded self); cbn [negb] in H;
    [| apply lift_Ok in H as [H _]; discriminate H].
  destruct (feature_builder_loaded self); cbn [negb] in H;
    [| apply lift_Ok in H as [H _]; discriminate H].
  split; [reflexivity |]. split; [reflexivity |].
  apply IO_bind_Ok in H as (user & h1 & Huser & H).
  apply lift_Ok in Huser as [Huser ->].
  destruct (build_loop_run self user cands [] [] [] h)
    as (rs & fs & ms & Hrun & Hrs & Hfs & Hms).
  cbn [app] in Hrun. rewrite (IO_bind_run _ _ _ _ _ Hrun) in H.
  exists user, rs, fs, ms. repeat (split; [assumption |]).
  destruct rs as [|x0 rs]; cbn [nonempty negb] in H.
  - left. apply IO_ret_Ok in H as [<- ->]. auto.
  - right. split; [discriminate |].
    apply IO_bind_Ok in H as (preds & h2 & Hpreds & H).
    apply call_raising_Ok in Hpreds as [Hpreds ->].
    apply lift_Ok in H as [H ->]. eauto.
Qed.

Lemma score_meetings_length (self : Service) (user_id : Z)
    (ctx : dict) (cands : list dict) (pq : dict) (intent : string)
    (h h' : list event) (scored : list dict) :
  _score_meetings self user_id ctx cands pq intent h = (Ok scored, h') ->
  (length scored <= length cands)%nat.
Proof.
  intros H. apply score_meetings_Ok_inv in H
    as (_ & _ & user & rs & fs & ms & _ & _ & Hrs & _ & Hms & Hcase).
  pose proof (filter_bool_split (build_outcomes self user cands h)) as Hsplit.
  rewrite build_outcomes_length in Hsplit.
  destruct Hcase as [(_ & -> & _)|(_ & preds & _ & Hloop & _)].
  - cbn. lia.
  - apply score_loop_length in Hloop. lia.
Qed.

Lemma adjust_fallback_Forall2 (intent : string) (recs out : list dict) :
  adjust_fallback intent recs = Ok out ->
  Forall2 (fun rec o =>
             exists score,
               adjusted_score (get_default rec "match_score" (VInt 0))
                              (_apply_intent_adjustment intent rec)
                 = Ok score /\
               o = <["intent" := VStr intent]>
                     (<["match_score" := VInt score]> rec)) recs out.
Proof.
  revert out. induction recs as [|rec recs IH]; intros out H.
  - injection H as <-. constructor.
  - cbn [adjust_fallback] in H.
    apply result_bind_Ok in H as (score & Hscore & H).
    apply result_bind_Ok in H as (rest & Hrest & H).
    injection H as <-. constructor; [eauto | now apply IH].
Qed.

Lemma py_slice_to_length {A} (n : Z) (l : list A) :
  (length (py_slice_to n l) <= length l)%nat /\
  (0 <= n -> Z.of_nat (length (py_slice_to n l)) <= n).
Proof.
  unfold py_slice_to. destruct (Z.leb_spec 0 n); rewrite length_take; lia.
Qed.

Lemma sorted_desc_length {A} (key : A -> Z) (l : list A) :
  length (sorted_desc key l) = length l.
Proof. apply Permutation_length, sorted_desc_perm. Qed.

(** X6: a response never carries more recommendations than there were
    candidates, nor more than [top_n] when that is not negative. *)
Theorem recommendations_at_most_top_n (self : Service)
    (user_prompt : string) (user_id top_n : Z) (h h' : list event)
    (r : Recommendations) :
  get_ai_recommendations self user_prompt user_id top_n h = (Ok r, h') ->
  (length (recommendations r) <= total_candidates r)%nat /\
  (0 <= top_n -> Z.of_nat (length (recommendations r)) <= top_n).
Proof.
  intros H. apply pipeline_Ok_inv in H
    as (pq & ctx & eq & h1 & cands & trace & h2 & _ & _ & Hcase).
  destruct Hcase as [(_ & data & recs & Hdata & Hadj & ->)
                    |(_ & scored & h3 & adjusted & top & Hscored & Hadj &
                      Htop & ->)].
  - apply fallback_Ok_inv in Hdata
      as (_ & svd & meetings & fscored & _ & _ & -> & _).
    apply adjust_fallback_Forall2, Forall2_length in Hadj.
    cbn [recommendations total_candidates with_search_trace] in *.
    rewrite <- Hadj. apply py_slice_to_length.
  - apply score_meetings_length in Hscored.
    apply adjust_scored_Forall2, Forall2_length in Hadj.
    apply reasoning_loop_Ok in Htop as [Htop _].
    apply Forall2_length in Htop.
    cbn [recommendations total_candidates]. rewrite <- Htop.
    pose proof (py_slice_to_length top_n
                  (sorted_desc match_score_of adjusted)) as [Hle Hn].
    rewrite sorted_desc_length in Hle. split; [lia | exact Hn].
Qed.

Lemma recommendations_at_most_top_n_witness :
  exists r h',
    get_ai_recommendations scored_service "조용히 카페에서 쉬고 싶어요" 7 1 []
      = (Ok r, h') /\
    (length (recommendations r) <= total_candidates r)%nat /\
    (0 <= 1 -> Z.of_nat (length (recommendations r)) <= 1).
Proof.
  destruct (run_check
    (get_ai_recommendations scored_service "조용히 카페에서 쉬고 싶어요" 7 1 [])
    (fun _ => true)) as (r & h' & Hrun & _); [vm_compute; reflexivity |].
  exists r, h'. split; [exact Hrun |].
  exact (recommendations_at_most_top_n _ _ _ _ _ _ _ Hrun).
Defined.

Lemma reasoning_loop_keeps (self : Service) (ctx pq : dict)
    (top out : list dict) (h h' : list event) (P : dict -> Prop) :
  (forall rec text, P rec -> P (<["reasoning" := VStr text]> rec)) ->
  reasoning_loop self ctx pq top h = (Ok out, h') ->
  Forall P top -> Forall P out.
Proof.
  intros HP H Htop. apply reasoning_loop_Ok in H as [Hall _].
  induction Hall as [|rec rec' top out (text & ->) _ IH]; [constructor |].
  inversion Htop; subst. constructor; auto.
Qed.

Lemma adjust_fallback_intent (intent : string) (recs out : list dict) :
  adjust_fallback intent recs = Ok out ->
  Forall (fun o => o !! "intent" = Some (VStr intent)) out.
Proof.
  intros H. apply adjust_fallback_Forall2 in H.
  induction H as [|rec o recs out (score & _ & ->) _ IH]; [constructor |].
  constructor; [apply lookup_insert_eq | exact IH].
Qed.

Lemma adjust_scored_intent (intent : string) (scored out : list dict) :
  adjust_scored intent scored = Ok out ->
  Forall (fun o => o !! "intent" = Some (VStr intent)) out.
Proof.
  intros H. apply adjust_scored_Forall2 in H.
  induction H as [|m o ms out (base & score & _ & _ & ->) _ IH];
    [constructor |].
  constructor; [apply lookup_insert_eq | exact IH].
Qed.

(** X7: every recommendation of a response carries the same intent, the one
    detected from the prompt and the parsed query of that response. *)
Theorem one_intent_per_request (self : Service) (user_prompt : string)
    (user_id top_n : Z) (h h' : list event) (r : Recommendations) :
  get_ai_recommendations self user_prompt user_id top_n h = (Ok r, h') ->
  Forall (fun rec =>
            rec !! "intent" =
            Some (VStr (_detect_intent user_prompt (parsed_query r))))
         (recommendations r).
Proof.
  intros H. apply pipeline_Ok_inv in H
    as (pq & ctx & eq & h1 & cands & trace & h2 & _ & _ & Hcase).
  destruct Hcase as [(_ & data & recs & Hdata & Hadj & ->)
                    |(_ & scored & h3 & adjusted & top & Hscored & Hadj &
                      Htop & ->)].
  - apply fallback_Ok_inv in Hdata
      as (_ & svd & meetings & fscored & _ & _ & -> & _).
    cbn [recommendations parsed_query with_search_trace] in *.
    eapply adjust_fallback_intent, Hadj.
  - cbn [recommendations parsed_query].
    eapply reasoning_loop_keeps; [| exact Htop |].
    { intros rec text Hrec. now rewrite lookup_insert_ne by discriminate. }
    apply py_slice_to_Forall, sorted_desc_Forall.
    eapply adjust_scored_intent, Hadj.
Qed.

Lemma one_intent_per_request_witness :
  exists r h',
    get_ai_recommendations scored_service "조용히 카페에서 쉬고 싶어요" 7 5 []
      = (Ok r, h') /\
    Forall (fun rec =>
              rec !! "intent" =
              Some (VStr (_detect_intent "조용히 카페에서 쉬고 싶어요"
                                         (parsed_query r))))
           (recommendations r).
Proof.
  destruct (run_check
    (get_ai_recommendations scored_service "조용히 카페에서 쉬고 싶어요" 7 5 [])
    (fun _ => true)) as (r & h' & Hrun & _); [vm_compute; reflexivity |].
  exists r, h'. split; [exact Hrun |].
  exact (one_intent_per_request _ _ _ _ _ _ _ Hrun).
Defined.

Lemma StronglySorted_take {A} (R : A -> A -> Prop) (n : nat) (l : list A) :
  StronglySorted R l -> StronglySorted R (take n l).
Proof.
  intros H. revert n. induction H as [|x l Hl IH Hx]; intros n.
  - rewrite take_nil. constructor.
  - destruct n as [|n]; [constructor |]. cbn [take].
    constructor; [apply IH | now apply Forall_take].
Qed.

Lemma StronglySorted_same_keys {A} (key : A -> Z) (l l' : list A) :
  Forall2 (fun a b => key b = key a) l l' ->
  StronglySorted (desc key) l -> StronglySorted (desc key) l'.
Proof.
  induction 1 as [|a b l l' Hab Hall IH]; intros Hs; [constructor |].
  inversion Hs as [|? ? Hl Ha]; subst. constructor; [now apply IH |].
  clear -Hab Hall Ha. induction Hall as [|c d l l' Hcd _ IH];
    [constructor |].
  inversion Ha; subst. constructor; [| now apply IH].
  unfold desc in *. lia.
Qed.

(** X8: on the scored path the recommendations come in non-increasing order
    of their final match_score. *)
Theorem scored_recommendations_sorted (self : Service)
    (user_prompt : string) (user_id top_n : Z) (h h' : list event)
    (r : Recommendations) :
  get_ai_recommendations self user_prompt user_id top_n h = (Ok r, h') ->
  fallback_key r = None ->
  StronglySorted (desc match_score_of) (recommendations r).
Proof.
  intros H Hkey. apply pipeline_Ok_inv in H
    as (pq & ctx & eq & h1 & cands & trace & h2 & _ & _ & Hcase).
  destruct Hcase as [(_ & data & recs & Hdata & Hadj & ->)
                    |(_ & scored & h3 & adjusted & top & Hscored & Hadj &
                      Htop & ->)].
  - apply fallback_Ok_inv in Hdata
      as (_ & svd & meetings & fscored & _ & _ & -> & _).
    discriminate Hkey.
  - cbn [recommendations]. apply reasoning_loop_Ok in Htop as [Htop _].
    eapply StronglySorted_same_keys.
    + eapply Forall2_impl; [exact Htop |].
      intros rec rec' [text ->]. unfold match_score_of.
      now rewrite lookup_insert_ne by discriminate.
    + unfold py_slice_to.
      destruct (0 <=? top_n); apply StronglySorted_take, sorted_desc_sorted.
Qed.

Lemma scored_recommendations_sorted_witness :
  exists r h',
    get_ai_recommendations scored_service "조용히 카페에서 쉬고 싶어요" 7 5 []
      = (Ok r, h') /\
    fallback_key r = None /\
    StronglySorted (desc match_score_of) (recommendations r).
Proof.
  destruct (run_check
    (get_ai_recommendations scored_service "조용히 카페에서 쉬고 싶어요" 7 5 [])
    (fun r => match fallback_key r with None => true | _ => false end))
    as (r & h' & Hrun & Hkey); [vm_compute; reflexivity |].
  assert (Hnone : fallback_key r = None)
    by (destruct (fallback_key r); [discriminate Hkey | reflexivity]).
  exists r, h'. split; [exact Hrun |]. split; [exact Hnone |].
  exact (scored_recommendations_sorted _ _ _ _ _ _ _ Hrun Hnone).
Defined.

Lemma ladder_labels_lookup (n : nat) :
  (n <= 4)%nat -> ladder_labels !! n = Some (nth n ladder_labels "").
Proof.
  intros Hn. destruct n as [|[|[|[|[|n]]]]]; try reflexivity. lia.
Qed.

(** X9: the trace object of a returned response is consistent: it has between
    one and five steps, [final_level] and [final_label] are the level and
    the label of the last step, the level being the number of steps minus
    one and the label its entry of the ladder; [fallback] is true exactly
    when the last step found nothing, which is also when the response has
    the fallback's own key; otherwise [total_candidates] is the count of
    the last step. *)
Theorem response_trace_consistent (self : Service) (user_prompt : string)
    (user_id top_n : Z) (h h' : list event) (r : Recommendations) :
  get_ai_recommendations self user_prompt user_id top_n h = (Ok r, h') ->
  exists t s,
    search_trace r = Some t /\
    (1 <= length (steps t) <= 5)%nat /\
    last (steps t) = Some s /\
    final_level t = level s /\
    final_label t = label s /\
    final_level t = Z.of_nat (length (steps t)) - 1 /\
    ladder_labels !! Z.to_nat (final_level t) = Some (final_label t) /\
    (fallback t = true <-> count s = 0%nat) /\
    (fallback_key r = Some true <-> fallback t = true) /\
    (fallback t = false -> total_candidates r = count s).
Proof.
  intros H. apply pipeline_Ok_inv in H
    as (pq & ctx & eq & h1 & cands & trace & h2 & _ & Hladder & Hcase).
  apply ladder_Ok_inv in Hladder
    as (n & p & Hn & _ & Htrace & Hcands & _ & _ & _).
  assert (Hlast : last trace = Some (ladder_step self eq ctx h1 n)).
  { rewrite Htrace, seq_S, fmap_app. apply last_snoc. }
  assert (Hlen : length trace = S n).
  { now rewrite Htrace, length_fmap, length_seq. }
  assert (Hcount : count (ladder_step self eq ctx h1 n) = length cands).
  { cbn [count ladder_step]. now rewrite Hcands. }
  destruct Hcase as [(Hnil & data & recs & Hdata & Hadj & ->)
                    |(Hne & scored & h3 & adjusted & top & Hscored & Hadj &
                      Htop & ->)].
  - apply fallback_Ok_inv in Hdata
      as (_ & svd & meetings & fscored & _ & _ & -> & _).
    exists (trace_of trace true), (ladder_step self eq ctx h1 n).
    cbn [search_trace with_search_trace steps trace_of final_level
         final_label fallback fallback_key total_candidates].
    rewrite Hlast, Hlen, Hcount, Hnil.
    cbn [from_option level label ladder_step length].
    rewrite Nat2Z.id.
    repeat split; try (reflexivity || lia || discriminate).
    now apply ladder_labels_lookup.
  - exists (trace_of trace false), (ladder_step self eq ctx h1 n).
    cbn [search_trace steps trace_of final_level final_label fallback
         fallback_key total_candidates].
    rewrite Hlast, Hlen, Hcount.
    cbn [from_option level label ladder_step].
    rewrite Nat2Z.id.
    repeat split; try (reflexivity || lia || discriminate).
    + now apply ladder_labels_lookup.
    + intros Hz. destruct cands; [contradiction | discriminate Hz].
Qed.

Lemma response_trace_consistent_witness :
  exists r h' t s,
    get_ai_recommendations scored_service "조용히 카페에서 쉬고 싶어요" 7 5 []
      = (Ok r, h') /\
    search_trace r = Some t /\
    (1 <= length (steps t) <= 5)%nat /\
    last (steps t) = Some s /\
    final_level t = level s /\
    final_label t = label s /\
    final_level t = Z.of_nat (length (steps t)) - 1 /\
    ladder_labels !! Z.to_nat (final_level t) = Some (final_label t) /\
    (fallback t = true <-> count s = 0%nat) /\
    (fallback_key r = Some true <-> fallback t = true) /\
    (fallback t = false -> total_candidates r = count s).
Proof.
  destruct (run_check
    (get_ai_recommendations scored_service "조용히 카페에서 쉬고 싶어요" 7 5 [])
    (fun _ => true)) as (r & h' & Hrun & _); [vm_compute; reflexivity |].
  destruct (response_trace_consistent _ _ _ _ _ _ _ Hrun)
    as (t & s & Hrest).
  exists r, h', t, s. split; [exact Hrun | exact Hrest].
Defined.

(** ** The search payload *)

Lemma to_spring_Ok_inv (self : Service) (q ctx p : dict) :
  _to_spring_search_request self q ctx = Ok p ->
  exists keyword raw_location_type,
    p = payload_of self keyword raw_location_type q ctx /\
    (truthy (get q "keyword") = true -> keyword = get q "keyword") /\
    (truthy (get q "keyword") = false ->
     truthy (get q "keywords") = false -> keyword = VNone) /\
    (forall l, truthy (get q "keyword") = false ->
               get q "keywords" = VList l -> l <> [] ->
               keyword = VStr (join_space l)) /\
    (truthy (py_or (get q "locationType") (get q "location_type")) = true ->
     raw_location_type =
       py_or (get q "locationType") (get q "location_type")).
Proof.
  unfold _to_spring_search_request. intros H.
  apply result_bind_Ok in H as (keyword & Hkw & H).
  apply result_bind_Ok in H as (loc & Hloc & H).
  injection H as <-. exists keyword, loc. split; [reflexivity |].
  repeat split.
  - intros Ht. rewrite Ht in Hkw. now injection Hkw.
  - intros Ht Hs. rewrite Ht in Hkw. unfold py_or in Hkw.
    rewrite Hs in Hkw. cbn in Hkw. now injection Hkw.
  - intros l Ht Hl Hne. rewrite Ht in Hkw. unfold py_or in Hkw.
    rewrite Hl in Hkw. destruct l as [|x l]; [now contradiction Hne |].
    cbn in Hkw. now injection Hkw.
  - intros Ht. rewrite Ht in Hloc. now injection Hloc.
Qed.

Lemma payload_of_lookup (self : Service) (kw loc : pyval) (q ctx : dict)
    (k : string) (v : pyval) :
  payload_of self kw loc q ctx !! k = Some v ->
  In k payload_keys /\ keep_field v = true.
Proof.
  unfold payload_of. rewrite lookup_omap.
  unfold py_dict. cbn [foldl fst snd].
  rewrite !lookup_insert, lookup_empty.
  repeat (case_decide;
          [subst k; cbn [mbind option_bind];
           let E := fresh in
           destruct (keep_field _) eqn:E; intros [= <-];
           (split; [cbn [payload_keys In]; tauto | exact E]) |]).
  discriminate.
Qed.

Lemma keep_field_spec (v : pyval) :
  keep_field v = true <-> v <> VNone /\ v <> VStr "".
Proof.
  unfold keep_field, str_is. destruct v as [|b|z|f|s|l]; cbn;
    try (split; [intros _; split; discriminate | reflexivity]).
  - split; [discriminate | intros [H _]; now contradiction H].
  - destruct (String.eqb_spec s ""); cbn.
    + subst. split; [discriminate | intros [_ H]; now contradiction H].
    + split; [intros _; split; congruence | reflexivity].
Qed.

(** X10: a search payload holds no [None] and no empty string, only keys of the
    fixed field set, and always the same pagination and sort fields. *)
Theorem payload_fields (self : Service) (q ctx p : dict) :
  _to_spring_search_request self q ctx = Ok p ->
  (forall k v, p !! k = Some v ->
               In k payload_keys /\ v <> VNone /\ v <> VStr "") /\
  p !! "page" = Some (VInt 0) /\
  p !! "size" = Some (VInt 200) /\
  p !! "sortBy" = Some (VStr "createdAt") /\
  p !! "sortDirection" = Some (VStr "desc").
Proof.
  intros H. apply to_spring_Ok_inv in H as (kw & loc & -> & _).
  split.
  - intros k v Hk. apply payload_of_lookup in Hk as [Hin Hkeep].
    split; [exact Hin |]. now apply keep_field_spec.
  - unfold payload_of, py_dict. cbn [foldl fst snd].
    rewrite !lookup_omap.
    repeat split;
      rewrite ?lookup_insert_ne by discriminate;
      rewrite lookup_insert_eq; reflexivity.
Qed.

Lemma payload_fields_witness :
  exists p,
    _to_spring_search_request plain_service running_query ∅ = Ok p /\
    (forall k v, p !! k = Some v ->
                 In k payload_keys /\ v <> VNone /\ v <> VStr "") /\
    p !! "page" = Some (VInt 0) /\
    p !! "size" = Some (VInt 200) /\
    p !! "sortBy" = Some (VStr "createdAt") /\
    p !! "sortDirection" = Some (VStr "desc").
Proof.
  destruct (_to_spring_search_request plain_service running_query ∅)
    as [p|e] eqn:Hp.
  - exists p. split; [reflexivity |]. exact (payload_fields _ _ _ _ Hp).
  - exfalso.
    assert (Hc : is_ok (_to_spring_search_request plain_service
                          running_query ∅) = true)
      by (vm_compute; reflexivity).
    rewrite Hp in Hc. discriminate Hc.
Defined.

Lemma join_value_is_ok (q : dict) :
  is_ok (join_value (py_or (get q "keywords") (VList []))) =
  keywords_joinable q.
Proof.
  unfold keywords_joinable, py_or.
  destruct (get q "keywords") as [|b|z|f|s|l]; try reflexivity;
    try (now destruct l);
    try (destruct (truthy _); reflexivity).
Qed.

Lemma join_value_truthy (q : dict) :
  keywords_joinable q = false ->
  truthy (py_or (get q "keywords") (VList [])) = true.
Proof.
  unfold keywords_joinable, py_or. intros H.
  destruct (truthy (get q "keywords")) eqn:Ht; [exact Ht | exfalso].
  destruct (get q "keywords"); try discriminate H;
    rewrite Ht in H; discriminate H.
Qed.

Lemma join_value_raises (v : pyval) (e : exn) :
  join_value v = Raise e -> e = TypeError.
Proof. destruct v; cbn; congruence. Qed.

(** X11: building a search payload fails only on a ["keywords"] value that cannot
    be joined (a true value that is neither a list nor a string), and only
    when that value is needed: when the query has no ["keyword"] of its own,
    or no location type of its own.  The failure is a [TypeError]. *)
Theorem payload_failure (self : Service) (q ctx : dict) :
  is_ok (_to_spring_search_request self q ctx) =
    keywords_joinable q
    || (truthy (get q "keyword")
        && truthy (py_or (get q "locationType") (get q "location_type"))) /\
  forall e, _to_spring_search_request self q ctx = Raise e -> e = TypeError.
Proof.
  pose proof (join_value_is_ok q) as Hj.
  pose proof (join_value_truthy q) as Ht.
  unfold _to_spring_search_request, _infer_location_type.
  set (kws := py_or (get q "keywords") (VList [])) in *.
  set (given := py_or (get q "locationType") (get q "location_type")).
  destruct (join_value kws) as [text|e0] eqn:Hv; cbn [is_ok] in Hj.
  - rewrite <- Hj. cbn [orb].
    assert (Hkw : exists kw,
      (if truthy (get q "keyword") then mret (get q "keyword")
       else if truthy kws
            then text0 ← Ok text; mret (VStr text0)
            else mret VNone) = Ok kw)
      by (destruct (truthy (get q "keyword")), (truthy kws); eexists;
          reflexivity).
    destruct Hkw as [kw ->].
    assert (Hloc : exists loc,
      (if truthy given then mret given
       else text0 ← Ok text;
            (if contains "실내" text0 then mret (VStr "INDOOR")
             else if contains "야외" text0 || contains "실외" text0
                  then mret (VStr "OUTDOOR")
                  else mret VNone)) = Ok loc).
    { destruct (truthy given); [eexists; reflexivity |].
      cbn [mbind result_bind].
      destruct (contains "실내" text); [eexists; reflexivity |].
      destruct (contains "야외" text || contains "실외" text);
        eexists; reflexivity. }
    destruct Hloc as [loc ->].
    split; [reflexivity | discriminate].
  - apply join_value_raises in Hv as ->.
    rewrite <- Hj. cbn [orb]. rewrite (Ht (eq_sym Hj)).
    destruct (truthy (get q "keyword"));
      [destruct (truthy given) |];
      cbn [andb mbind result_bind mret result_ret is_ok];
      (split; [reflexivity |]); intros e H;
      first [discriminate H | now injection H].
Qed.

(** X12: an absent ["radius"] gives the payload the default 5.0; a ["radius"]
    explicitly set to [None] (or to [""]) gives a payload without radius. *)
Theorem payload_radius (self : Service) (q ctx p : dict) :
  _to_spring_search_request self q ctx = Ok p ->
  p !! "radius" =
    match q !! "radius" with
    | None => Some (VFloat (FFin 5))
    | Some v => if keep_field v then Some v else None
    end.
Proof.
  intros H. apply to_spring_Ok_inv in H as (kw & loc & -> & _).
  unfold payload_of, py_dict. cbn [foldl fst snd].
  rewrite lookup_omap.
  rewrite !lookup_insert_ne by discriminate.
  rewrite lookup_insert_eq. unfold get_default.
  destruct (q !! "radius") as [v|]; reflexivity.
Qed.

Lemma payload_radius_witness :
  exists p p',
    _to_spring_search_request plain_service running_query ∅ = Ok p /\
    _to_spring_search_request plain_service
      (<["radius" := VNone]> running_query) ∅ = Ok p' /\
    p !! "radius" = Some (VFloat (FFin 5)) /\
    p' !! "radius" = None.
Proof.
  destruct (_to_spring_search_request plain_service running_query ∅)
    as [p|e] eqn:Hp;
    [| exfalso;
       assert (Hc : is_ok (_to_spring_search_request plain_service
                             running_query ∅) = true)
         by (vm_compute; reflexivity);
       rewrite Hp in Hc; discriminate Hc].
  destruct (_to_spring_search_request plain_service
              (<["radius" := VNone]> running_query) ∅) as [p'|e] eqn:Hp';
    [| exfalso;
       assert (Hc : is_ok (_to_spring_search_request plain_service
                             (<["radius" := VNone]> running_query) ∅) = true)
         by (vm_compute; reflexivity);
       rewrite Hp' in Hc; discriminate Hc].
  exists p, p'. split; [reflexivity |]. split; [reflexivity |].
  rewrite (payload_radius _ _ _ _ Hp), (payload_radius _ _ _ _ Hp').
  split.
  - assert (Hr : bool_decide (running_query !! "radius" = None) = true)
      by (vm_compute; reflexivity).
    apply bool_decide_eq_true in Hr. now rewrite Hr.
  - now rewrite lookup_insert_eq.
Defined.

Lemma strip_blank_table (self : Service) (s : string) :
  s <> "" -> strip s = "" ->
  _normalize_timeslot self (VStr s) = VStr "".
Proof.
  intros Hs Hb. unfold _normalize_timeslot. cbn [truthy].
  destruct (String.eqb_spec s "") as [->|_]; [now contradiction Hs |].
  cbn [negb py_str]. rewrite Hb. reflexivity.
Qed.

(** X13: a ["time_slot"] of white space only leaves the payload without a time
    slot, whatever the query has under ["timeSlot"]: the snake-case key is
    taken first, normalised to the empty string and then dropped. *)
Theorem blank_time_slot_dropped (self : Service) (q ctx p : dict)
    (s : string) :
  q !! "time_slot" = Some (VStr s) -> s <> "" -> strip s = "" ->
  _to_spring_search_request self q ctx = Ok p ->
  p !! "timeSlot" = None.
Proof.
  intros Hq Hs Hb H. apply to_spring_Ok_inv in H as (kw & loc & -> & _).
  assert (Hor : py_or (get q "time_slot") (get q "timeSlot") = VStr s).
  { assert (Hg : get q "time_slot" = VStr s)
      by (unfold get; now rewrite Hq).
    unfold py_or. rewrite Hg. cbn [truthy].
    destruct (String.eqb_spec s "") as [->|_]; [now contradiction Hs |].
    reflexivity. }
  unfold payload_of, py_dict. cbn [foldl fst snd].
  rewrite lookup_omap.
  rewrite !lookup_insert_ne by discriminate.
  rewrite lookup_insert_eq, Hor, (strip_blank_table self s Hs Hb).
  reflexivity.
Qed.

Lemma blank_time_slot_dropped_witness :
  exists p,
    _to_spring_search_request plain_service
      (<["time_slot" := VStr "  "]>
         (<["timeSlot" := VStr "evening"]> running_query)) ∅ = Ok p /\
    p !! "timeSlot" = None.
Proof.
  destruct (_to_spring_search_request plain_service
              (<["time_slot" := VStr "  "]>
                 (<["timeSlot" := VStr "evening"]> running_query)) ∅)
    as [p|e] eqn:Hp.
  - exists p. split; [reflexivity |].
    apply (blank_time_slot_dropped _ _ _ _ "  " ltac:(apply lookup_insert_eq)
             ltac:(discriminate) ltac:(reflexivity) Hp).
  - exfalso.
    assert (Hc : is_ok (_to_spring_search_request plain_service
                (<["time_slot" := VStr "  "]>
                   (<["timeSlot" := VStr "evening"]> running_query)) ∅)
              = true) by (vm_compute; reflexivity).
    rewrite Hp in Hc. discriminate Hc.
Defined.

(** ** What the ladder removes *)

Lemma to_spring_congr (self : Service) (q q' ctx p : dict) :
  q' !! "keyword" = q !! "keyword" ->
  q' !! "keywords" = q !! "keywords" ->
  q' !! "locationType" = q !! "locationType" ->
  q' !! "location_type" = q !! "location_type" ->
  _to_spring_search_request self q ctx = Ok p ->
  exists kw loc,
    p = payload_of self kw loc q ctx /\
    _to_spring_search_request self q' ctx =
      Ok (payload_of self kw loc q' ctx).
Proof.
  intros H1 H2 H3 H4.
  unfold _to_spring_search_request, _infer_location_type, get.
  rewrite H1, H2, H3, H4. intros H.
  apply result_bind_Ok in H as (kw & Hkw & H).
  apply result_bind_Ok in H as (loc & Hloc & H).
  rewrite Hkw. cbn [mbind result_bind]. rewrite Hloc.
  exists kw, loc. split; [now injection H | reflexivity].
Qed.

Ltac payload_entries :=
  unfold payload_of, py_dict, get, get_default; cbn [foldl fst snd];
  rewrite !lookup_omap, !lookup_insert, lookup_empty.

Lemma payload_of_delete (self : Service) (kw loc : pyval) (q ctx : dict)
    (k : string) :
  In k ["vibe"; "subcategory"; "category"] ->
  payload_of self kw loc (delete k q) ctx =
  delete k (payload_of self kw loc q ctx).
Proof.
  intros Hk. apply map_eq. intros j. rewrite lookup_delete.
  payload_entries.
  cbn [In] in Hk. destruct Hk as [<-|[<-|[<-|[]]]];
    repeat (case_decide; [subst j |]);
    rewrite ?lookup_delete_eq, ?lookup_delete_ne by discriminate;
    try reflexivity; congruence.
Qed.

Lemma payload_of_delete_time_slot (self : Service) (kw loc : pyval)
    (q ctx : dict) :
  payload_of self kw loc (delete "timeSlot" (delete "time_slot" q)) ctx =
  delete "timeSlot" (payload_of self kw loc q ctx).
Proof.
  apply map_eq. intros j. rewrite lookup_delete.
  payload_entries.
  repeat (case_decide; [subst j |]);
    rewrite ?lookup_delete_eq, ?lookup_delete_ne by discriminate;
    rewrite ?lookup_delete_eq, ?lookup_delete_ne by discriminate;
    try reflexivity; congruence.
Qed.

Lemma to_spring_delete (self : Service) (q ctx p : dict) (k : string) :
  In k ["vibe"; "subcategory"; "category"] ->
  _to_spring_search_request self q ctx = Ok p ->
  _to_spring_search_request self (delete k q) ctx = Ok (delete k p).
Proof.
  intros Hk H.
  assert (Hne : k <> "keyword" /\ k <> "keywords" /\ k <> "locationType"
                /\ k <> "location_type")
    by (cbn [In] in Hk; destruct Hk as [<-|[<-|[<-|[]]]];
        repeat split; discriminate).
  destruct Hne as (N1 & N2 & N3 & N4).
  apply (to_spring_congr self q (delete k q)) in H
    as (kw & loc & -> & ->);
    try (now apply lookup_delete_ne).
  now rewrite payload_of_delete.
Qed.

Lemma to_spring_delete_time_slot (self : Service) (q ctx p : dict) :
  _to_spring_search_request self q ctx = Ok p ->
  _to_spring_search_request self
    (delete "timeSlot" (delete "time_slot" q)) ctx
  = Ok (delete "timeSlot" p).
Proof.
  intros H.
  apply (to_spring_congr self q
           (delete "timeSlot" (delete "time_slot" q))) in H
    as (kw & loc & -> & ->);
    try (now rewrite !lookup_delete_ne by discriminate).
  now rewrite payload_of_delete_time_slot.
Qed.

Lemma ladder_payload_removes (self : Service) (q ctx p : dict) (i : nat) :
  _to_spring_search_request self q ctx = Ok p ->
  (i <= 4)%nat ->
  ladder_payload self q ctx i =
  foldl (fun d k => delete k d) p (take i relaxed_fields).
Proof.
  intros H Hi. unfold ladder_payload.
  pose proof (to_spring_delete self q ctx p "vibe"
                ltac:(cbn; tauto) H) as H1.
  pose proof (to_spring_delete_time_slot self _ ctx _ H1) as H2.
  pose proof (to_spring_delete self _ ctx _ "subcategory"
                ltac:(cbn; tauto) H2) as H3.
  pose proof (to_spring_delete self _ ctx _ "category"
                ltac:(cbn; tauto) H3) as H4.
  destruct i as [|[|[|[|[|i]]]]]; [| | | | | lia];
    cbn [ladder_query take relaxed_fields foldl];
    [rewrite H | rewrite H1 | rewrite H2 | rewrite H3 | rewrite H4];
    reflexivity.
Qed.

Lemma foldl_delete_sub (l : list string) (d : dict) :
  foldl (fun d k => delete k d) d l ⊆ d /\
  forall k, ~ In k l -> foldl (fun d k => delete k d) d l !! k = d !! k.
Proof.
  revert d. induction l as [|x l IH]; intros d; cbn [foldl].
  - split; reflexivity.
  - destruct (IH (delete x d)) as [IH1 IH2]. split.
    + etransitivity; [exact IH1 | apply delete_subseteq].
    + intros k Hk. rewrite IH2 by (intros Hin; apply Hk; now right).
      apply lookup_delete_ne. intros ->. apply Hk. now left.
Qed.

(** X14: relaxation only removes: the payload a trace step records at level [i]
    is the payload of level 0 without the first [i] of the fields vibe,
    timeSlot, subcategory and category; every other field (keyword,
    location, radius, coordinates, paging) is the same at all levels. *)
Theorem relaxation_only_removes (self : Service) (q ctx : dict)
    (h : list event) (cands : list dict) (trace : list TraceStep)
    (h' : list event) :
  _search_with_relaxation self q ctx [] h = (Ok (cands, trace), h') ->
  exists p0,
    _to_spring_search_request self q ctx = Ok p0 /\
    forall (i : nat) (s : TraceStep),
      trace !! i = Some s ->
      payload s = foldl (fun d k => delete k d) p0 (take i relaxed_fields) /\
      payload s ⊆ p0 /\
      forall k, ~ In k relaxed_fields -> payload s !! k = p0 !! k.
Proof.
  intros H.
  apply ladder_Ok_inv in H as (n & p & Hn & Hp & -> & _).
  exists p. split; [exact Hp |]. intros i s Hs.
  apply ladder_steps_lookup in Hs as [Hi ->]. cbn [payload ladder_step].
  rewrite (ladder_payload_removes _ _ _ _ _ Hp) by lia.
  split; [reflexivity |].
  destruct (foldl_delete_sub (take i relaxed_fields) p) as [S1 S2].
  split; [exact S1 |]. intros k Hk. apply S2.
  intros Hin. apply Hk.
  apply list_elem_of_In. apply list_elem_of_In in Hin.
  apply elem_of_take in Hin as (m & Hm & _).
  eapply list_elem_of_lookup_2, Hm.
Qed.

Lemma relaxation_only_removes_witness :
  exists cands trace h' p0,
    _search_with_relaxation plain_service running_query ∅ [] []
      = (Ok (cands, trace), h') /\
    _to_spring_search_request plain_service running_query ∅ = Ok p0 /\
    forall (i : nat) (s : TraceStep),
      trace !! i = Some s ->
      payload s = foldl (fun d k => delete k d) p0 (take i relaxed_fields) /\
      payload s ⊆ p0 /\
      forall k, ~ In k relaxed_fields -> payload s !! k = p0 !! k.
Proof.
  destruct (_search_with_relaxation plain_service running_query ∅ [] [])
    as [[[cands trace]|e] h'] eqn:Hrun.
  - destruct (relaxation_only_removes _ _ _ _ _ _ _ Hrun) as (p0 & Hp & Hall).
    exists cands, trace, h', p0. auto.
  - exfalso.
    assert (Hc :
      is_ok (_search_with_relaxation plain_service running_query ∅ [] []).1
      = true) by (vm_compute; reflexivity).
    rewrite Hrun in Hc. discriminate Hc.
Defined.

(** ** Which filters reach the catalog *)

Lemma steps_1_to_3_inv (self : Service) (user_prompt : string)
    (user_id : Z) (h h1 : list event) (pq ctx eq : dict) :
  steps_1_to_3 self user_prompt user_id h = (Ok (pq, ctx, eq), h1) ->
  exists pq0 eq0 same (b1 b2 : bool),
    enrich_with_user_context self
      (h ++ [EvParse user_prompt; EvUserContext user_id]) pq0 ctx
      = Ok (eq0, same) /\
    _should_apply_time_slot eq0 = Ok b1 /\
    _should_apply_vibe
      (if b1 then eq0 else delete "timeSlot" (delete "time_slot" eq0))
      = Ok b2 /\
    eq = (let eq1 := if b1 then eq0
                     else delete "timeSlot" (delete "time_slot" eq0) in
          if b2 then eq1 else delete "vibe" eq1) /\
    pq = (if same then eq else pq0).
Proof.
  unfold steps_1_to_3, _get_user_context. intros H.
  apply IO_bind_Ok in H as (pq0 & h2 & Hparse & H).
  apply call_raising_Ok in Hparse as [_ ->].
  apply IO_bind_Ok in H as (ctx0 & h3 & Hctx & H).
  apply IO_bind_Ok in Hctx as (resp & h4 & Hcall & Hctx).
  unfold call in Hcall. injection Hcall as _ <-.
  apply IO_ret_Ok in Hctx as [<- ->].
  apply IO_bind_Ok in H as ([eq0 same] & h5 & Henrich & H).
  apply call_raising_Ok in Henrich as [Henrich ->].
  apply IO_bind_Ok in H as (b1 & h6 & H1 & H).
  apply lift_Ok in H1 as [H1 ->].
  apply IO_bind_Ok in H as (b2 & h7 & H2 & H).
  apply lift_Ok in H2 as [H2 ->].
  apply IO_ret_Ok in H as [H ->]. injection H as <- <- <-.
  exists pq0, eq0, same, b1, b2.
  rewrite <- app_assoc in Henrich. auto.
Qed.

Lemma In_take {A} (x : A) (n : nat) (l : list A) :
  In x (take n l) -> In x l.
Proof.
  intros H. apply list_elem_of_In. apply list_elem_of_In in H.
  apply elem_of_take in H as (m & Hm & _).
  eapply list_elem_of_lookup_2, Hm.
Qed.

Lemma get_delete_eq (q : dict) (k : string) : get (delete k q) k = VNone.
Proof. unfold get. now rewrite lookup_delete_eq. Qed.

Lemma get_delete_ne (q : dict) (k k' : string) :
  k <> k' -> get (delete k q) k' = get q k'.
Proof. intros H. unfold get. now rewrite lookup_delete_ne. Qed.

Lemma should_apply_time_slot_true (q : dict) :
  _should_apply_time_slot q = Ok true ->
  get q "time_slot" <> VNone /\
  py_ge (get_default q "confidence" (VInt 0)) (FFin (9 # 10)) = Ok true.
Proof.
  unfold _should_apply_time_slot.
  destruct (get q "time_slot"); cbn [is_none]; try discriminate;
    intros H; (split; [discriminate | exact H]).
Qed.

Lemma should_apply_vibe_true (q : dict) :
  _should_apply_vibe q = Ok true ->
  get q "vibe" <> VNone /\
  py_ge (get_default q "confidence" (VInt 0)) (FFin (9 # 10)) = Ok true.
Proof.
  unfold _should_apply_vibe.
  destruct (get q "vibe"); cbn [is_none]; try discriminate;
    intros H; (split; [discriminate | exact H]).
Qed.

Lemma payload_time_slot_some (self : Service) (q ctx p : dict) :
  _to_spring_search_request self q ctx = Ok p ->
  is_Some (p !! "timeSlot") ->
  get q "time_slot" <> VNone \/ get q "timeSlot" <> VNone.
Proof.
  intros H [v Hv]. apply to_spring_Ok_inv in H as (kw & loc & -> & _).
  revert Hv. unfold payload_of, py_dict. cbn [foldl fst snd].
  rewrite lookup_omap.
  rewrite !lookup_insert_ne by discriminate.
  rewrite lookup_insert_eq. cbn [mbind option_bind].
  unfold py_or. destruct (get q "time_slot") eqn:E1;
    try (intros _; left; discriminate).
  cbn [truthy]. destruct (get q "timeSlot") eqn:E2;
    try (intros _; right; discriminate).
  cbn. discriminate.
Qed.

(** X15: of a returned run: a search payload carries a vibe or a time slot only
    when the enriched query has a confidence of at least 0.9, and a time
    slot only when the enriched query has one under ["time_slot"]; a time
    slot that is only under ["timeSlot"] never reaches the catalog. *)
Theorem filters_need_confidence (self : Service) (user_prompt : string)
    (user_id top_n : Z) (h h' : list event) (r : Recommendations) :
  get_ai_recommendations self user_prompt user_id top_n h = (Ok r, h') ->
  exists pq0 ctx eq0 same t,
    enrich_with_user_context self
      (h ++ [EvParse user_prompt; EvUserContext user_id]) pq0 ctx
      = Ok (eq0, same) /\
    search_trace r = Some t /\
    forall i s, steps t !! i = Some s ->
      (is_Some (payload s !! "vibe") ->
       i = 0%nat /\ payload s !! "vibe" = Some (get eq0 "vibe") /\
       py_ge (get_default eq0 "confidence" (VInt 0)) (FFin (9 # 10))
         = Ok true) /\
      (is_Some (payload s !! "timeSlot") ->
       (i <= 1)%nat /\ get eq0 "time_slot" <> VNone /\
       py_ge (get_default eq0 "confidence" (VInt 0)) (FFin (9 # 10))
         = Ok true).
Proof.
  intros H. apply pipeline_Ok_inv in H
    as (pq & ctx & eq & h1 & cands & trace & h2 & Hsteps & Hladder & Hcase).
  apply steps_1_to_3_inv in Hsteps
    as (pq0 & eq0 & same & b1 & b2 & Henrich & Hb1 & Hb2 & Heq & _).
  apply ladder_Ok_inv in Hladder
    as (n & p & Hn & Hp & Htrace & _).
  assert (Hconf :
            get_default
              (if b1 then eq0 else delete "timeSlot" (delete "time_slot" eq0))
              "confidence" (VInt 0)
            = get_default eq0 "confidence" (VInt 0)).
  { destruct b1; [reflexivity |]. unfold get_default.
    now rewrite !lookup_delete_ne by discriminate. }
  exists pq0, ctx, eq0, same,
    (trace_of trace (bool_decide (cands = []))).
  split; [exact Henrich |]. split.
  { destruct Hcase as [(Hnil & data & recs & Hdata & Hadj & ->)
                      |(Hne & scored & h3 & adjusted & top & _ & _ & _ & ->)].
    - cbn [search_trace with_search_trace].
      now rewrite bool_decide_eq_true_2.
    - cbn [search_trace]. now rewrite bool_decide_eq_false_2. }
  cbn [steps trace_of]. intros i s Hs. rewrite Htrace in Hs.
  apply ladder_steps_lookup in Hs as [Hi ->]. cbn [payload ladder_step].
  rewrite (ladder_payload_removes _ _ _ _ _ Hp) by lia.
  split.
  - intros Hv.
    destruct i as [|i];
      [| exfalso; cbn [take relaxed_fields foldl] in Hv;
         rewrite (proj2 (foldl_delete_sub _ _)) in Hv;
         [ rewrite lookup_delete_eq in Hv; now destruct Hv
         | intros Hin; apply In_take in Hin; cbn [In] in Hin;
           intuition discriminate ]].
    change (take 0 relaxed_fields) with (@nil string) in Hv |- *.
    cbn [foldl] in Hv |- *. split; [reflexivity |].
    rewrite (payload_lookup _ _ _ _ "vibe" Hp ltac:(cbn; tauto)) in Hv |- *.
    destruct (keep_field (get eq "vibe")) eqn:Hk; [| now destruct Hv].
    destruct b2.
    + apply should_apply_vibe_true in Hb2 as [_ Hge].
      rewrite Hconf in Hge. subst eq. split; [| exact Hge].
      destruct b1; [reflexivity |].
      cbn zeta. now rewrite !get_delete_ne by discriminate.
    + exfalso. subst eq. cbn zeta in Hk. rewrite get_delete_eq in Hk.
      discriminate Hk.
  - intros Hv.
    assert (Hi1 : (i <= 1)%nat).
    { destruct i as [|[|i]]; [lia | lia | exfalso].
      cbn [take relaxed_fields foldl] in Hv.
      rewrite (proj2 (foldl_delete_sub _ _)) in Hv.
      - rewrite lookup_delete_eq in Hv. now destruct Hv.
      - intros Hin. apply In_take in Hin. cbn [In] in Hin.
        intuition discriminate. }
    split; [exact Hi1 |].
    assert (Hp0 : is_Some (p !! "timeSlot")).
    { destruct Hv as [v Hv]. exists v.
      eapply lookup_weaken; [exact Hv | apply foldl_delete_sub]. }
    apply (payload_time_slot_some _ _ _ _ Hp) in Hp0.
    destruct b1.
    + apply should_apply_time_slot_true in Hb1. exact Hb1.
    + exfalso. subst eq. cbn zeta in Hp0.
      destruct b2; destruct Hp0 as [Hc|Hc]; apply Hc;
        rewrite ?(get_delete_ne _ "vibe") by discriminate;
        rewrite ?(get_delete_ne _ "timeSlot") by discriminate;
        apply get_delete_eq.
Qed.

Lemma filters_need_confidence_witness :
  exists r h' pq0 ctx eq0 same t,
    get_ai_recommendations confident_service "저녁에 한강 러닝" 7 5 []
      = (Ok r, h') /\
    enrich_with_user_context confident_service
      ([] ++ [EvParse "저녁에 한강 러닝"; EvUserContext 7]) pq0 ctx
      = Ok (eq0, same) /\
    search_trace r = Some t /\
    forall i s, steps t !! i = Some s ->
      (is_Some (payload s !! "vibe") ->
       i = 0%nat /\ payload s !! "vibe" = Some (get eq0 "vibe") /\
       py_ge (get_default eq0 "confidence" (VInt 0)) (FFin (9 # 10))
         = Ok true) /\
      (is_Some (payload s !! "timeSlot") ->
       (i <= 1)%nat /\ get eq0 "time_slot" <> VNone /\
       py_ge (get_default eq0 "confidence" (VInt 0)) (FFin (9 # 10))
         = Ok true).
Proof.
  destruct (get_ai_recommendations confident_service "저녁에 한강 러닝" 7 5 [])
    as [[r|e] h'] eqn:Hrun.
  - destruct (filters_need_confidence _ _ _ _ _ _ _ Hrun)
      as (pq0 & ctx & eq0 & same & t & H).
    exists r, h', pq0, ctx, eq0, same, t. split; [reflexivity | exact H].
  - exfalso.
    assert (Hc :
      is_ok (get_ai_recommendations confident_service
               "저녁에 한강 러닝" 7 5 []).1 = true)
      by (vm_compute; reflexivity).
    rewrite Hrun in Hc. discriminate Hc.
Defined.

(** ** The scorer *)

Lemma build_loop_valid (self : Service) (user : dict) (cands : list dict)
    (rows : list row) (feats : list features) (valid : list dict)
    (h : list event) :
  exists rs fs ms h',
    build_loop self user cands (rows, feats, valid) h =
      (Ok (rows ++ rs, feats ++ fs, valid ++ ms), h') /\
    sublist ms (_normalize_meeting self <$> cands).
Proof.
  revert rows feats valid h.
  induction cands as [|raw cands IH]; intros rows feats valid h.
  - exists [], [], [], h. cbn [build_loop fmap list_fmap].
    rewrite !app_nil_r. split; [reflexivity | constructor].
  - cbn [build_loop].
    unfold mbind at 1, IO_bind at 1, try_except.
    unfold mbind at 1, IO_bind at 1, call_raising.
    destruct (feature_builder_build self h user (_normalize_meeting self raw))
      as [[feat x0]|e].
    + destruct (IH (rows ++ [x0]) (feats ++ [feat])
                   (valid ++ [_normalize_meeting self raw])
                   (h ++ [EvFeatureBuild user (_normalize_meeting self raw)]))
        as (rs & fs & ms & h' & Hrun & Hsub).
      exists (x0 :: rs), (feat :: fs), (_normalize_meeting self raw :: ms), h'.
      unfold mret, IO_ret. rewrite Hrun, <- !app_assoc.
      split; [reflexivity |]. rewrite fmap_cons. now constructor.
    + destruct (IH rows feats valid
                   (h ++ [EvFeatureBuild user (_normalize_meeting self raw)]))
        as (rs & fs & ms & h' & Hrun & Hsub).
      exists rs, fs, ms, h'.
      unfold mret, IO_ret. rewrite Hrun.
      split; [reflexivity |]. rewrite fmap_cons. now constructor.
Qed.

Lemma score_loop_fields (self : Service) (ms : list dict)
    (fs : list features) (preds : list pyfloat) (scored : list dict) :
  score_loop self ms fs preds = Ok scored ->
  Forall2 (fun m s =>
             forall k, ~ In k ["predicted_rating"; "match_score"; "key_points"]
                       -> s !! k = m !! k)
          (take (length scored) ms) scored.
Proof.
  revert fs preds scored. induction ms as [|m ms IH]; intros fs preds scored H.
  - injection H as <-. constructor.
  - destruct fs as [|feat fs], preds as [|p preds];
      try (injection H as <-; constructor).
    cbn [score_loop] in H.
    apply result_bind_Ok in H as (b & Hb & H).
    apply result_bind_Ok in H as (rest & Hrest & H).
    injection H as <-. cbn [length take]. constructor; [| eapply IH, Hrest].
    intros k Hk. unfold py_update. cbn [foldl fst snd].
    rewrite !lookup_insert_ne; [reflexivity | | |];
      intros <-; apply Hk; cbn [In]; tauto.
Qed.

(** X16: every candidate the scorer returns is a normalised catalog candidate,
    in the order of the catalog, with nothing but [predicted_rating],
    [match_score] and [key_points] written over: the scorer invents no
    candidate, repeats none and reorders none. *)
Theorem scorer_keeps_order (self : Service) (user_id : Z)
    (ctx : dict) (cands : list dict) (pq : dict) (intent : string)
    (h h' : list event) (scored : list dict) :
  _score_meetings self user_id ctx cands pq intent h = (Ok scored, h') ->
  exists kept,
    sublist kept (_normalize_meeting self <$> cands) /\
    Forall2 (fun m s =>
               forall k,
                 ~ In k ["predicted_rating"; "match_score"; "key_points"] ->
                 s !! k = m !! k) kept scored.
Proof.
  intros H. apply score_meetings_Ok_inv in H
    as (_ & _ & user & rs & fs & ms & _ & Hrun & _ & _ & _ & Hcase).
  destruct (build_loop_valid self user cands [] [] [] h)
    as (rs' & fs' & ms' & h1 & Hrun' & Hsub).
  cbn [app] in Hrun'. rewrite Hrun in Hrun'. injection Hrun' as _ _ <- _.
  destruct Hcase as [(_ & -> & _)|(_ & preds & _ & Hloop & _)].
  - exists []. split; [apply sublist_nil_l | constructor].
  - exists (take (length scored) ms). split.
    + etransitivity; [apply sublist_take | exact Hsub].
    + now apply score_loop_fields in Hloop.
Qed.

Lemma scorer_keeps_order_witness :
  exists scored h' kept,
    _score_meetings scored_service 7 ∅ three_meetings ∅ "QUIET" []
      = (Ok scored, h') /\
    sublist kept (_normalize_meeting scored_service <$> three_meetings) /\
    Forall2 (fun m s =>
               forall k,
                 ~ In k ["predicted_rating"; "match_score"; "key_points"] ->
                 s !! k = m !! k) kept scored.
Proof.
  destruct (_score_meetings scored_service 7 ∅ three_meetings ∅ "QUIET" [])
    as [[scored|e] h'] eqn:Hrun.
  - destruct (scorer_keeps_order _ _ _ _ _ _ _ _ _ Hrun) as (kept & H).
    exists scored, h', kept. split; [reflexivity | exact H].
  - exfalso.
    assert (Hc :
      is_ok (_score_meetings scored_service 7 ∅ three_meetings ∅
               "QUIET" []).1 = true) by (vm_compute; reflexivity).
    rewrite Hrun in Hc. discriminate Hc.
Defined.

(** X17: a returning scorer has asked the feature builder once per candidate,
    in order and each time with the normalised candidate, and then the
    regression model at most once, with one row per accepted candidate: not
    at all when no candidate was accepted, in which case it returns the
    empty list. *)
Theorem scorer_calls (self : Service) (user_id : Z)
    (ctx : dict) (cands : list dict) (pq : dict) (intent : string)
    (h h' : list event) (scored : list dict) :
  _score_meetings self user_id ctx cands pq intent h = (Ok scored, h') ->
  exists user rows,
    scorer_user self ctx = Ok user /\
    h' = h ++ ((fun raw => EvFeatureBuild user (_normalize_meeting self raw))
                 <$> cands)
           ++ (if nonempty rows then [EvPredict rows] else []) /\
    length rows = length (List.filter id (build_outcomes self user cands h)) /\
    (length scored <= length rows)%nat /\
    (rows = [] -> scored = []).
Proof.
  intros H. apply score_meetings_Ok_inv in H
    as (_ & _ & user & rs & fs & ms & Huser & _ & Hrs & _ & Hms & Hcase).
  exists user, rs. split; [exact Huser |].
  destruct Hcase as [(-> & -> & ->)|(Hne & preds & _ & Hloop & ->)].
  - cbn [nonempty]. rewrite app_nil_r. repeat split; auto.
  - destruct rs as [|x0 rs]; [contradiction |]. cbn [nonempty].
    rewrite <- app_assoc. split; [reflexivity |]. split; [exact Hrs |].
    split; [| discriminate].
    apply score_loop_length in Hloop. lia.
Qed.

Lemma scorer_calls_witness :
  exists scored h' user rows,
    _score_meetings scored_service 7 ∅ three_meetings ∅ "QUIET" []
      = (Ok scored, h') /\
    scorer_user scored_service ∅ = Ok user /\
    h' = [] ++ ((fun raw =>
                   EvFeatureBuild user (_normalize_meeting scored_service raw))
                  <$> three_meetings)
            ++ (if nonempty rows then [EvPredict rows] else []) /\
    length rows = length (List.filter id
                    (build_outcomes scored_service user three_meetings [])) /\
    (length scored <= length rows)%nat /\
    (rows = [] -> scored = []).
Proof.
  destruct (_score_meetings scored_service 7 ∅ three_meetings ∅ "QUIET" [])
    as [[scored|e] h'] eqn:Hrun.
  - destruct (scorer_calls _ _ _ _ _ _ _ _ _ Hrun) as (user & rows & H).
    exists scored, h', user, rows. split; [reflexivity | exact H].
  - exfalso.
    assert (Hc :
      is_ok (_score_meetings scored_service 7 ∅ three_meetings ∅
               "QUIET" []).1 = true) by (vm_compute; reflexivity).
    rewrite Hrun in Hc. discriminate Hc.
Defined.

(** X18: a response is returned only with the models of its path loaded: a
    fallback response needs the collaborative model, any other response
    the regression model and the feature builder.  With none of them the
    service returns nothing. *)
Theorem responses_need_models (self : Service) (user_prompt : string)
    (user_id top_n : Z) (h h' : list event) (r : Recommendations) :
  get_ai_recommendations self user_prompt user_id top_n h = (Ok r, h') ->
  (fallback_key r = Some true /\ svd_loaded self = true) \/
  (fallback_key r = None /\
   regressor_loaded self = true /\ feature_builder_loaded self = true).
Proof.
  intros H. apply pipeline_Ok_inv in H
    as (pq & ctx & eq & h1 & cands & trace & h2 & _ & _ & Hcase).
  destruct Hcase as [(_ & data & recs & Hdata & _ & ->)
                    |(_ & scored & h3 & adjusted & top & Hscored & _ & _ &
                      ->)].
  - left. apply fallback_Ok_inv in Hdata
      as (Hsvd & svd & meetings & fscored & _ & _ & -> & _).
    split; [reflexivity | exact Hsvd].
  - right. apply score_meetings_Ok_inv in Hscored as (Hr & Hf & _).
    cbn [fallback_key]. auto.
Qed.

Lemma responses_need_models_witness :
  exists r h',
    get_ai_recommendations scored_service "조용히 카페에서 쉬고 싶어요" 7 5 []
      = (Ok r, h') /\
    ((fallback_key r = Some true /\ svd_loaded scored_service = true) \/
     (fallback_key r = None /\
      regressor_loaded scored_service = true /\
      feature_builder_loaded scored_service = true)).
Proof.
  destruct (get_ai_recommendations scored_service
              "조용히 카페에서 쉬고 싶어요" 7 5 []) as [[r|e] h'] eqn:Hrun.
  - exists r, h'. split; [reflexivity |].
    exact (responses_need_models _ _ _ _ _ _ _ Hrun).
  - exfalso.
    assert (Hc :
      is_ok (get_ai_recommendations scored_service
               "조용히 카페에서 쉬고 싶어요" 7 5 []).1 = true)
      by (vm_compute; reflexivity).
    rewrite Hrun in Hc. discriminate Hc.
Defined.

(** ** From a predicted rating to a match score *)








(** ** Normalised meetings *)

Lemma py_or_not_none (x d : pyval) : d <> VNone -> py_or x d <> VNone.
Proof.
  intros Hd. unfold py_or. destruct (truthy x) eqn:Ht; [| exact Hd].
  intros ->. discriminate Ht.
Qed.

(** X20: a normalised meeting always has the same twenty keys.  Its category,
    subcategory, vibe, participant count, cost, average rating and rating
    count are never [None].  Its [max_participants] has no default: the
    key is written twice, the second time without the 10 of the first, so
    a catalog record with neither spelling gives [None]. *)
Theorem normalized_meeting_fields (self : Service) (m : dict) :
  (forall k, is_Some (_normalize_meeting self m !! k) <->
             In k normalized_keys) /\
  _normalize_meeting self m !! "max_participants" =
    Some (py_or (get m "max_participants") (get m "maxParticipants")) /\
  (m !! "max_participants" = None -> m !! "maxParticipants" = None ->
   _normalize_meeting self m !! "max_participants" = Some VNone) /\
  (forall k, In k ["category"; "subcategory"; "vibe";
                   "meeting_participant_count"; "expected_cost";
                   "meeting_avg_rating"; "meeting_rating_count"] ->
             exists v, _normalize_meeting self m !! k = Some v /\
                       v <> VNone).
Proof.
  unfold _normalize_meeting, py_dict. cbn [foldl fst snd].
  split; [| split; [| split]].
  - intros k. split.
    + rewrite !lookup_insert, lookup_empty.
      repeat (case_decide; [subst k; intros _; cbn [normalized_keys In];
                            tauto |]).
      intros [v Hv]. discriminate Hv.
    + intros Hin. cbn [normalized_keys In] in Hin.
      repeat (destruct Hin as [<-|Hin];
              [rewrite ?lookup_insert_ne by discriminate;
               rewrite lookup_insert_eq; eauto |]).
      destruct Hin.
  - now rewrite lookup_insert_eq.
  - intros H1 H2. rewrite lookup_insert_eq. unfold py_or, get.
    now rewrite H1, H2.
  - intros k Hin. cbn [In] in Hin.
    repeat (destruct Hin as [<-|Hin];
            [rewrite ?lookup_insert_ne by discriminate;
             rewrite lookup_insert_eq; eexists; split; [reflexivity |];
             apply py_or_not_none; discriminate |]).
    destruct Hin.
Qed.

Lemma normalized_meeting_fields_witness :
  _normalize_meeting plain_service {["title" := VStr "한강 러닝"]}
    !! "max_participants" = Some VNone.
Proof.
  apply (normalized_meeting_fields plain_service
           {["title" := VStr "한강 러닝"]}); reflexivity.
Defined.

(** ** Intent *)

(** X21: the intent is one of QUIET, ACTIVE and NEUTRAL; the ASCII case of the
    prompt does not matter; and ACTIVE is decided by the prompt alone,
    whatever the parsed query says. *)
Theorem detect_intent_labels (user_prompt : string) (parsed_query : dict) :
  In (_detect_intent user_prompt parsed_query) ["QUIET"; "ACTIVE"; "NEUTRAL"]
  /\
  _detect_intent (upper user_prompt) parsed_query =
    _detect_intent user_prompt parsed_query /\
  (_detect_intent user_prompt parsed_query = "ACTIVE" ->
   forall q, _detect_intent user_prompt q = "ACTIVE").
Proof.
  unfold _detect_intent. rewrite lower_upper. split; [| split].
  - repeat match goal with
           | |- context [if ?c then _ else _] => destruct c
           end; cbn [In]; tauto.
  - reflexivity.
  - destruct (existsb _ quiet_words); [discriminate |].
    destruct (existsb _ active_words); [reflexivity |].
    destruct (str_in _ _); discriminate.
Qed.

Lemma detect_intent_labels_witness :
  _detect_intent "한강 러닝 RUN" running_query = "ACTIVE".
Proof.
  apply (detect_intent_labels "한강 러닝 RUN" ∅). vm_compute. reflexivity.
Defined.

(** ** The fallback *)









